(** * ACM secure voting system: identity and ballot integrity

    A shallow embedding of the service layer of the voting application
    (services/fileDb.js, services/voting.js, services/auth.js and the
    route handlers that wrap them), followed by the properties of the
    election state machine, the vote ledger and the credential manager.

    Conventions of the embedding.
    - Every [await]ed call runs to completion: a service call is a function
      from the store before the call to a result and the store after it.
    - [Date.now()] and the random strings drawn by the code are explicit
      arguments ([now], [rnd], [token]).
    - Identifiers are JavaScript strings (the admin routes mint them as
      [position_<ms>_<code>] and [candidate_<ms>_<code>]), so [toString()]
      is the identity and [===] is string equality.
    - Epoch milliseconds are integers; [null] is [None].
    - I/O failures of the file system are outside the model. *)

From Stdlib Require Import ZArith List String Bool Lia.
From stdpp Require Import base strings gmap pretty.
Import ListNotations.
Local Open Scope Z_scope.

(** ** JavaScript values used by the services *)

(** Truthiness of a value that is a number or [null]. *)
Definition truthy (t : option Z) : bool :=
  match t with
  | Some n => negb (n =? 0)
  | None => false
  end.

(** [t || null] *)
Definition orNull (t : option Z) : option Z :=
  if truthy t then t else None.

(** Truthiness of a string. *)
Definition truthyStr (s : string) : bool := negb (String.eqb s "").

(** [n] read as a number: [null] counts as 0 in arithmetic. *)
Definition toNumber (t : option Z) : Z := default 0 t.

(** A plain object with string keys, in property order.  Assigning to an
    existing key keeps its place, a new key goes last. *)
Section JsObject.
Context {V : Type}.

Fixpoint obj_get (k : string) (o : list (string * V)) : option V :=
  match o with
  | [] => None
  | (k', v) :: o' => if String.eqb k' k then Some v else obj_get k o'
  end.

Fixpoint obj_set (k : string) (v : V) (o : list (string * V)) : list (string * V) :=
  match o with
  | [] => [(k, v)]
  | (k', v') :: o' =>
      if String.eqb k' k then (k', v) :: o' else (k', v') :: obj_set k v o'
  end.

(** [o[k] = f(o[k])] for a key that may be absent (then nothing happens). *)
Fixpoint obj_alter (f : V -> V) (k : string) (o : list (string * V)) : list (string * V) :=
  match o with
  | [] => []
  | (k', v') :: o' =>
      if String.eqb k' k then (k', f v') :: o' else (k', v') :: obj_alter f k o'
  end.

(** Truthiness of [o[k]] when the values are objects. *)
Definition obj_has (k : string) (o : list (string * V)) : bool :=
  match obj_get k o with
  | Some _ => true
  | None => false
  end.

Definition obj_keys (o : list (string * V)) : list string := map fst o.
End JsObject.

(** ** Configuration (config/config.js) *)

Module config.
Definition session_duration : Z := 30 * 60 * 1000.
Definition otp_expiry : Z := 10 * 60 * 1000.
End config.

(** ** Data model *)

Record ElectionStatus := mkStatus {
  isActive : bool;
  startTime : option Z;
  endTime : option Z;
  duration : Z  (* 0 stands for a missing or falsy field of a stored record *)
}.

Record Position := mkPosition {
  pos_id : string;
  pos_name : string;
  pos_description : string;
  pos_isActive : bool
}.

Record Candidate := mkCandidate {
  cand_id : string;
  cand_name : string;
  cand_positionId : string;
  cand_info : string;
  cand_isActive : bool
}.

Record Vote := mkVote {
  vote_id : string;
  vote_memberId : string;
  vote_timestamp : Z;
  vote_votes : list (string * string)  (* position id -> candidate id *)
}.

Record Member := mkMember {
  member_id : string;
  member_name : string;
  member_phoneNumber : string
}.

Record Session := mkSession {
  sess_id : string;
  sess_memberId : option string;
  sess_isAdmin : bool;
  sess_createdAt : Z;
  sess_expiresAt : Z
}.

(** The data files, one array of records per entity type. *)
Record Store := mkStore {
  members : list Member;
  positions : list Position;
  candidates : list Candidate;
  votes : list Vote;
  sessions : list Session;
  electionStatus : list ElectionStatus
}.

Definition set_votes (vs : list Vote) (db : Store) : Store :=
  mkStore (members db) (positions db) (candidates db) vs (sessions db) (electionStatus db).

Definition set_sessions (ss : list Session) (db : Store) : Store :=
  mkStore (members db) (positions db) (candidates db) (votes db) ss (electionStatus db).

Definition set_electionStatus (es : list ElectionStatus) (db : Store) : Store :=
  mkStore (members db) (positions db) (candidates db) (votes db) (sessions db) es.

(** ** services/fileDb.js, on the array read from one file *)

Module fileDb.
Section Records.
Context {R K : Type} `{EqDecision K}.
Variable field : R -> K.

Definition matches (value : K) (record : R) : bool :=
  bool_decide (field record = value).

Fixpoint findIndex (p : R -> bool) (records : list R) : option nat :=
  match records with
  | [] => None
  | r :: rs => if p r then Some O else S <$> findIndex p rs
  end.

(** [records.find(record => record[field] === value) || null] *)
Definition findBy (value : K) (records : list R) : option R :=
  find (matches value) records.

(** [records.push(record)] and write back. *)
Definition create (record : R) (records : list R) : list R :=
  records ++ [record].

(** [records[index] = { ...records[index], ...updates }]; [patch] is the
    spread of [updates] over a record.  [null] when nothing matches. *)
Definition update (value : K) (patch : R -> R) (records : list R)
  : option R * list R :=
  match findIndex (matches value) records with
  | None => (None, records)
  | Some index =>
      match records !! index with
      | Some r => (Some (patch r), <[index := patch r]> records)
      | None => (None, records)
      end
  end.

(** [records.splice(index, 1)]; [false] when nothing matches. *)
Definition remove (value : K) (records : list R) : bool * list R :=
  match findIndex (matches value) records with
  | None => (false, records)
  | Some index => (true, delete index records)
  end.
End Records.
End fileDb.

(** ** services/voting.js, file-backed election status *)

Inductive StartResult :=
| ElectionStarted (newStatus : ElectionStatus)  (* 'Election started successfully' *)
| AlreadyActive.                                (* 'Election is already in progress' *)

Inductive EndResult :=
| ElectionEnded (newStatus : ElectionStatus)    (* 'Election ended successfully' *)
| NotActive.                                    (* 'No active election to end' *)

Inductive SubmitResult :=
| VoteSubmitted (voteId : string)      (* 'Vote submitted successfully' *)
| ElectionNotActive                    (* 'Voting is not currently active' *)
| AlreadyVoted (voteId : string)       (* 'You have already cast your vote in this election' *)
| InvalidPosition (positionId : string)    (* 'Invalid position ID: ...' *)
| InvalidCandidate (positionId : string).  (* 'Invalid candidate ID for position ...' *)

Record StatusView := mkView {
  sv_isActive : bool;
  sv_startTime : option Z;
  sv_endTime : option Z;
  sv_timeRemaining : option string
}.

Inductive StatusLabel := InProgress | Ended | NotStarted.

Record CandidateResult := mkCandidateResult {
  cr_id : string;
  cr_name : string;
  cr_votes : nat;
  cr_isWinner : bool
}.

Record PositionResult := mkPositionResult {
  pr_id : string;
  pr_name : string;
  pr_status : StatusLabel;
  pr_candidates : list (string * CandidateResult)
}.

Record Results := mkResults {
  res_results : list (string * PositionResult);
  res_isActive : bool;
  res_startTime : option Z;
  res_endTime : option Z
}.

Record Dashboard := mkDashboard {
  dash_totalVotes : nat;
  dash_eligibleVoters : nat;
  dash_electionStatus : StatusLabel;
  dash_timeRemaining : option string;
  dash_startTime : option Z;
  dash_endTime : option Z;
  dash_results : list (string * PositionResult)
}.

Definition hour_ms : Z := 60 * 60 * 1000.
Definition minute_ms : Z := 60 * 1000.
Definition day_ms : Z := 24 * 60 * 60 * 1000.

(** [`${hours}h ${minutes}m`] *)
Definition formatRemaining (hours minutes : Z) : string :=
  pretty hours +:+ "h " +:+ pretty minutes +:+ "m".

(** [isActive ? 'In Progress' : (endTime ? 'Ended' : 'Not Started')] *)
Definition statusLabel (active : bool) (endT : option Z) : StatusLabel :=
  if active then InProgress else if truthy endT then Ended else NotStarted.

Definition setWinner (c : CandidateResult) : CandidateResult :=
  mkCandidateResult (cr_id c) (cr_name c) (cr_votes c) true.

Definition incVotes (c : CandidateResult) : CandidateResult :=
  mkCandidateResult (cr_id c) (cr_name c) (S (cr_votes c)) (cr_isWinner c).

Module voting.

Definition defaultElectionStatus : ElectionStatus :=
  mkStatus false None None day_ms.

Definition loadElectionStatus (db : Store) : ElectionStatus :=
  match electionStatus db with
  | [] => defaultElectionStatus
  | status :: _ =>
      mkStatus (isActive status || false)
               (orNull (startTime status))
               (orNull (endTime status))
               (if duration status =? 0 then day_ms else duration status)
  end.

(** [fileDb.update('electionStatus', 'duration', oldStatus.duration,
    newStatus)]: the record found by its duration takes all four fields of
    [newStatus].  A [null] from [update] raises nothing, so the fallback
    that rewrites the file is not reached. *)
Definition saveElectionStatus (newStatus oldStatus : ElectionStatus) (db : Store)
  : bool * Store :=
  let '(_, records) :=
    fileDb.update duration (duration oldStatus) (fun _ => newStatus)
                  (electionStatus db) in
  (true, set_electionStatus records db).

(** The candidate a ballot entry must name. *)
Definition validCandidate (positionId candidateId : string) (candidate : Candidate) : bool :=
  String.eqb (cand_id candidate) candidateId
  && String.eqb (cand_positionId candidate) positionId
  && cand_isActive candidate.

Definition activePositionIds (db : Store) : list string :=
  map pos_id (List.filter pos_isActive (positions db)).

Definition voteIdOf (now : Z) (rnd : string) : string :=
  "vote_" +:+ pretty now +:+ "_" +:+ rnd.

Definition submitVote (now : Z) (rnd : string)
           (memberId : string) (ballot : list (string * string)) (db : Store)
  : SubmitResult * Store :=
  let electionStatus := loadElectionStatus db in
  if negb (isActive electionStatus) then (ElectionNotActive, db) else
  match fileDb.findBy vote_memberId memberId (votes db) with
  | Some existingVote => (AlreadyVoted (vote_id existingVote), db)
  | None =>
    match find (fun positionId =>
                  negb (bool_decide (positionId ∈ activePositionIds db)))
               (obj_keys ballot) with
    | Some positionId => (InvalidPosition positionId, db)
    | None =>
      match find (fun entry : string * string =>
                    let (positionId, candidateId) := entry in
                    match find (validCandidate positionId candidateId)
                               (candidates db) with
                    | Some _ => false
                    | None => true
                    end) ballot with
      | Some (positionId, _) => (InvalidCandidate positionId, db)
      | None =>
        let voteId := voteIdOf now rnd in
        let voteRecord := mkVote voteId memberId now ballot in
        (VoteSubmitted voteId,
         set_votes (fileDb.create voteRecord (votes db)) db)
      end
    end
  end.

(** The [reduce] that builds the zeroed tally object of one position. *)
Definition initialTally (candidates : list Candidate) (position : Position)
  : list (string * CandidateResult) :=
  fold_left
    (fun acc candidate =>
       obj_set (cand_id candidate)
               (mkCandidateResult (cand_id candidate) (cand_name candidate) O false)
               acc)
    (List.filter (fun candidate =>
                    String.eqb (cand_positionId candidate) (pos_id position)
                    && cand_isActive candidate) candidates)
    [].

(** One iteration of [for (const vote of votes)]. *)
Definition countVote (position : Position)
           (positionCandidates : list (string * CandidateResult)) (vote : Vote)
  : list (string * CandidateResult) :=
  match obj_get (pos_id position) (vote_votes vote) with
  | Some candidateId =>
      if truthyStr candidateId && obj_has candidateId positionCandidates
      then obj_alter incVotes candidateId positionCandidates
      else positionCandidates
  | None => positionCandidates
  end.

(** One iteration of [for (const candidateId in positionCandidates)]. *)
Definition winnerStep (acc : nat * list string) (entry : string * CandidateResult)
  : nat * list string :=
  let '(maxVotes, winnerIds) := acc in
  let '(candidateId, candidate) := entry in
  if (maxVotes <? cr_votes candidate)%nat then (cr_votes candidate, [candidateId])
  else if (cr_votes candidate =? maxVotes)%nat && (0 <? maxVotes)%nat
       then (maxVotes, winnerIds ++ [candidateId])
       else (maxVotes, winnerIds).

Definition markWinners (winnerIds : list string)
           (positionCandidates : list (string * CandidateResult))
  : list (string * CandidateResult) :=
  fold_left (fun pc winnerId => obj_alter setWinner winnerId pc)
            winnerIds positionCandidates.

Definition determineWinners (electionStatus : ElectionStatus)
           (positionCandidates : list (string * CandidateResult))
  : list (string * CandidateResult) :=
  if negb (isActive electionStatus) && truthy (endTime electionStatus) then
    let '(_, winnerIds) := fold_left winnerStep positionCandidates (O, []) in
    markWinners winnerIds positionCandidates
  else positionCandidates.

(** The body of [for (const position of positions)] for an active one. *)
Definition positionResult (electionStatus : ElectionStatus)
           (candidates : list Candidate) (votes : list Vote) (position : Position)
  : PositionResult :=
  let positionCandidates := initialTally candidates position in
  let positionCandidates := fold_left (countVote position) votes positionCandidates in
  let positionCandidates := determineWinners electionStatus positionCandidates in
  mkPositionResult (pos_id position) (pos_name position)
                   (statusLabel (isActive electionStatus) (endTime electionStatus))
                   positionCandidates.

Definition getResults (detailed : bool) (db : Store) : Results :=
  let electionStatus := loadElectionStatus db in
  let results :=
    fold_left
      (fun results position =>
         if negb (pos_isActive position) then results
         else obj_set (pos_id position)
                      (positionResult electionStatus (candidates db) (votes db) position)
                      results)
      (positions db) [] in
  mkResults results (isActive electionStatus) (startTime electionStatus)
            (endTime electionStatus).

(** The [duration] parameter is never read by the body. *)
Definition startElection (duration_arg : option Z) (now : Z) (db : Store)
  : StartResult * Store :=
  let electionStatus := loadElectionStatus db in
  if isActive electionStatus then (AlreadyActive, db) else
  let newStatus :=
    mkStatus true (Some now) None
             (if duration electionStatus =? 0 then day_ms
              else duration electionStatus) in
  let '(_, db') := saveElectionStatus newStatus electionStatus db in
  (ElectionStarted newStatus, db').

Definition endElection (now : Z) (db : Store) : EndResult * Store :=
  let electionStatus := loadElectionStatus db in
  if negb (isActive electionStatus) then (NotActive, db) else
  let newStatus :=
    mkStatus false (startTime electionStatus) (Some now) (duration electionStatus) in
  let '(_, db') := saveElectionStatus newStatus electionStatus db in
  (ElectionEnded newStatus, db').

Definition getElectionStatus (now : Z) (db : Store) : StatusView * Store :=
  let electionStatus := loadElectionStatus db in
  if isActive electionStatus && truthy (startTime electionStatus) then
    let endT := toNumber (startTime electionStatus) + duration electionStatus in
    let remaining := endT - now in
    if remaining <=? 0 then
      let newStatus :=
        mkStatus false (startTime electionStatus) (Some now)
                 (duration electionStatus) in
      let '(_, db') := saveElectionStatus newStatus electionStatus db in
      (mkView false (startTime electionStatus) (Some now) (Some "0h 0m"), db')
    else
      let hours := remaining / hour_ms in
      let minutes := Z.rem remaining hour_ms / minute_ms in
      (mkView (isActive electionStatus) (startTime electionStatus)
              (endTime electionStatus) (Some (formatRemaining hours minutes)), db)
  else
    (mkView (isActive electionStatus) (startTime electionStatus)
            (endTime electionStatus) None, db).

Definition getDashboardData (now : Z) (db : Store) : Dashboard * Store :=
  let resultsData := getResults true db in
  let eligibleVoters := length (members db) in
  let totalVotes := length (votes db) in
  let '(status, db') := getElectionStatus now db in
  (mkDashboard totalVotes eligibleVoters
               (statusLabel (sv_isActive status) (sv_endTime status))
               (sv_timeRemaining status) (sv_startTime status) (sv_endTime status)
               (res_results resultsData), db').

End voting.

(** ** services/voting.js, in-memory election status

    The earlier variant of the service keeps the status in a module
    variable; the state threaded through the calls is that variable. *)

Module votingInMemory.

Definition initialElectionStatus : ElectionStatus :=
  mkStatus false None None day_ms.

Definition startElection (duration_arg : option Z) (now : Z)
           (electionStatus : ElectionStatus) : StartResult * ElectionStatus :=
  if isActive electionStatus then (AlreadyActive, electionStatus) else
  let electionStatus :=
    mkStatus true (Some now) None
             (if truthy duration_arg then toNumber duration_arg else day_ms) in
  (ElectionStarted electionStatus, electionStatus).

Definition endElection (now : Z) (electionStatus : ElectionStatus)
  : EndResult * ElectionStatus :=
  if negb (isActive electionStatus) then (NotActive, electionStatus) else
  let electionStatus :=
    mkStatus false (startTime electionStatus) (Some now) (duration electionStatus) in
  (ElectionEnded electionStatus, electionStatus).

Definition getElectionStatus (now : Z) (electionStatus : ElectionStatus)
  : StatusView * ElectionStatus :=
  if isActive electionStatus && truthy (startTime electionStatus) then
    let endT := toNumber (startTime electionStatus) + duration electionStatus in
    let remaining := endT - now in
    if remaining <=? 0 then
      let electionStatus :=
        mkStatus false (startTime electionStatus) (Some now)
                 (duration electionStatus) in
      (mkView (isActive electionStatus) (startTime electionStatus)
              (endTime electionStatus) (Some "0h 0m"), electionStatus)
    else
      let hours := remaining / hour_ms in
      let minutes := Z.rem remaining hour_ms / minute_ms in
      (mkView (isActive electionStatus) (startTime electionStatus)
              (endTime electionStatus) (Some (formatRemaining hours minutes)),
       electionStatus)
  else
    (mkView (isActive electionStatus) (startTime electionStatus)
            (endTime electionStatus) None, electionStatus).

End votingInMemory.

(** ** services/auth.js *)

Record OtpData := mkOtp {
  otp : string;
  expiryTime : Z;
  otp_memberId : string;
  attempts : nat
}.

(** The process: the [activeOTPs] map held in memory, and the data files. *)
Record System := mkSystem {
  activeOTPs : gmap string OtpData;
  store : Store
}.

Inductive LoginResult :=
| CodeSent          (* 'Verification code sent to your phone.' *)
| UnknownIdentity.  (* 'Invalid membership number. Please check and try again.' *)

Inductive VerifyResult :=
| Verified (sessionToken memberId memberName : string)
           (hasVoted : bool) (voteId : option string)
| NoActiveChallenge   (* '... has expired or was never sent. Please request a new code.' *)
| ChallengeExpired    (* 'Verification code has expired. Please request a new code.' *)
| TooManyAttempts     (* 'Too many failed attempts. Please request a new verification code.' *)
| CodeMismatch        (* 'Invalid verification code. Please try again.' *)
| MemberNotFound.     (* 'Member account not found. Please contact the administrator.' *)

Module auth.

(** [code] is the value drawn by [security.generateOTP()]. *)
Definition verifyMember (now : Z) (code : string) (phoneNumber : string)
           (sys : System) : LoginResult * System :=
  match fileDb.findBy member_phoneNumber phoneNumber (members (store sys)) with
  | None => (UnknownIdentity, sys)
  | Some member =>
      let expiryTime := now + config.otp_expiry in
      (CodeSent,
       mkSystem (<[phoneNumber := mkOtp code expiryTime (member_id member) O]>
                   (activeOTPs sys))
                (store sys))
  end.

(** [token] is the value drawn by [security.generateSessionToken()].
    [otpData.attempts += 1] updates the object held by the map. *)
Definition verifyOTP (now : Z) (token : string) (phoneNumber code : string)
           (sys : System) : VerifyResult * System :=
  match activeOTPs sys !! phoneNumber with
  | None => (NoActiveChallenge, sys)
  | Some otpData =>
    if expiryTime otpData <? now then
      (ChallengeExpired, mkSystem (delete phoneNumber (activeOTPs sys)) (store sys))
    else
      let otpData :=
        mkOtp (otp otpData) (expiryTime otpData) (otp_memberId otpData)
              (attempts otpData + 1)%nat in
      let otps := <[phoneNumber := otpData]> (activeOTPs sys) in
      if (5 <=? attempts otpData)%nat then
        (TooManyAttempts, mkSystem (delete phoneNumber otps) (store sys))
      else if negb (String.eqb (otp otpData) code) then
        (CodeMismatch, mkSystem otps (store sys))
      else
        match fileDb.findBy member_id (otp_memberId otpData) (members (store sys)) with
        | None => (MemberNotFound, mkSystem otps (store sys))
        | Some member =>
            let sessionRecord :=
              mkSession token (Some (member_id member)) false now
                        (now + config.session_duration) in
            let db := set_sessions
                        (fileDb.create sessionRecord (sessions (store sys)))
                        (store sys) in
            let otps := delete phoneNumber otps in
            let vote := fileDb.findBy vote_memberId (member_id member) (votes db) in
            (Verified token (member_id member) (member_name member)
                      (match vote with Some _ => true | None => false end)
                      (vote_id <$> vote),
             mkSystem otps db)
        end
  end.

(** [sessionToken] is [None] when the caller has no token at all. *)
Definition endSession (sessionToken : option string) (db : Store) : bool * Store :=
  match sessionToken with
  | None => (false, db)
  | Some sessionToken =>
      if negb (truthyStr sessionToken) then (false, db) else
      let '(result, records) := fileDb.remove sess_id sessionToken (sessions db) in
      (result, set_sessions records db)
  end.

End auth.

(** ** Route handlers that wrap the services *)

Inductive SubmitResponse :=
| Forbidden            (* 403 'Voting is not currently active' *)
| NoVotesSubmitted     (* 400 'No votes submitted' *)
| BadRequest (result : SubmitResult)   (* 400 with the service's failure *)
| Ok (result : SubmitResult).          (* 200 with the service's success *)

Inductive StartResponse :=
| BadDuration          (* 400 'Duration must be a positive number (milliseconds)' *)
| StartRefused (result : StartResult)
| StartOk (result : StartResult).

Module routes.

(** POST /submit of routes/voting.js, past the session middleware. *)
Definition submit (now : Z) (rnd : string) (memberId : string)
           (ballot : option (list (string * string))) (db : Store)
  : SubmitResponse * Store :=
  let '(status, db) := voting.getElectionStatus now db in
  if negb (sv_isActive status) then (Forbidden, db) else
  match ballot with
  | None => (NoVotesSubmitted, db)
  | Some ballot =>
      if (length (obj_keys ballot) =? 0)%nat then (NoVotesSubmitted, db) else
      let '(result, db) := voting.submitVote now rnd memberId ballot db in
      match result with
      | VoteSubmitted _ => (Ok result, db)
      | _ => (BadRequest result, db)
      end
  end.

(** POST /election/start of routes/admin.js; [duration] is the parsed
    request field, [None] when the body has none. *)
Definition electionStart (duration_field : option Z) (now : Z) (db : Store)
  : StartResponse * Store :=
  let run parsedDuration :=
    let '(result, db) := voting.startElection parsedDuration now db in
    match result with
    | ElectionStarted _ => (StartOk result, db)
    | AlreadyActive => (StartRefused result, db)
    end in
  if truthy duration_field then
    if toNumber duration_field <? 1 then (BadDuration, db)
    else run duration_field
  else run None.

(** POST /logout of routes/auth.js: the answer does not depend on what
    [endSession] returned. *)
Definition logout (cookie : option string) (db : Store) : bool * Store :=
  match cookie with
  | Some sessionToken =>
      if truthyStr sessionToken then
        let '(_, db) := auth.endSession (Some sessionToken) db in
        (true, db)
      else (true, db)
  | None => (true, db)
  end.

End routes.

(** ** Calls made one after another

    [step] runs one call from its first line to its return, and [run] a
    list of calls in that order: the next call starts when the previous one
    has returned.  Calls that are in flight together are the subject of
    [inflight] below. *)

(** The calls a client can make, with the values the environment supplies. *)
Inductive Op :=
| OpSubmitVote (now : Z) (rnd memberId : string) (ballot : list (string * string))
| OpSubmitRoute (now : Z) (rnd memberId : string) (ballot : option (list (string * string)))
| OpGetResults (detailed : bool)
| OpStartElection (duration_arg : option Z) (now : Z)
| OpEndElection (now : Z)
| OpGetElectionStatus (now : Z)
| OpGetDashboardData (now : Z)
| OpVerifyMember (now : Z) (code phoneNumber : string)
| OpVerifyOTP (now : Z) (token phoneNumber code : string)
| OpEndSession (sessionToken : option string)
| OpLogout (cookie : option string).

Definition onStore (f : Store -> Store) (sys : System) : System :=
  mkSystem (activeOTPs sys) (f (store sys)).

Definition step (sys : System) (op : Op) : System :=
  match op with
  | OpSubmitVote now rnd m ballot =>
      onStore (fun db => snd (voting.submitVote now rnd m ballot db)) sys
  | OpSubmitRoute now rnd m ballot =>
      onStore (fun db => snd (routes.submit now rnd m ballot db)) sys
  | OpGetResults detailed => sys
  | OpStartElection d now =>
      onStore (fun db => snd (voting.startElection d now db)) sys
  | OpEndElection now => onStore (fun db => snd (voting.endElection now db)) sys
  | OpGetElectionStatus now =>
      onStore (fun db => snd (voting.getElectionStatus now db)) sys
  | OpGetDashboardData now =>
      onStore (fun db => snd (voting.getDashboardData now db)) sys
  | OpVerifyMember now code phone => snd (auth.verifyMember now code phone sys)
  | OpVerifyOTP now token phone code => snd (auth.verifyOTP now token phone code sys)
  | OpEndSession token => onStore (fun db => snd (auth.endSession token db)) sys
  | OpLogout cookie => onStore (fun db => snd (routes.logout cookie db)) sys
  end.

Definition run (ops : list Op) (sys : System) : System := fold_left step ops sys.

(** ** Submissions in flight together

    [submitVote] is an async function: it gives up control at each [await],
    and nothing keeps a second request from running in between.  The turn
    boundary kept here is the one before the last [await], the
    [fileDb.create] of the vote record; the reads of the checks, which
    the code also awaits one by one, are taken in one turn, and so is
    [fileDb.create], itself a read of the file followed by a write. *)

Inductive Progress :=
| Waiting (now : Z) (rnd memberId : string) (ballot : list (string * string))
| Checked (voteRecord : Vote)       (* every check passed, [create] not yet run *)
| Answered (result : SubmitResult).

Module inflight.

(** [submitVote] from its first line to the construction of [voteRecord]:
    a rejection, or the record it is about to create. *)
Definition submitVote_checks (now : Z) (rnd : string)
           (memberId : string) (ballot : list (string * string)) (db : Store)
  : SubmitResult + Vote :=
  let electionStatus := voting.loadElectionStatus db in
  if negb (isActive electionStatus) then inl ElectionNotActive else
  match fileDb.findBy vote_memberId memberId (votes db) with
  | Some existingVote => inl (AlreadyVoted (vote_id existingVote))
  | None =>
    match find (fun positionId =>
                  negb (bool_decide (positionId ∈ voting.activePositionIds db)))
               (obj_keys ballot) with
    | Some positionId => inl (InvalidPosition positionId)
    | None =>
      match find (fun entry : string * string =>
                    let (positionId, candidateId) := entry in
                    match find (voting.validCandidate positionId candidateId)
                               (candidates db) with
                    | Some _ => false
                    | None => true
                    end) ballot with
      | Some (positionId, _) => inl (InvalidCandidate positionId)
      | None => inr (mkVote (voting.voteIdOf now rnd) memberId now ballot)
      end
    end
  end.

(** The event loop resumes one request until its next turn boundary. *)
Definition resume (p : Progress) (db : Store) : Progress * Store :=
  match p with
  | Waiting now rnd memberId ballot =>
      match submitVote_checks now rnd memberId ballot db with
      | inl rejection => (Answered rejection, db)
      | inr voteRecord => (Checked voteRecord, db)
      end
  | Checked voteRecord =>
      (Answered (VoteSubmitted (vote_id voteRecord)),
       set_votes (fileDb.create voteRecord (votes db)) db)
  | Answered _ => (p, db)
  end.

(** The requests in flight, resumed in the order [turns] names them. *)
Fixpoint interleave (turns : list nat) (requests : list Progress) (db : Store)
  : list Progress * Store :=
  match turns with
  | [] => (requests, db)
  | i :: turns =>
      match requests !! i with
      | Some p =>
          let '(p', db') := resume p db in
          interleave turns (<[i := p']> requests) db'
      | None => interleave turns requests db
      end
  end.

End inflight.

(** A series of [verifyOTP] calls for one contact, each with its clock
    reading, the token it would mint and the code submitted. *)
Fixpoint verifyAll (phoneNumber : string) (calls : list (Z * string * string))
         (sys : System) : list VerifyResult * System :=
  match calls with
  | [] => ([], sys)
  | (now, token, code) :: calls =>
      let '(result, sys) := auth.verifyOTP now token phoneNumber code sys in
      let '(results, sys) := verifyAll phoneNumber calls sys in
      (result :: results, sys)
  end.

(** No two vote records carry the same member identifier. *)
Definition oneVotePerMember (db : Store) : Prop :=
  List.NoDup (map vote_memberId (votes db)).

(** The number of vote records of one member. *)
Definition votesOf (memberId : string) (db : Store) : nat :=
  length (List.filter (fileDb.matches vote_memberId memberId) (votes db)).

(** The tally [getResults(true)] reports for a candidate of a position. *)
Definition tally (db : Store) (positionId candidateId : string) : option nat :=
  match obj_get positionId (res_results (voting.getResults true db)) with
  | Some pr => cr_votes <$> obj_get candidateId (pr_candidates pr)
  | None => None
  end.

(** The loop of [getResults] over the positions, from a results object. *)
Definition buildResults (st : ElectionStatus) (cands : list Candidate) (vs : list Vote)
           (ps : list Position) (results : list (string * PositionResult))
  : list (string * PositionResult) :=
  fold_left
    (fun results position =>
       if negb (pos_isActive position) then results
       else obj_set (pos_id position)
                    (voting.positionResult st cands vs position) results)
    ps results.

(** The entries under one key of two results objects built from the same
    positions over two vote files: both absent, or both made from the same
    position. *)
Definition relatedEntries (st : ElectionStatus) (cands : list Candidate)
           (vs1 vs2 : list Vote) (positionId : string)
           (r1 r2 : list (string * PositionResult)) : Prop :=
  (obj_get positionId r1 = None /\ obj_get positionId r2 = None)
  \/ exists position,
       pos_isActive position = true /\ pos_id position = positionId
       /\ obj_get positionId r1 = Some (voting.positionResult st cands vs1 position)
       /\ obj_get positionId r2 = Some (voting.positionResult st cands vs2 position).

(** Whether a vote record raises the tally of a candidate of a position. *)
Definition raises (v : Vote) (positionId candidateId : string) : bool :=
  match obj_get positionId (vote_votes v) with
  | Some chosen => String.eqb chosen candidateId && truthyStr candidateId
  | None => false
  end.

(** The election states of the specification, read off a status record. *)
Definition isNotStarted (st : ElectionStatus) : Prop :=
  isActive st = false /\ truthy (endTime st) = false.
Definition isEnded (st : ElectionStatus) : Prop :=
  isActive st = false /\ truthy (endTime st) = true.

(** The tally object of a position once every vote has been counted,
    before winners are marked. *)
Definition countedTally (candidates : list Candidate) (votes : list Vote)
           (position : Position) : list (string * CandidateResult) :=
  fold_left (voting.countVote position) votes (voting.initialTally candidates position).

(** A tally object as the counting loop leaves it: one entry per key, none
    marked as winner yet. *)
Definition unmarked (pc : list (string * CandidateResult)) : Prop :=
  List.NoDup (obj_keys pc)
  /\ forall k c, obj_get k pc = Some c -> cr_isWinner c = false.

(** What the winner loop has established after the entries [seen]. *)
Definition winnerInv (seen : list (string * CandidateResult))
           (acc : nat * list string) : Prop :=
  (forall k c, In (k, c) seen -> (cr_votes c <= fst acc)%nat)
  /\ (fst acc = O \/ exists k c, In (k, c) seen /\ cr_votes c = fst acc)
  /\ (forall k, In k (snd acc) <->
                exists c, In (k, c) seen /\ cr_votes c = fst acc /\ (0 < fst acc)%nat).

(** ** Sample data *)

Module sample.
Definition idle : ElectionStatus := mkStatus false None None day_ms.
Definition ended : ElectionStatus := mkStatus false (Some 1000) (Some 2000) day_ms.
Definition running : ElectionStatus := mkStatus true (Some 1000) None 1000.

Definition president : Position := mkPosition "position_1_AAAAAA" "President" "" true.
Definition ann : Candidate :=
  mkCandidate "candidate_1_ann" "Ann" "position_1_AAAAAA" "" true.
Definition bob : Candidate :=
  mkCandidate "candidate_2_bob" "Bob" "position_1_AAAAAA" "" true.
Definition cyd : Candidate :=
  mkCandidate "candidate_3_cyd" "Cyd" "position_1_AAAAAA" "" true.

Definition alice : Member := mkMember "member_1" "Alice" "+15550000001".

Definition db_with (st : ElectionStatus) (vs : list Vote) : Store :=
  mkStore [alice] [president] [ann; bob; cyd] vs [] [st].

Definition ballot_for (c : Candidate) : list (string * string) :=
  [(cand_positionId c, cand_id c)].

Definition vote_by (n : Z) (c : Candidate) : Vote :=
  mkVote (voting.voteIdOf n "x") ("member_" +:+ pretty n) n (ballot_for c).

(** Ann 3, Bob 3, Cyd 2. *)
Definition tie_votes : list Vote :=
  [vote_by 1 ann; vote_by 2 bob; vote_by 3 cyd; vote_by 4 ann;
   vote_by 5 bob; vote_by 6 cyd; vote_by 7 ann; vote_by 8 bob].

Definition db_idle : Store := db_with idle [].
Definition db_ended : Store := db_with ended [].
Definition db_running : Store := db_with running [].
Definition db_tie : Store := db_with ended tie_votes.

(** The president's entry of the results once the tied election ended. *)
Definition tie_result : PositionResult :=
  voting.positionResult ended [ann; bob; cyd] tie_votes president.

(** An active record whose duration field is missing. *)
Definition running_no_duration : ElectionStatus := mkStatus true (Some 1000) None 0.
Definition db_no_duration : Store := db_with running_no_duration [].

Definition running_long : ElectionStatus := mkStatus true (Some 1000) None 9000000.
Definition db_running_long : Store := db_with running_long [].

(** Two submissions of Alice, sent together. *)
Definition first_request : Progress :=
  Waiting 1500 "x" "member_1" (ballot_for ann).
Definition second_request : Progress :=
  Waiting 1501 "y" "member_1" (ballot_for bob).

Definition sys0 : System := mkSystem ∅ db_idle.

(** Alice has asked for a code at time 0 and was sent 123456. *)
Definition sys_challenged : System :=
  snd (auth.verifyMember 0 "123456" "+15550000001" sys0).

Definition wrong (now : Z) : Z * string * string := (now, "tok", "000000").
Definition right (now : Z) : Z * string * string := (now, "tok", "123456").

Definition session_of (token : string) : Session :=
  mkSession token (Some "member_1") false 0 config.session_duration.

Definition db_logged_in : Store :=
  set_sessions [session_of "tok_a"; session_of "tok_b"] db_idle.
End sample.

(** ** The rest of the service layer

    The functions of the same files that the properties above do not
    reach: the ballot, the session functions of auth.js, the middleware
    and the remaining routes. *)

Record BallotCandidate := mkBallotCandidate {
  bc_id : string;
  bc_name : string;
  bc_info : string
}.

Record BallotPosition := mkBallotPosition {
  bp_id : string;
  bp_name : string;
  bp_description : string;
  bp_candidates : list BallotCandidate
}.

Module ballot.

(** [getBallot] of services/voting.js; the [positions] of its answer,
    each candidate with the fields of [Candidate] that the ballot copies. *)
Definition getBallot (db : Store) : list BallotPosition :=
  match positions db with
  | [] => []
  | _ =>
      map (fun position =>
             let positionCandidates :=
               map (fun candidate =>
                      mkBallotCandidate (cand_id candidate) (cand_name candidate)
                                        (cand_info candidate))
                   (List.filter
                      (fun candidate =>
                         String.eqb (cand_positionId candidate) (pos_id position)
                         && cand_isActive candidate)
                      (candidates db)) in
             mkBallotPosition (pos_id position) (pos_name position)
                              (pos_description position) positionCandidates)
          (List.filter pos_isActive (positions db))
  end.

End ballot.

(** Whether a ballot offers candidate [candidateId] for [positionId]. *)
Definition offers (b : list BallotPosition) (positionId candidateId : string) : Prop :=
  exists bp bc,
    In bp b /\ bp_id bp = positionId
    /\ In bc (bp_candidates bp) /\ bc_id bc = candidateId.

Inductive ResendResult :=
| CodeResent      (* 'New verification code sent to your phone.' *)
| UnknownPhone.   (* 'Invalid phone number. Please check and try again.' *)

Record SessionInfo := mkSessionInfo {
  si_sessionToken : string;
  si_memberId : string;
  si_memberName : string;
  si_hasVoted : bool;
  si_voteId : option string
}.

Record Admin := mkAdmin {
  admin_id : string;
  admin_username : string;
  admin_passwordHash : string;
  admin_isDefaultPassword : bool
}.

Inductive AdminLoginResult :=
| AdminLoggedIn (adminToken : string) (isUsingDefaultPassword : bool)
| InvalidCredentials.   (* 'Invalid admin credentials' *)

(** [{ expiresAt: ... }] spread over a session record. *)
Definition setExpiresAt (expiresAt : Z) (s : Session) : Session :=
  mkSession (sess_id s) (sess_memberId s) (sess_isAdmin s) (sess_createdAt s) expiresAt.

Module authSessions.

(** [resendOTP]: the body of [verifyMember] with other messages. *)
Definition resendOTP (now : Z) (code : string) (phoneNumber : string)
           (sys : System) : ResendResult * System :=
  match fileDb.findBy member_phoneNumber phoneNumber (members (store sys)) with
  | None => (UnknownPhone, sys)
  | Some member =>
      let expiryTime := now + config.otp_expiry in
      (CodeResent,
       mkSystem (<[phoneNumber := mkOtp code expiryTime (member_id member) O]>
                   (activeOTPs sys))
                (store sys))
  end.

(** A session without a [memberId] (an admin session) finds no member. *)
Definition validateSession (now : Z) (sessionToken : option string) (db : Store)
  : option SessionInfo * Store :=
  match sessionToken with
  | None => (None, db)
  | Some sessionToken =>
      if negb (truthyStr sessionToken) then (None, db) else
      match fileDb.findBy sess_id sessionToken (sessions db) with
      | None => (None, db)
      | Some session =>
          if sess_expiresAt session <? now then
            let '(_, records) := fileDb.remove sess_id sessionToken (sessions db) in
            (None, set_sessions records db)
          else
            match sess_memberId session with
            | None => (None, db)
            | Some memberId =>
                match fileDb.findBy member_id memberId (members db) with
                | None => (None, db)
                | Some member =>
                    let vote := fileDb.findBy vote_memberId (member_id member) (votes db) in
                    let expiresAt := now + config.session_duration in
                    let '(_, records) :=
                      fileDb.update sess_id sessionToken (setExpiresAt expiresAt)
                                    (sessions db) in
                    (Some (mkSessionInfo sessionToken (member_id member)
                                         (member_name member)
                                         (match vote with Some _ => true | None => false end)
                                         (vote_id <$> vote)),
                     set_sessions records db)
                end
            end
      end
  end.

Definition validateAdminSession (now : Z) (adminToken : option string) (db : Store)
  : bool * Store :=
  match adminToken with
  | None => (false, db)
  | Some adminToken =>
      if negb (truthyStr adminToken) then (false, db) else
      match fileDb.findBy sess_id adminToken (sessions db) with
      | None => (false, db)
      | Some session =>
          if negb (sess_isAdmin session) then (false, db) else
          if sess_expiresAt session <? now then
            let '(_, records) := fileDb.remove sess_id adminToken (sessions db) in
            (false, set_sessions records db)
          else
            let expiresAt := now + config.session_duration in
            let '(_, records) :=
              fileDb.update sess_id adminToken (setExpiresAt expiresAt)
                            (sessions db) in
            (true, set_sessions records db)
      end
  end.

Section Admins.
(** [bcrypt.compare(password, hash)]. *)
Variable bcrypt_compare : string -> string -> bool.

(** [admins] is the content of the admins file; [token] the value drawn
    by [security.generateSessionToken()].  The session record it appends
    has no [memberId]; its [adminId] and [adminUsername] are not read by
    any function modelled here. *)
Definition verifyAdmin (now : Z) (token : string) (admins : list Admin)
           (username password : string) (db : Store) : AdminLoginResult * Store :=
  match find (fun admin => String.eqb (admin_username admin) username) admins with
  | None => (InvalidCredentials, db)
  | Some admin =>
      if negb (bcrypt_compare password (admin_passwordHash admin))
      then (InvalidCredentials, db)
      else
        let sessionRecord :=
          mkSession token None true now (now + config.session_duration) in
        (AdminLoggedIn token (admin_isDefaultPassword admin),
         set_sessions (fileDb.create sessionRecord (sessions db)) db)
  end.
End Admins.

End authSessions.

(** ** middlewares/auth.js *)

Inductive UserAuth :=
| AuthenticationRequired    (* 401 'Authentication required' *)
| SessionInvalid            (* 401 'Session expired or invalid' *)
| Authenticated (session : SessionInfo).

Inductive AdminAuth :=
| AdminAuthenticationRequired   (* 401 'Admin authentication required' *)
| AdminSessionInvalid           (* 401 'Admin session expired or invalid' *)
| AdminAuthenticated.

Module middleware.

Definition authenticateUser (now : Z) (cookie : option string) (db : Store)
  : UserAuth * Store :=
  match cookie with
  | None => (AuthenticationRequired, db)
  | Some sessionToken =>
      if negb (truthyStr sessionToken) then (AuthenticationRequired, db) else
      let '(session, db) := authSessions.validateSession now (Some sessionToken) db in
      match session with
      | None => (SessionInvalid, db)
      | Some session => (Authenticated session, db)
      end
  end.

(** The answer of [checkVotingEligibility] for an attached session:
    [Some voteId] is the 403 'You have already cast your vote in this
    election' with the session's vote id, [None] is [next()]. *)
Definition checkVotingEligibility (session : SessionInfo) : option (option string) :=
  if si_hasVoted session then Some (si_voteId session) else None.

(** The later of the two [authenticateAdmin] declarations of the file, the
    one in force: it reads the session and writes nothing. *)
Definition authenticateAdmin (now : Z) (cookie : option string) (db : Store)
  : AdminAuth :=
  match cookie with
  | None => AdminAuthenticationRequired
  | Some adminToken =>
      if negb (truthyStr adminToken) then AdminAuthenticationRequired else
      match fileDb.findBy sess_id adminToken (sessions db) with
      | None => AdminSessionInvalid
      | Some session =>
          if negb (sess_isAdmin session) || (sess_expiresAt session <? now)
          then AdminSessionInvalid
          else AdminAuthenticated
      end
  end.

End middleware.

(** ** The remaining routes *)

Inductive BallotResponse :=
| BallotForbidden                         (* 403 'Voting is not currently active' *)
| BallotOk (positions : list BallotPosition).

Inductive ResultsResponse :=
| ResultsForbidden   (* 403 'Results are not available until the election has ended' *)
| ResultsOk (results : Results).

Inductive PipelineResponse :=
| Unauthenticated (reason : UserAuth)       (* 401 from authenticateUser *)
| NotEligible (voteId : option string)      (* 403 from checkVotingEligibility *)
| Handled (response : SubmitResponse).

Inductive DeleteResponse :=
| NotFound            (* 404 '... not found' *)
| DeleteRefused       (* 400 'Cannot delete ...' *)
| Deleted.            (* '... deleted successfully' *)

Module votingRoutes.

(** GET /ballot of routes/voting.js, past the session middleware. *)
Definition ballot (now : Z) (db : Store) : BallotResponse * Store :=
  let '(status, db) := voting.getElectionStatus now db in
  if negb (sv_isActive status) then (BallotForbidden, db)
  else (BallotOk (ballot.getBallot db), db).

(** GET /results of routes/voting.js. *)
Definition results (now : Z) (db : Store) : ResultsResponse * Store :=
  let '(status, db) := voting.getElectionStatus now db in
  if negb (truthy (sv_endTime status)) then (ResultsForbidden, db)
  else (ResultsOk (voting.getResults false db), db).

(** POST /submit with its two middlewares; [now_auth] is the clock read by
    [validateSession], [now] the one read by the handler. *)
Definition submitPipeline (now_auth now : Z) (rnd : string) (cookie : option string)
           (body : option (list (string * string))) (db : Store)
  : PipelineResponse * Store :=
  let '(auth, db) := middleware.authenticateUser now_auth cookie db in
  match auth with
  | Authenticated session =>
      match middleware.checkVotingEligibility session with
      | Some voteId => (NotEligible voteId, db)
      | None =>
          let '(response, db) := routes.submit now rnd (si_memberId session) body db in
          (Handled response, db)
      end
  | _ => (Unauthenticated auth, db)
  end.

End votingRoutes.

Definition set_members (ms : list Member) (db : Store) : Store :=
  mkStore ms (positions db) (candidates db) (votes db) (sessions db) (electionStatus db).

Definition set_positions (ps : list Position) (db : Store) : Store :=
  mkStore (members db) ps (candidates db) (votes db) (sessions db) (electionStatus db).

Definition set_candidates (cs : list Candidate) (db : Store) : Store :=
  mkStore (members db) (positions db) cs (votes db) (sessions db) (electionStatus db).

Module adminRoutes.

(** DELETE /positions/:id of routes/admin.js, past the admin middleware. *)
Definition deletePosition (id : string) (db : Store) : DeleteResponse * Store :=
  match fileDb.findBy pos_id id (positions db) with
  | None => (NotFound, db)
  | Some _ =>
      let hasAssignedCandidates :=
        existsb (fun candidate => String.eqb (cand_positionId candidate) id)
                (candidates db) in
      if hasAssignedCandidates then (DeleteRefused, db)
      else (Deleted, set_positions (snd (fileDb.remove pos_id id (positions db))) db)
  end.

(** DELETE /candidates/:id *)
Definition deleteCandidate (id : string) (db : Store) : DeleteResponse * Store :=
  match fileDb.findBy cand_id id (candidates db) with
  | None => (NotFound, db)
  | Some _ =>
      (Deleted, set_candidates (snd (fileDb.remove cand_id id (candidates db))) db)
  end.

(** DELETE /members/:id *)
Definition deleteMember (id : string) (db : Store) : DeleteResponse * Store :=
  match fileDb.findBy member_id id (members db) with
  | None => (NotFound, db)
  | Some _ =>
      match fileDb.findBy vote_memberId id (votes db) with
      | Some _ => (DeleteRefused, db)
      | None => (Deleted, set_members (snd (fileDb.remove member_id id (members db))) db)
      end
  end.

End adminRoutes.

(** Every candidate names a stored position. *)
Definition candidatesHavePositions (db : Store) : Prop :=
  forall candidate, In candidate (candidates db) ->
    exists position, In position (positions db)
                     /\ pos_id position = cand_positionId candidate.

(** Every vote record names a stored member. *)
Definition votesHaveMembers (db : Store) : Prop :=
  forall vote, In vote (votes db) ->
    exists member, In member (members db) /\ member_id member = vote_memberId vote.

(** A status record as the service writes it: no zero where [||] would
    replace the value. *)
Definition wellFormedStatus (st : ElectionStatus) : Prop :=
  startTime st <> Some 0 /\ endTime st <> Some 0 /\ duration st <> 0.

(** The sum of the tallies of a tally object. *)
Definition totalVotes (pc : list (string * CandidateResult)) : nat :=
  fold_right (fun entry n => (cr_votes (snd entry) + n)%nat) O pc.

(** The vote records that choose [candidateId] for [positionId]. *)
Definition votesFor (positionId candidateId : string) (vs : list Vote) : list Vote :=
  List.filter (fun v => raises v positionId candidateId) vs.

(** * Properties *)

(** ** The election state machine *)

Lemma day_ms_nonzero : day_ms <> 0.
Proof. unfold day_ms. lia. Qed.

Lemma loaded_duration_nonzero (db : Store) :
  duration (voting.loadElectionStatus db) <> 0.
Proof.
  unfold voting.loadElectionStatus.
  destruct (electionStatus db) as [|status rest]; simpl.
  - apply day_ms_nonzero.
  - destruct (Z.eqb_spec (duration status) 0); [apply day_ms_nonzero | assumption].
Qed.

Lemma loaded_duration_stored (db : Store) status rest :
  electionStatus db = status :: rest ->
  duration status <> 0 ->
  duration (voting.loadElectionStatus db) = duration status.
Proof.
  intros Hes Hd. unfold voting.loadElectionStatus. rewrite Hes. simpl.
  destruct (Z.eqb_spec (duration status) 0); [contradiction | reflexivity].
Qed.

(** A status record that carries its own duration is the one
    [saveElectionStatus] rewrites. *)
Lemma saveElectionStatus_head (db : Store) status rest newStatus :
  electionStatus db = status :: rest ->
  duration status <> 0 ->
  voting.saveElectionStatus newStatus (voting.loadElectionStatus db) db
  = (true, set_electionStatus (newStatus :: rest) db).
Proof.
  intros Hes Hd. unfold voting.saveElectionStatus, fileDb.update.
  rewrite (loaded_duration_stored db status rest Hes Hd), Hes. simpl.
  unfold fileDb.matches. rewrite bool_decide_eq_true_2 by reflexivity.
  reflexivity.
Qed.

(** Saving never touches the vote file. *)
Lemma saveElectionStatus_votes newStatus oldStatus db :
  votes (snd (voting.saveElectionStatus newStatus oldStatus db)) = votes db.
Proof.
  unfold voting.saveElectionStatus.
  destruct (fileDb.update _ _ _ _) as [r records]. reflexivity.
Qed.

Lemma startElection_result duration_arg now db :
  fst (voting.startElection duration_arg now db)
  = if isActive (voting.loadElectionStatus db) then AlreadyActive
    else ElectionStarted
           (mkStatus true (Some now) None (duration (voting.loadElectionStatus db))).
Proof.
  unfold voting.startElection.
  destruct (isActive (voting.loadElectionStatus db)); [reflexivity|].
  destruct (voting.saveElectionStatus _ _ _) as [b db'] eqn:Hsave. simpl.
  destruct (Z.eqb_spec (duration (voting.loadElectionStatus db)) 0) as [E|_];
    [destruct (loaded_duration_nonzero db E) | reflexivity].
Qed.

Lemma startElection_store duration_arg now db status rest :
  electionStatus db = status :: rest ->
  isActive status = false ->
  duration status <> 0 ->
  snd (voting.startElection duration_arg now db)
  = set_electionStatus (mkStatus true (Some now) None (duration status) :: rest) db.
Proof.
  intros Hes Hact Hd. unfold voting.startElection.
  assert (Hl : isActive (voting.loadElectionStatus db) = false).
  { unfold voting.loadElectionStatus. rewrite Hes. simpl. rewrite Hact. reflexivity. }
  rewrite Hl.
  destruct (Z.eqb_spec (duration (voting.loadElectionStatus db)) 0) as [E|_];
    [destruct (loaded_duration_nonzero db E)|].
  rewrite (saveElectionStatus_head db status rest _ Hes Hd). simpl.
  rewrite (loaded_duration_stored db status rest Hes Hd). reflexivity.
Qed.

(** The [duration] argument has no effect on the file-backed service. *)
Lemma startElection_argument_unused d1 d2 now db :
  voting.startElection d1 now db = voting.startElection d2 now db.
Proof. reflexivity. Qed.

(** C4 (as stated, refuted): an election that has ended (endTime set, not
    active) is started again by [startElection], and the next read of the
    status file shows it active with its endTime cleared. *)
Lemma startElection_reopens_ended_election :
  isEnded (voting.loadElectionStatus sample.db_ended)
  /\ fst (voting.startElection None 3000 sample.db_ended) <> AlreadyActive
  /\ voting.loadElectionStatus (snd (voting.startElection None 3000 sample.db_ended))
     = mkStatus true (Some 3000) None day_ms.
Proof.
  vm_compute. repeat split; discriminate.
Qed.

(** C4 (amended): [startElection] is refused exactly when the election is
    currently active.  Whether endTime is set plays no part: on a status
    that is not active, ended or never started, the call succeeds with
    isActive = true, startTime = now and endTime = null, and the status
    record that carries a duration is overwritten with that value. *)
Theorem startElection_refused_only_when_active :
  (forall duration_arg now db,
     fst (voting.startElection duration_arg now db)
     = if isActive (voting.loadElectionStatus db) then AlreadyActive
       else ElectionStarted
              (mkStatus true (Some now) None
                        (duration (voting.loadElectionStatus db))))
  /\ (forall duration_arg now db status rest,
        electionStatus db = status :: rest ->
        isActive status = false ->
        duration status <> 0 ->
        snd (voting.startElection duration_arg now db)
        = set_electionStatus
            (mkStatus true (Some now) None (duration status) :: rest) db).
Proof.
  split.
  - apply startElection_result.
  - apply startElection_store.
Qed.

Lemma startElection_refused_only_when_active_witness :
  snd (voting.startElection None 3000 sample.db_ended)
  = set_electionStatus [mkStatus true (Some 3000) None day_ms] sample.db_ended.
Proof.
  apply (proj2 startElection_refused_only_when_active
               None 3000 sample.db_ended sample.ended []).
  - reflexivity.
  - reflexivity.
  - vm_compute. discriminate.
Defined.

(** On a status file that holds no record, [update] finds nothing to
    rewrite: the call reports success and the file stays empty. *)
Lemma startElection_on_empty_status_file duration_arg now db :
  electionStatus db = [] ->
  voting.startElection duration_arg now db
  = (ElectionStarted (mkStatus true (Some now) None day_ms), db).
Proof.
  intros Hes. unfold voting.startElection, voting.saveElectionStatus,
                voting.loadElectionStatus, fileDb.update.
  rewrite Hes. simpl. destruct db; simpl in *; subst. reflexivity.
Qed.

(** C5 (the code departs from it): started with an explicit duration of one
    hour on an idle election whose stored duration is the 24 h default, the
    file-backed [startElection] stores 24 h, not the given value, also when
    reached through the admin route; the in-memory variant of the same call
    stores the given hour.  The file-backed result is the same for every
    value of the argument. *)
Theorem startElection_duration_argument_dropped :
  voting.startElection (Some 3600000) 5000 sample.db_idle
  = (ElectionStarted (mkStatus true (Some 5000) None 86400000),
     set_electionStatus [mkStatus true (Some 5000) None 86400000] sample.db_idle)
  /\ votingInMemory.startElection (Some 3600000) 5000 sample.idle
     = (ElectionStarted (mkStatus true (Some 5000) None 3600000),
        mkStatus true (Some 5000) None 3600000)
  /\ fst (routes.electionStart (Some 3600000) 5000 sample.db_idle)
     = StartOk (ElectionStarted (mkStatus true (Some 5000) None 86400000))
  /\ (forall d1 d2 now db,
        voting.startElection d1 now db = voting.startElection d2 now db).
Proof.
  split; [|split; [|split]].
  - vm_compute. reflexivity.
  - vm_compute. reflexivity.
  - vm_compute. reflexivity.
  - apply startElection_argument_unused.
Qed.

(** *** Lazy auto-close *)

Lemma getElectionStatus_closes now db :
  isActive (voting.loadElectionStatus db) = true ->
  truthy (startTime (voting.loadElectionStatus db)) = true ->
  toNumber (startTime (voting.loadElectionStatus db))
    + duration (voting.loadElectionStatus db) <= now ->
  fst (voting.getElectionStatus now db)
  = mkView false (startTime (voting.loadElectionStatus db)) (Some now) (Some "0h 0m").
Proof.
  intros Hact Hstart Hle. unfold voting.getElectionStatus.
  rewrite Hact, Hstart. simpl.
  destruct (Z.leb_spec
              (toNumber (startTime (voting.loadElectionStatus db))
               + duration (voting.loadElectionStatus db) - now) 0); [|lia].
  destruct (voting.saveElectionStatus _ _ _). reflexivity.
Qed.

Lemma getElectionStatus_votes now db :
  votes (snd (voting.getElectionStatus now db)) = votes db.
Proof.
  unfold voting.getElectionStatus.
  destruct (isActive _ && truthy _); [|reflexivity].
  destruct (_ <=? 0); [|reflexivity].
  pose proof (saveElectionStatus_votes
                (mkStatus false (startTime (voting.loadElectionStatus db)) (Some now)
                          (duration (voting.loadElectionStatus db)))
                (voting.loadElectionStatus db) db) as H.
  destruct (voting.saveElectionStatus _ _ _). exact H.
Qed.

Lemma loadElectionStatus_head db status rest t :
  electionStatus db = status :: rest ->
  startTime status = Some t -> t <> 0 -> duration status <> 0 ->
  voting.loadElectionStatus db
  = mkStatus (isActive status) (Some t) (orNull (endTime status)) (duration status).
Proof.
  intros Hes Hst Ht Hd. unfold voting.loadElectionStatus. rewrite Hes, Hst.
  rewrite orb_false_r. unfold orNull at 1. simpl.
  destruct (Z.eqb_spec t 0); [contradiction|].
  destruct (Z.eqb_spec (duration status) 0); [contradiction|]. reflexivity.
Qed.

(** Where C7 holds: on a status record that carries its startTime and its
    duration, an active election whose startTime + duration has been
    reached is closed by the status read itself: the view says
    isActive = false, endTime = now and '0h 0m', and the status file now
    holds the closed record; before that instant the read changes nothing
    and reports the remaining time as whole hours and whole minutes of the
    rest. *)
Theorem getElectionStatus_lazy_auto_close :
  forall now db status rest t,
    electionStatus db = status :: rest ->
    isActive status = true ->
    startTime status = Some t -> t <> 0 ->
    duration status <> 0 ->
    (t + duration status <= now ->
       voting.getElectionStatus now db
       = (mkView false (Some t) (Some now) (Some "0h 0m"),
          set_electionStatus
            (mkStatus false (Some t) (Some now) (duration status) :: rest) db))
    /\ (now < t + duration status ->
          voting.getElectionStatus now db
          = (mkView true (Some t) (orNull (endTime status))
                    (Some (formatRemaining
                             ((t + duration status - now) / hour_ms)
                             ((t + duration status - now) mod hour_ms / minute_ms))),
             db)).
Proof.
  intros now db status rest t Hes Hact Hst Ht Hd.
  pose proof (loadElectionStatus_head db status rest t Hes Hst Ht Hd) as Hload.
  pose proof (saveElectionStatus_head db status rest
                (mkStatus false (Some t) (Some now) (duration status)) Hes Hd) as Hsave.
  rewrite Hact in Hload. rewrite Hload in Hsave.
  assert (Htr : truthy (Some t) = true).
  { simpl. destruct (Z.eqb_spec t 0); [contradiction | reflexivity]. }
  split; intros Hnow; unfold voting.getElectionStatus; rewrite Hload; cbn [isActive startTime endTime duration];
    rewrite Htr; change (toNumber (Some t)) with t; cbn [andb].
  - destruct (Z.leb_spec (t + duration status - now) 0); [|lia].
    cbn zeta. rewrite Hsave. reflexivity.
  - destruct (Z.leb_spec (t + duration status - now) 0); [lia|].
    cbn zeta. rewrite Z.rem_mod_nonneg by (unfold hour_ms; lia). reflexivity.
Qed.

Lemma getElectionStatus_lazy_auto_close_witness :
  voting.getElectionStatus 2001 sample.db_running
  = (mkView false (Some 1000) (Some 2001) (Some "0h 0m"),
     set_electionStatus [mkStatus false (Some 1000) (Some 2001) 1000] sample.db_running)
  /\ voting.getElectionStatus 1000 sample.db_running_long
     = (mkView true (Some 1000) None (Some "2h 30m"), sample.db_running_long).
Proof.
  pose proof (getElectionStatus_lazy_auto_close 2001 sample.db_running sample.running [] 1000
                eq_refl eq_refl eq_refl ltac:(lia) ltac:(vm_compute; discriminate)) as [H1 _].
  pose proof (getElectionStatus_lazy_auto_close 1000 sample.db_running_long
                sample.running_long [] 1000
                eq_refl eq_refl eq_refl ltac:(lia) ltac:(vm_compute; discriminate)) as [_ H2].
  split.
  - apply H1. vm_compute. discriminate.
  - apply H2. reflexivity.
Defined.

(** C7 (the code departs from it): on an active record that has no
    duration, which [loadElectionStatus] takes with the 24 h default, the
    status read made after startTime + 24 h answers closed with
    endTime = now, but [saveElectionStatus] looks the record up by that
    defaulted duration, finds none and stores nothing.  The file still says
    active, the next read stamps another endTime, and [submitVote] still
    records a vote. *)
Theorem auto_close_lost_without_stored_duration :
  voting.loadElectionStatus sample.db_no_duration
  = mkStatus true (Some 1000) None day_ms
  /\ voting.getElectionStatus 86401001 sample.db_no_duration
     = (mkView false (Some 1000) (Some 86401001) (Some "0h 0m"), sample.db_no_duration)
  /\ voting.getElectionStatus 86401002 sample.db_no_duration
     = (mkView false (Some 1000) (Some 86401002) (Some "0h 0m"), sample.db_no_duration)
  /\ isActive (voting.loadElectionStatus
                 (snd (voting.getElectionStatus 86401001 sample.db_no_duration)))
     = true
  /\ fst (voting.submitVote 86401003 "x" "member_1" (sample.ballot_for sample.ann)
            (snd (voting.getElectionStatus 86401001 sample.db_no_duration)))
     = VoteSubmitted "vote_86401003_x".
Proof.
  split; [|split; [|split; [|split]]]; vm_compute; reflexivity.
Qed.

(** ** The election gate of vote submission *)

Lemma submitVote_refused_when_not_active now rnd memberId ballot db :
  isActive (voting.loadElectionStatus db) = false ->
  voting.submitVote now rnd memberId ballot db = (ElectionNotActive, db).
Proof. intros H. unfold voting.submitVote. rewrite H. reflexivity. Qed.

Lemma submitVote_accepts_only_when_active now rnd memberId ballot db voteId :
  fst (voting.submitVote now rnd memberId ballot db) = VoteSubmitted voteId ->
  isActive (voting.loadElectionStatus db) = true.
Proof.
  unfold voting.submitVote.
  destruct (isActive (voting.loadElectionStatus db)); [reflexivity|].
  simpl. discriminate.
Qed.

Lemma submit_route_refuses_elapsed now rnd memberId ballot db :
  isActive (voting.loadElectionStatus db) = true ->
  truthy (startTime (voting.loadElectionStatus db)) = true ->
  toNumber (startTime (voting.loadElectionStatus db))
    + duration (voting.loadElectionStatus db) <= now ->
  fst (routes.submit now rnd memberId ballot db) = Forbidden
  /\ votes (snd (routes.submit now rnd memberId ballot db)) = votes db.
Proof.
  intros Hact Hst Hle. unfold routes.submit.
  pose proof (getElectionStatus_closes now db Hact Hst Hle) as Hview.
  pose proof (getElectionStatus_votes now db) as Hvotes.
  destruct (voting.getElectionStatus now db) as [status db'].
  simpl in Hview, Hvotes. subst status. simpl. split; [reflexivity | exact Hvotes].
Qed.

(** C2 (as stated, refuted): with the status file still flagged active
    although startTime + duration (2000) lies before now (5000), a call of
    [submitVote] itself is not refused: it records the vote. *)
Lemma submitVote_ignores_elapsed_duration :
  isActive (voting.loadElectionStatus sample.db_running) = true
  /\ toNumber (startTime (voting.loadElectionStatus sample.db_running))
     + duration (voting.loadElectionStatus sample.db_running) <= 5000
  /\ fst (voting.submitVote 5000 "x" "member_1" (sample.ballot_for sample.ann)
                            sample.db_running)
     <> ElectionNotActive
  /\ length (votes (snd (voting.submitVote 5000 "x" "member_1"
                                           (sample.ballot_for sample.ann)
                                           sample.db_running))) = 1%nat.
Proof.
  vm_compute. repeat split; discriminate.
Qed.

(** C2 (amended): [submitVote] reads the status file anew and is refused
    with ElectionNotActive whenever the stored flag says not active, which
    covers NotStarted and Ended; it can succeed only when the flag says
    active.  The service does not compare the clock with startTime +
    duration: an election still flagged active after its duration elapsed is
    turned away by the submit route, whose status read closes it first, and
    no vote is recorded. *)
Theorem submitVote_election_gate :
  (forall now rnd memberId ballot db,
     isNotStarted (voting.loadElectionStatus db)
     \/ isEnded (voting.loadElectionStatus db) ->
     voting.submitVote now rnd memberId ballot db = (ElectionNotActive, db))
  /\ (forall now rnd memberId ballot db voteId,
        fst (voting.submitVote now rnd memberId ballot db) = VoteSubmitted voteId ->
        isActive (voting.loadElectionStatus db) = true)
  /\ (forall now rnd memberId ballot db,
        isActive (voting.loadElectionStatus db) = true ->
        truthy (startTime (voting.loadElectionStatus db)) = true ->
        toNumber (startTime (voting.loadElectionStatus db))
          + duration (voting.loadElectionStatus db) <= now ->
        fst (routes.submit now rnd memberId ballot db) = Forbidden
        /\ votes (snd (routes.submit now rnd memberId ballot db)) = votes db).
Proof.
  split; [|split].
  - intros now rnd memberId ballot db [[H _]|[H _]];
      apply submitVote_refused_when_not_active; exact H.
  - apply submitVote_accepts_only_when_active.
  - apply submit_route_refuses_elapsed.
Qed.

Lemma submitVote_election_gate_witness :
  voting.submitVote 5000 "x" "member_1" (sample.ballot_for sample.ann) sample.db_ended
  = (ElectionNotActive, sample.db_ended)
  /\ isActive (voting.loadElectionStatus sample.db_running) = true
  /\ fst (routes.submit 5000 "x" "member_1" (Some (sample.ballot_for sample.ann))
                        sample.db_running) = Forbidden.
Proof.
  destruct submitVote_election_gate as (Hgate & Honly & Hroute).
  split; [|split].
  - apply Hgate. right. split; reflexivity.
  - apply (Honly 1500 "x" "member_1" (sample.ballot_for sample.ann) sample.db_running
                 (voting.voteIdOf 1500 "x")).
    reflexivity.
  - apply Hroute.
    + reflexivity.
    + reflexivity.
    + vm_compute. discriminate.
Defined.

(** ** fileDb on one array *)

Section FileDbFacts.
Context {R K : Type} `{EqDecision K}.
Variable field : R -> K.

Lemma matches_true value r : fileDb.matches field value r = true <-> field r = value.
Proof. unfold fileDb.matches. apply bool_decide_eq_true. Qed.

Lemma matches_false value r : fileDb.matches field value r = false <-> field r <> value.
Proof. unfold fileDb.matches. apply bool_decide_eq_false. Qed.

(** What [findIndex] finds, and what [splice] leaves. *)
Lemma findIndex_split (p : R -> bool) (records : list R) :
  match fileDb.findIndex p records with
  | None => forall r, In r records -> p r = false
  | Some index =>
      exists before r after,
        records = before ++ r :: after
        /\ length before = index
        /\ p r = true
        /\ (forall x, In x before -> p x = false)
        /\ delete index records = before ++ after
  end.
Proof.
  induction records as [|r rs IH]; simpl.
  - intros r [].
  - destruct (p r) eqn:Hp.
    + exists [], r, rs. repeat split; auto. intros x [].
    + destruct (fileDb.findIndex p rs) as [i|]; simpl.
      * destruct IH as (before & r' & after & -> & Hlen & Hr' & Hbefore & Hdel).
        exists (r :: before), r', after. simpl. repeat split; auto.
        -- intros x [<-|Hx]; auto.
        -- f_equal. exact Hdel.
      * intros x [<-|Hx]; auto.
Qed.

Lemma findBy_None value records :
  fileDb.findBy field value records = None <->
  forall r, In r records -> field r <> value.
Proof.
  unfold fileDb.findBy. split.
  - intros Hnone r Hr. apply matches_false. apply (find_none _ _ Hnone r Hr).
  - intros Hall. induction records as [|r rs IH]; simpl; [reflexivity|].
    destruct (fileDb.matches field value r) eqn:Hm.
    + apply matches_true in Hm. destruct (Hall r (or_introl eq_refl) Hm).
    + apply IH. intros x Hx. apply Hall. right. exact Hx.
Qed.

Lemma findBy_Some value records r :
  fileDb.findBy field value records = Some r -> In r records /\ field r = value.
Proof.
  unfold fileDb.findBy. intros Hf. apply find_some in Hf as [Hin Hm].
  split; [exact Hin | apply matches_true; exact Hm].
Qed.

Lemma findBy_In value records r :
  In r records -> field r = value ->
  exists r', fileDb.findBy field value records = Some r'.
Proof.
  intros Hin Hv. destruct (fileDb.findBy field value records) as [r'|] eqn:Hf.
  - exists r'. reflexivity.
  - destruct (proj1 (findBy_None value records) Hf r Hin Hv).
Qed.

Lemma remove_result value records :
  fst (fileDb.remove field value records) = true <->
  exists r, In r records /\ field r = value.
Proof.
  unfold fileDb.remove.
  pose proof (findIndex_split (fileDb.matches field value) records) as Hsplit.
  destruct (fileDb.findIndex _ records) as [i|]; simpl.
  - destruct Hsplit as (before & r & after & -> & _ & Hr & _ & _).
    split; [intros _|reflexivity].
    exists r. split; [apply in_elt | apply matches_true; exact Hr].
  - split; [discriminate|].
    intros (r & Hin & Hv). apply Hsplit in Hin. apply matches_false in Hin.
    contradiction.
Qed.

Lemma remove_absent value records :
  fst (fileDb.remove field value records) = false ->
  snd (fileDb.remove field value records) = records.
Proof.
  unfold fileDb.remove.
  destruct (fileDb.findIndex _ records); simpl; [discriminate | reflexivity].
Qed.

Lemma remove_gone value records :
  List.NoDup (map field records) ->
  forall r, In r (snd (fileDb.remove field value records)) -> field r <> value.
Proof.
  intros Hnd r. unfold fileDb.remove.
  pose proof (findIndex_split (fileDb.matches field value) records) as Hsplit.
  destruct (fileDb.findIndex _ records) as [i|]; simpl.
  - destruct Hsplit as (before & r0 & after & -> & _ & Hr0 & Hbefore & ->).
    apply matches_true in Hr0. intros Hin Hv.
    rewrite map_app in Hnd. simpl in Hnd.
    apply NoDup_remove_2 in Hnd. apply Hnd.
    rewrite Hr0, <- Hv, <- map_app. apply in_map. exact Hin.
  - intros Hin. apply matches_false. apply Hsplit. exact Hin.
Qed.

Lemma remove_keeps_others value records r :
  In r records -> field r <> value ->
  In r (snd (fileDb.remove field value records)).
Proof.
  intros Hin Hv. unfold fileDb.remove.
  pose proof (findIndex_split (fileDb.matches field value) records) as Hsplit.
  destruct (fileDb.findIndex _ records) as [i|]; simpl; [|exact Hin].
  destruct Hsplit as (before & r0 & after & -> & _ & Hr0 & _ & ->).
  apply matches_true in Hr0.
  apply in_app_or in Hin as [Hin|[<-|Hin]].
  - apply in_or_app. left. exact Hin.
  - contradiction.
  - apply in_or_app. right. exact Hin.
Qed.

Lemma remove_NoDup value records :
  List.NoDup (map field records) ->
  List.NoDup (map field (snd (fileDb.remove field value records))).
Proof.
  intros Hnd. unfold fileDb.remove.
  pose proof (findIndex_split (fileDb.matches field value) records) as Hsplit.
  destruct (fileDb.findIndex _ records) as [i|]; simpl; [|exact Hnd].
  destruct Hsplit as (before & r0 & after & -> & _ & _ & _ & ->).
  rewrite map_app in *. simpl in Hnd. apply NoDup_remove_1 in Hnd. exact Hnd.
Qed.
End FileDbFacts.

(** ** Ending a session *)

Lemma endSession_falsy_token db :
  auth.endSession None db = (false, db) /\ auth.endSession (Some "") db = (false, db).
Proof. split; reflexivity. Qed.

Lemma endSession_token t db :
  t <> "" ->
  auth.endSession (Some t) db
  = (fst (fileDb.remove sess_id t (sessions db)),
     set_sessions (snd (fileDb.remove sess_id t (sessions db))) db).
Proof.
  intros Ht. unfold auth.endSession, truthyStr.
  destruct (String.eqb_spec t ""); [contradiction|]. simpl.
  destruct (fileDb.remove sess_id t (sessions db)). reflexivity.
Qed.

Lemma set_sessions_same db : set_sessions (sessions db) db = db.
Proof. destruct db. reflexivity. Qed.

Lemma endSession_true_iff token db :
  fst (auth.endSession token db) = true <->
  exists t s, token = Some t /\ t <> "" /\ In s (sessions db) /\ sess_id s = t.
Proof.
  destruct token as [t|].
  - destruct (String.eqb_spec t "") as [->|Ht].
    + simpl. split; [discriminate|].
      intros (t & s & Heq & Hne & _). injection Heq as <-. contradiction.
    + rewrite (endSession_token t db Ht). simpl.
      rewrite remove_result. split.
      * intros (s & Hin & Hid). exists t, s. auto.
      * intros (t' & s & Heq & _ & Hin & Hid). injection Heq as <-. exists s. auto.
  - simpl. split; [discriminate|]. intros (t & s & Heq & _). discriminate.
Qed.

Lemma endSession_false_unchanged token db :
  fst (auth.endSession token db) = false -> snd (auth.endSession token db) = db.
Proof.
  destruct token as [t|]; [|reflexivity].
  destruct (String.eqb_spec t "") as [->|Ht]; [reflexivity|].
  rewrite (endSession_token t db Ht). simpl. intros Hf.
  rewrite (remove_absent sess_id t (sessions db) Hf). apply set_sessions_same.
Qed.

Lemma endSession_gone t db :
  t <> "" ->
  List.NoDup (map sess_id (sessions db)) ->
  forall s, In s (sessions (snd (auth.endSession (Some t) db))) -> sess_id s <> t.
Proof.
  intros Ht Hnd s. rewrite (endSession_token t db Ht). simpl.
  apply remove_gone. exact Hnd.
Qed.

Lemma endSession_again token db :
  List.NoDup (map sess_id (sessions db)) ->
  auth.endSession token (snd (auth.endSession token db))
  = (false, snd (auth.endSession token db)).
Proof.
  intros Hnd.
  destruct (fst (auth.endSession token (snd (auth.endSession token db)))) eqn:Hres.
  - apply endSession_true_iff in Hres as (t & s & -> & Ht & Hin & Hid).
    destruct (endSession_gone t db Ht Hnd s Hin Hid).
  - pose proof (endSession_false_unchanged _ _ Hres) as Hdb.
    destruct (auth.endSession token (snd (auth.endSession token db))).
    simpl in *. subst. reflexivity.
Qed.

Lemma logout_always_succeeds cookie db :
  routes.logout cookie db = (true, snd (auth.endSession cookie db)).
Proof.
  destruct cookie as [t|]; [|reflexivity].
  unfold routes.logout, auth.endSession.
  destruct (truthyStr t); simpl; [|reflexivity].
  destruct (fileDb.remove sess_id t (sessions db)). reflexivity.
Qed.

Lemma endSession_keeps_others t db s :
  In s (sessions db) -> sess_id s <> t ->
  In s (sessions (snd (auth.endSession (Some t) db))).
Proof.
  intros Hin Hne. destruct (String.eqb_spec t "") as [->|Ht]; [exact Hin|].
  rewrite (endSession_token t db Ht). cbn [snd sessions set_sessions].
  apply remove_keeps_others; assumption.
Qed.

(** C8 (as stated, refuted): [endSession] answers [false], not success, for
    a token that names no session, for an empty token and for a missing
    one. *)
Lemma endSession_reports_failure_for_unknown_token :
  fst (auth.endSession (Some "tok_ghost") sample.db_logged_in) = false
  /\ fst (auth.endSession (Some "") sample.db_logged_in) = false
  /\ fst (auth.endSession None sample.db_logged_in) = false.
Proof. vm_compute. repeat split. Qed.

(** C8 (amended): [endSession] deletes the session named by the token when
    there is one and returns whether it removed a record: [true] exactly
    when the token is non-empty and names a stored session, [false] (store
    untouched) for an unknown, empty or missing token.  Its effect is
    idempotent: with unique tokens the session is gone afterwards and a
    second call changes nothing.  The caller that always reports success
    is the logout route, which discards the returned value.  Sessions
    under other tokens are kept. *)
Theorem endSession_returns_whether_removed :
  (forall token db,
     fst (auth.endSession token db) = true <->
     exists t s, token = Some t /\ t <> "" /\ In s (sessions db) /\ sess_id s = t)
  /\ (forall token db,
        fst (auth.endSession token db) = false ->
        snd (auth.endSession token db) = db)
  /\ (forall t db,
        t <> "" ->
        List.NoDup (map sess_id (sessions db)) ->
        forall s, In s (sessions (snd (auth.endSession (Some t) db))) ->
                  sess_id s <> t)
  /\ (forall token db,
        List.NoDup (map sess_id (sessions db)) ->
        auth.endSession token (snd (auth.endSession token db))
        = (false, snd (auth.endSession token db)))
  /\ (forall cookie db,
        routes.logout cookie db = (true, snd (auth.endSession cookie db)))
  /\ (forall t db s,
        In s (sessions db) -> sess_id s <> t ->
        In s (sessions (snd (auth.endSession (Some t) db)))).
Proof.
  split; [|split; [|split; [|split; [|split]]]].
  - apply endSession_true_iff.
  - apply endSession_false_unchanged.
  - apply endSession_gone.
  - apply endSession_again.
  - apply logout_always_succeeds.
  - apply endSession_keeps_others.
Qed.

Lemma sample_sessions_NoDup :
  List.NoDup (map sess_id (sessions sample.db_logged_in)).
Proof.
  simpl. repeat constructor; simpl; intuition discriminate.
Defined.

Lemma endSession_returns_whether_removed_witness :
  snd (auth.endSession (Some "tok_ghost") sample.db_logged_in) = sample.db_logged_in
  /\ (forall s,
        In s (sessions (snd (auth.endSession (Some "tok_a") sample.db_logged_in))) ->
        sess_id s <> "tok_a")
  /\ auth.endSession (Some "tok_a")
                     (snd (auth.endSession (Some "tok_a") sample.db_logged_in))
     = (false, snd (auth.endSession (Some "tok_a") sample.db_logged_in)).
Proof.
  destruct endSession_returns_whether_removed as (_ & Hfalse & Hgone & Hagain & _).
  split; [|split].
  - apply Hfalse. reflexivity.
  - apply Hgone; [discriminate | exact sample_sessions_NoDup].
  - apply Hagain. exact sample_sessions_NoDup.
Defined.

(** ** Attempt counting of one-time codes *)

Lemma verifyOTP_no_challenge now token phoneNumber code sys :
  activeOTPs sys !! phoneNumber = None ->
  auth.verifyOTP now token phoneNumber code sys = (NoActiveChallenge, sys).
Proof. intros H. unfold auth.verifyOTP. rewrite H. reflexivity. Qed.

Lemma verifyOTP_exhausted now token phoneNumber code sys d :
  activeOTPs sys !! phoneNumber = Some d ->
  now <= expiryTime d ->
  (4 <= attempts d)%nat ->
  auth.verifyOTP now token phoneNumber code sys
  = (TooManyAttempts, mkSystem (delete phoneNumber (activeOTPs sys)) (store sys)).
Proof.
  intros Hd Hnow Hatt. unfold auth.verifyOTP. rewrite Hd.
  destruct (Z.ltb_spec (expiryTime d) now); [lia|]. cbn [attempts].
  destruct (Nat.leb_spec 5 (attempts d + 1)); [|lia].
  rewrite delete_insert_eq. reflexivity.
Qed.

Lemma verifyOTP_mismatch now token phoneNumber code sys d :
  activeOTPs sys !! phoneNumber = Some d ->
  now <= expiryTime d ->
  (attempts d < 4)%nat ->
  otp d <> code ->
  auth.verifyOTP now token phoneNumber code sys
  = (CodeMismatch,
     mkSystem (<[phoneNumber := mkOtp (otp d) (expiryTime d) (otp_memberId d)
                                      (attempts d + 1)]> (activeOTPs sys))
              (store sys)).
Proof.
  intros Hd Hnow Hatt Hcode. unfold auth.verifyOTP. rewrite Hd.
  destruct (Z.ltb_spec (expiryTime d) now); [lia|]. cbn [attempts otp].
  destruct (Nat.leb_spec 5 (attempts d + 1)); [lia|].
  destruct (String.eqb_spec (otp d) code); [contradiction|]. reflexivity.
Qed.

Lemma verifyAll_mismatch phoneNumber now token code calls sys d :
  activeOTPs sys !! phoneNumber = Some d ->
  now <= expiryTime d ->
  (attempts d < 4)%nat ->
  otp d <> code ->
  exists d',
    otp d' = otp d /\ expiryTime d' = expiryTime d /\ attempts d' = S (attempts d)
    /\ verifyAll phoneNumber ((now, token, code) :: calls) sys
       = (CodeMismatch
            :: fst (verifyAll phoneNumber calls
                              (mkSystem (<[phoneNumber := d']> (activeOTPs sys))
                                        (store sys))),
          snd (verifyAll phoneNumber calls
                         (mkSystem (<[phoneNumber := d']> (activeOTPs sys))
                                   (store sys)))).
Proof.
  intros Hd Hnow Hatt Hcode.
  exists (mkOtp (otp d) (expiryTime d) (otp_memberId d) (attempts d + 1)).
  repeat split; try reflexivity.
  - simpl. lia.
  - cbn [verifyAll].
    rewrite (verifyOTP_mismatch now token phoneNumber code sys d Hd Hnow Hatt Hcode).
    destruct (verifyAll phoneNumber calls _). reflexivity.
Qed.

(** C6 (as stated, refuted): after five failed calls the sixth call, made
    with the right code, fails for want of a pending challenge, not with
    TooManyAttempts; the fifth call is the one that answers
    TooManyAttempts, and it drops the credential. *)
Lemma sixth_attempt_finds_no_challenge :
  fst (verifyAll "+15550000001"
                 [sample.wrong 1; sample.wrong 2; sample.wrong 3; sample.wrong 4;
                  sample.wrong 5; sample.right 6]
                 sample.sys_challenged)
  = [CodeMismatch; CodeMismatch; CodeMismatch; CodeMismatch;
     TooManyAttempts; NoActiveChallenge]
  /\ fst (auth.verifyOTP 6 "tok" "+15550000001" "123456"
            (snd (verifyAll "+15550000001"
                            [sample.wrong 1; sample.wrong 2; sample.wrong 3;
                             sample.wrong 4; sample.wrong 5]
                            sample.sys_challenged)))
     <> TooManyAttempts.
Proof.
  vm_compute. split; [reflexivity | discriminate].
Qed.

(** C6 (amended): for a fresh credential exercised before its expiry, four
    calls with a wrong code answer CodeMismatch; the fifth call brings the
    counter to 5 and answers TooManyAttempts whatever code it carries, the
    correct one included, and evicts the credential; the sixth call, again
    whatever its code, answers NoActiveChallenge. *)
Theorem verifyOTP_attempt_exhaustion :
  forall sys phoneNumber d
         (t1 t2 t3 t4 t5 t6 : Z) (k1 k2 k3 k4 k5 k6 : string)
         (w1 w2 w3 w4 c5 c6 : string),
    activeOTPs sys !! phoneNumber = Some d ->
    attempts d = O ->
    t1 <= expiryTime d -> t2 <= expiryTime d -> t3 <= expiryTime d ->
    t4 <= expiryTime d -> t5 <= expiryTime d ->
    otp d <> w1 -> otp d <> w2 -> otp d <> w3 -> otp d <> w4 ->
    verifyAll phoneNumber
              [(t1, k1, w1); (t2, k2, w2); (t3, k3, w3); (t4, k4, w4);
               (t5, k5, c5); (t6, k6, c6)] sys
    = ([CodeMismatch; CodeMismatch; CodeMismatch; CodeMismatch;
        TooManyAttempts; NoActiveChallenge],
       mkSystem (delete phoneNumber (activeOTPs sys)) (store sys)).
Proof.
  intros sys phoneNumber d t1 t2 t3 t4 t5 t6 k1 k2 k3 k4 k5 k6 w1 w2 w3 w4 c5 c6
         Hd Hatt H1 H2 H3 H4 H5 Hw1 Hw2 Hw3 Hw4.
  destruct (verifyAll_mismatch phoneNumber t1 k1 w1
              [(t2, k2, w2); (t3, k3, w3); (t4, k4, w4); (t5, k5, c5); (t6, k6, c6)]
              sys d Hd H1 ltac:(lia) Hw1)
    as (d1 & Ho1 & He1 & Ha1 & ->).
  set (sys1 := mkSystem (<[phoneNumber := d1]> (activeOTPs sys)) (store sys)).
  assert (Hd1 : activeOTPs sys1 !! phoneNumber = Some d1) by apply lookup_insert_eq.
  destruct (verifyAll_mismatch phoneNumber t2 k2 w2
              [(t3, k3, w3); (t4, k4, w4); (t5, k5, c5); (t6, k6, c6)]
              sys1 d1 Hd1 ltac:(lia) ltac:(lia) ltac:(congruence))
    as (d2 & Ho2 & He2 & Ha2 & ->).
  set (sys2 := mkSystem (<[phoneNumber := d2]> (activeOTPs sys1)) (store sys1)).
  assert (Hd2 : activeOTPs sys2 !! phoneNumber = Some d2) by apply lookup_insert_eq.
  destruct (verifyAll_mismatch phoneNumber t3 k3 w3
              [(t4, k4, w4); (t5, k5, c5); (t6, k6, c6)]
              sys2 d2 Hd2 ltac:(lia) ltac:(lia) ltac:(congruence))
    as (d3 & Ho3 & He3 & Ha3 & ->).
  set (sys3 := mkSystem (<[phoneNumber := d3]> (activeOTPs sys2)) (store sys2)).
  assert (Hd3 : activeOTPs sys3 !! phoneNumber = Some d3) by apply lookup_insert_eq.
  destruct (verifyAll_mismatch phoneNumber t4 k4 w4
              [(t5, k5, c5); (t6, k6, c6)]
              sys3 d3 Hd3 ltac:(lia) ltac:(lia) ltac:(congruence))
    as (d4 & Ho4 & He4 & Ha4 & ->).
  set (sys4 := mkSystem (<[phoneNumber := d4]> (activeOTPs sys3)) (store sys3)).
  assert (Hd4 : activeOTPs sys4 !! phoneNumber = Some d4) by apply lookup_insert_eq.
  cbn [verifyAll].
  rewrite (verifyOTP_exhausted t5 k5 phoneNumber c5 sys4 d4 Hd4 ltac:(lia) ltac:(lia)).
  rewrite verifyOTP_no_challenge by apply lookup_delete_eq.
  cbn [fst snd]. f_equal. f_equal.
  subst sys4 sys3 sys2 sys1. cbn [activeOTPs].
  rewrite !delete_insert_eq. reflexivity.
Qed.

Lemma verifyOTP_attempt_exhaustion_witness :
  verifyAll "+15550000001"
            [sample.wrong 1; sample.wrong 2; sample.wrong 3; sample.wrong 4;
             sample.right 5; sample.right 6]
            sample.sys_challenged
  = ([CodeMismatch; CodeMismatch; CodeMismatch; CodeMismatch;
      TooManyAttempts; NoActiveChallenge],
     mkSystem (delete "+15550000001" (activeOTPs sample.sys_challenged))
              (store sample.sys_challenged)).
Proof.
  apply (verifyOTP_attempt_exhaustion
           sample.sys_challenged "+15550000001"
           (mkOtp "123456" config.otp_expiry "member_1" O));
    try reflexivity; try discriminate; vm_compute; discriminate.
Defined.

(** ** The vote ledger *)

Lemma loadElectionStatus_set_votes vs db :
  voting.loadElectionStatus (set_votes vs db) = voting.loadElectionStatus db.
Proof. reflexivity. Qed.

(** A call of [submitVote] either leaves the store as it was or appends one
    record, for a member who had none. *)
Lemma submitVote_cases now rnd memberId ballot db :
  (snd (voting.submitVote now rnd memberId ballot db) = db
   /\ forall voteId,
        fst (voting.submitVote now rnd memberId ballot db) <> VoteSubmitted voteId)
  \/ (isActive (voting.loadElectionStatus db) = true
      /\ fileDb.findBy vote_memberId memberId (votes db) = None
      /\ voting.submitVote now rnd memberId ballot db
         = (VoteSubmitted (voting.voteIdOf now rnd),
            set_votes (votes db ++ [mkVote (voting.voteIdOf now rnd) memberId now ballot])
                      db)).
Proof.
  unfold voting.submitVote.
  destruct (isActive (voting.loadElectionStatus db));
    [|left; split; [reflexivity | discriminate]].
  cbn [negb].
  destruct (fileDb.findBy vote_memberId memberId (votes db));
    [left; split; [reflexivity | discriminate]|].
  destruct (find _ (obj_keys ballot));
    [left; split; [reflexivity | discriminate]|].
  destruct (find _ ballot) as [[p c]|];
    [left; split; [reflexivity | discriminate]|].
  right. repeat split; reflexivity.
Qed.

Lemma submitVote_already_voted now rnd memberId ballot db existingVote :
  isActive (voting.loadElectionStatus db) = true ->
  fileDb.findBy vote_memberId memberId (votes db) = Some existingVote ->
  voting.submitVote now rnd memberId ballot db
  = (AlreadyVoted (vote_id existingVote), db).
Proof.
  intros Hact Hfind. unfold voting.submitVote. rewrite Hact, Hfind. reflexivity.
Qed.

Lemma NoDup_map_eq {A B : Type} (f : A -> B) (l : list A) x y :
  List.NoDup (map f l) -> In x l -> In y l -> f x = f y -> x = y.
Proof.
  induction l as [|a l IH]; simpl; [intros _ []|].
  intros Hnd Hx Hy Hf. inversion Hnd as [|? ? Hnotin Hnd']; subst.
  destruct Hx as [<-|Hx], Hy as [<-|Hy]; auto.
  - destruct Hnotin. rewrite Hf. apply in_map. exact Hy.
  - destruct Hnotin. rewrite <- Hf. apply in_map. exact Hx.
Qed.

Lemma submitVote_oneVotePerMember now rnd memberId ballot db :
  oneVotePerMember db ->
  oneVotePerMember (snd (voting.submitVote now rnd memberId ballot db)).
Proof.
  intros Hinv.
  destruct (submitVote_cases now rnd memberId ballot db)
    as [[-> _]|(_ & Hnone & ->)]; [exact Hinv|].
  unfold oneVotePerMember in *. simpl. rewrite map_app. simpl.
  apply NoDup_ListNoDup. apply NoDup_app. repeat split.
  - apply NoDup_ListNoDup. exact Hinv.
  - intros x Hx Hx'. apply list_elem_of_In in Hx.
    apply list_elem_of_In in Hx'. destruct Hx' as [<-|[]].
    apply in_map_iff in Hx as (v & Hv & Hin).
    apply (proj1 (findBy_None vote_memberId memberId (votes db)) Hnone v Hin Hv).
  - apply NoDup_ListNoDup. repeat constructor. intros [].
Qed.

Lemma getDashboardData_votes now db :
  votes (snd (voting.getDashboardData now db)) = votes db.
Proof.
  unfold voting.getDashboardData.
  pose proof (getElectionStatus_votes now db) as H.
  destruct (voting.getElectionStatus now db). exact H.
Qed.

Lemma startElection_votes duration_arg now db :
  votes (snd (voting.startElection duration_arg now db)) = votes db.
Proof.
  unfold voting.startElection.
  destruct (isActive _); [reflexivity|].
  match goal with
  | |- context [voting.saveElectionStatus ?n ?o ?d] =>
      pose proof (saveElectionStatus_votes n o d) as H;
      destruct (voting.saveElectionStatus n o d)
  end. exact H.
Qed.

Lemma endElection_votes now db :
  votes (snd (voting.endElection now db)) = votes db.
Proof.
  unfold voting.endElection.
  destruct (negb _); [reflexivity|].
  match goal with
  | |- context [voting.saveElectionStatus ?n ?o ?d] =>
      pose proof (saveElectionStatus_votes n o d) as H;
      destruct (voting.saveElectionStatus n o d)
  end. exact H.
Qed.

Lemma endSession_votes token db :
  votes (snd (auth.endSession token db)) = votes db.
Proof.
  unfold auth.endSession. destruct token as [t|]; [|reflexivity].
  destruct (negb _); [reflexivity|].
  destruct (fileDb.remove _ _ _). reflexivity.
Qed.

Lemma verifyMember_votes now code phoneNumber sys :
  votes (store (snd (auth.verifyMember now code phoneNumber sys))) = votes (store sys).
Proof.
  unfold auth.verifyMember. destruct (fileDb.findBy _ _ _); reflexivity.
Qed.

Lemma verifyOTP_votes now token phoneNumber code sys :
  votes (store (snd (auth.verifyOTP now token phoneNumber code sys))) = votes (store sys).
Proof.
  unfold auth.verifyOTP.
  destruct (activeOTPs sys !! phoneNumber); [|reflexivity].
  destruct (_ <? now); [reflexivity|].
  destruct (5 <=? _)%nat; [reflexivity|].
  destruct (negb _); [reflexivity|].
  destruct (fileDb.findBy member_id _ _); reflexivity.
Qed.

Lemma submit_route_oneVotePerMember now rnd memberId ballot db :
  oneVotePerMember db ->
  oneVotePerMember (snd (routes.submit now rnd memberId ballot db)).
Proof.
  intros Hinv. unfold routes.submit.
  pose proof (getElectionStatus_votes now db) as Hvotes.
  destruct (voting.getElectionStatus now db) as [status db1]. simpl in Hvotes.
  assert (Hinv1 : oneVotePerMember db1) by (unfold oneVotePerMember; rewrite Hvotes; exact Hinv).
  destruct (negb (sv_isActive status)); [exact Hinv1|].
  destruct ballot as [ballot|]; [|exact Hinv1].
  destruct (_ =? 0)%nat; [exact Hinv1|].
  pose proof (submitVote_oneVotePerMember now rnd memberId ballot db1 Hinv1) as Hinv2.
  destruct (voting.submitVote now rnd memberId ballot db1) as [result db2].
  destruct result; exact Hinv2.
Qed.

Lemma step_oneVotePerMember sys op :
  oneVotePerMember (store sys) -> oneVotePerMember (store (step sys op)).
Proof.
  intros Hinv. unfold oneVotePerMember in *.
  destruct op; simpl.
  - apply submitVote_oneVotePerMember. exact Hinv.
  - apply submit_route_oneVotePerMember. exact Hinv.
  - exact Hinv.
  - rewrite startElection_votes. exact Hinv.
  - rewrite endElection_votes. exact Hinv.
  - rewrite getElectionStatus_votes. exact Hinv.
  - rewrite getDashboardData_votes. exact Hinv.
  - rewrite verifyMember_votes. exact Hinv.
  - rewrite verifyOTP_votes. exact Hinv.
  - rewrite endSession_votes. exact Hinv.
  - rewrite logout_always_succeeds. simpl. rewrite endSession_votes. exact Hinv.
Qed.

Lemma run_oneVotePerMember ops sys :
  oneVotePerMember (store sys) -> oneVotePerMember (store (run ops sys)).
Proof.
  revert sys. induction ops as [|op ops IH]; intros sys Hinv; simpl; [exact Hinv|].
  apply IH. apply step_oneVotePerMember. exact Hinv.
Qed.

Lemma votesOf_at_most_one memberId db :
  oneVotePerMember db -> (votesOf memberId db <= 1)%nat.
Proof.
  unfold oneVotePerMember, votesOf. generalize (votes db) as vs.
  induction vs as [|v vs IH]; simpl; intros Hnd; [lia|].
  inversion Hnd as [|? ? Hnotin Hnd']; subst.
  destruct (fileDb.matches vote_memberId memberId v) eqn:Hm; [|auto].
  simpl. apply (matches_true vote_memberId) in Hm.
  destruct (List.filter (fileDb.matches vote_memberId memberId) vs) as [|w ws] eqn:Hf;
    [simpl; lia|].
  exfalso. apply Hnotin.
  assert (Hw : In w (List.filter (fileDb.matches vote_memberId memberId) vs))
    by (rewrite Hf; left; reflexivity).
  apply filter_In in Hw as [Hin Hmw]. apply (matches_true vote_memberId) in Hmw.
  rewrite Hm, <- Hmw. apply in_map. exact Hin.
Qed.

Lemma findBy_app_fresh {R K : Type} `{EqDecision K} (field : R -> K) value records r :
  fileDb.findBy field value records = None ->
  field r = value ->
  fileDb.findBy field value (records ++ [r]) = Some r.
Proof.
  unfold fileDb.findBy. intros Hnone Hr.
  induction records as [|x xs IH]; simpl in *.
  - rewrite (proj2 (matches_true field value r) Hr). reflexivity.
  - destruct (fileDb.matches field value x); [discriminate|]. apply IH. exact Hnone.
Qed.

(** What the duplicate guard achieves for calls made one after another.
    With the election active, [submitVote] for a member who has a record
    answers AlreadyVoted with the id of that record; whatever the election
    state, it appends nothing for such a member.  Hence calls that each
    return before the next starts keep the member identifiers of the vote
    file pairwise distinct. *)
Lemma sequential_calls_keep_one_vote_per_member :
  (forall now rnd memberId ballot db existingVote,
     oneVotePerMember db ->
     In existingVote (votes db) ->
     vote_memberId existingVote = memberId ->
     snd (voting.submitVote now rnd memberId ballot db) = db
     /\ (isActive (voting.loadElectionStatus db) = true ->
         fst (voting.submitVote now rnd memberId ballot db)
         = AlreadyVoted (vote_id existingVote)))
  /\ (forall ops sys,
        oneVotePerMember (store sys) -> oneVotePerMember (store (run ops sys)))
  /\ (forall ops sys memberId,
        votes (store sys) = [] ->
        (votesOf memberId (store (run ops sys)) <= 1)%nat).
Proof.
  split; [|split].
  - intros now rnd memberId ballot db existingVote Hinv Hin Hm.
    destruct (findBy_In vote_memberId memberId (votes db) existingVote Hin Hm)
      as [v Hfind].
    pose proof (findBy_Some vote_memberId memberId (votes db) v Hfind) as [Hvin Hvm].
    assert (v = existingVote) as ->.
    { apply (NoDup_map_eq vote_memberId (votes db)); auto. congruence. }
    split.
    + destruct (submitVote_cases now rnd memberId ballot db)
        as [[Hsame _]|(_ & Hnone & _)]; [exact Hsame|congruence].
    + intros Hact.
      rewrite (submitVote_already_voted now rnd memberId ballot db existingVote Hact Hfind).
      reflexivity.
  - apply run_oneVotePerMember.
  - intros ops sys memberId Hempty. apply votesOf_at_most_one.
    apply run_oneVotePerMember. unfold oneVotePerMember. rewrite Hempty. constructor.
Qed.

Lemma submitVote_in_two_turns now rnd memberId ballot db :
  inflight.interleave [O; O] [Waiting now rnd memberId ballot] db
  = ([Answered (fst (voting.submitVote now rnd memberId ballot db))],
     snd (voting.submitVote now rnd memberId ballot db)).
Proof.
  cbn [inflight.interleave lookup list_lookup inflight.resume].
  unfold inflight.submitVote_checks, voting.submitVote.
  destruct (negb (isActive (voting.loadElectionStatus db))); [reflexivity|].
  destruct (fileDb.findBy vote_memberId memberId (votes db)); [reflexivity|].
  destruct (find _ (obj_keys ballot)); [reflexivity|].
  destruct (find _ ballot) as [[p c]|]; reflexivity.
Qed.

(** C1 (the code departs from it): the duplicate check of [submitVote] and
    its [fileDb.create] are separated by an await and nothing serialises
    two requests.  A request run alone through its two turns is
    [submitVote].  Two submissions of one member in flight together, each
    resumed once before either is resumed again, both pass the check on the
    vote file without a record of that member and both append: both are
    answered with success and the file holds two votes of the member.  The
    same two requests served one after the other give one vote and
    AlreadyVoted. *)
Theorem concurrent_submissions_both_recorded :
  (forall now rnd memberId ballot db,
     inflight.interleave [O; O] [Waiting now rnd memberId ballot] db
     = ([Answered (fst (voting.submitVote now rnd memberId ballot db))],
        snd (voting.submitVote now rnd memberId ballot db)))
  /\ inflight.interleave [0%nat; 1%nat; 0%nat; 1%nat]
       [sample.first_request; sample.second_request] sample.db_running_long
     = ([Answered (VoteSubmitted "vote_1500_x"); Answered (VoteSubmitted "vote_1501_y")],
        set_votes [mkVote "vote_1500_x" "member_1" 1500 (sample.ballot_for sample.ann);
                   mkVote "vote_1501_y" "member_1" 1501 (sample.ballot_for sample.bob)]
                  sample.db_running_long)
  /\ votesOf "member_1"
       (snd (inflight.interleave [0%nat; 1%nat; 0%nat; 1%nat]
               [sample.first_request; sample.second_request] sample.db_running_long))
     = 2%nat
  /\ ~ oneVotePerMember
         (snd (inflight.interleave [0%nat; 1%nat; 0%nat; 1%nat]
                 [sample.first_request; sample.second_request] sample.db_running_long))
  /\ inflight.interleave [0%nat; 0%nat; 1%nat; 1%nat]
       [sample.first_request; sample.second_request] sample.db_running_long
     = ([Answered (VoteSubmitted "vote_1500_x"); Answered (AlreadyVoted "vote_1500_x")],
        set_votes [mkVote "vote_1500_x" "member_1" 1500 (sample.ballot_for sample.ann)]
                  sample.db_running_long).
Proof.
  assert (Hboth : inflight.interleave [0%nat; 1%nat; 0%nat; 1%nat]
                    [sample.first_request; sample.second_request] sample.db_running_long
                  = ([Answered (VoteSubmitted "vote_1500_x");
                      Answered (VoteSubmitted "vote_1501_y")],
                     set_votes
                       [mkVote "vote_1500_x" "member_1" 1500 (sample.ballot_for sample.ann);
                        mkVote "vote_1501_y" "member_1" 1501 (sample.ballot_for sample.bob)]
                       sample.db_running_long))
    by (vm_compute; reflexivity).
  split; [apply submitVote_in_two_turns|].
  split; [exact Hboth|]. rewrite Hboth. cbn [snd].
  split; [reflexivity|]. split; [|vm_compute; reflexivity].
  unfold oneVotePerMember. cbn [votes set_votes map vote_memberId].
  intros Hnd. inversion Hnd as [|x l Hnotin _]. apply Hnotin. left. reflexivity.
Qed.

(** ** Tallies *)

Lemma countVote_no_choice position pc vote :
  obj_get (pos_id position) (vote_votes vote) = None ->
  voting.countVote position pc vote = pc.
Proof. intros H. unfold voting.countVote. rewrite H. reflexivity. Qed.

Lemma fold_left_pointwise {A B : Type} (f g : A -> B -> A) (l : list B) (a : A) :
  (forall acc x, In x l -> f acc x = g acc x) ->
  fold_left f l a = fold_left g l a.
Proof.
  revert a. induction l as [|x xs IH]; intros a Hfg; simpl; [reflexivity|].
  rewrite Hfg by (left; reflexivity). apply IH.
  intros acc y Hy. apply Hfg. right. exact Hy.
Qed.

Lemma positionResult_empty_vote st cands vs v position :
  vote_votes v = [] ->
  voting.positionResult st cands (vs ++ [v]) position
  = voting.positionResult st cands vs position.
Proof.
  intros Hv. unfold voting.positionResult.
  rewrite fold_left_app. simpl.
  rewrite countVote_no_choice by (rewrite Hv; reflexivity). reflexivity.
Qed.

Lemma getResults_empty_vote db v :
  vote_votes v = [] ->
  voting.getResults true (set_votes (votes db ++ [v]) db) = voting.getResults true db.
Proof.
  intros Hv. unfold voting.getResults.
  rewrite loadElectionStatus_set_votes. cbn [positions candidates votes set_votes].
  f_equal. apply fold_left_pointwise. intros acc position _.
  rewrite positionResult_empty_vote by exact Hv. reflexivity.
Qed.

(** C10: called directly with an empty choice map, for a member without a
    vote and with the election active, [submitVote] succeeds and stores a
    record whose position-to-candidate mapping is empty.  That record uses
    up the member's single vote (a later submission answers AlreadyVoted
    with its id) and raises the total-votes figure of the dashboard by one,
    while the results, every tally included, stay as they were. *)
Theorem submitVote_empty_ballot :
  forall now rnd memberId db,
    isActive (voting.loadElectionStatus db) = true ->
    (forall v, In v (votes db) -> vote_memberId v <> memberId) ->
    let voteId := voting.voteIdOf now rnd in
    let db' := set_votes (votes db ++ [mkVote voteId memberId now []]) db in
    voting.submitVote now rnd memberId [] db = (VoteSubmitted voteId, db')
    /\ (forall now' rnd' ballot',
          voting.submitVote now' rnd' memberId ballot' db' = (AlreadyVoted voteId, db'))
    /\ (forall now',
          dash_totalVotes (fst (voting.getDashboardData now' db'))
          = S (dash_totalVotes (fst (voting.getDashboardData now' db))))
    /\ voting.getResults true db' = voting.getResults true db
    /\ (forall positionId candidateId,
          tally db' positionId candidateId = tally db positionId candidateId).
Proof.
  intros now rnd memberId db Hact Hfresh voteId db'.
  assert (Hnone : fileDb.findBy vote_memberId memberId (votes db) = None)
    by (apply findBy_None; exact Hfresh).
  assert (Hres : voting.getResults true db' = voting.getResults true db)
    by (apply getResults_empty_vote; reflexivity).
  split; [|split; [|split; [|split]]].
  - unfold voting.submitVote. rewrite Hact, Hnone. reflexivity.
  - intros now' rnd' ballot'.
    apply (submitVote_already_voted now' rnd' memberId ballot' db'
             (mkVote voteId memberId now [])).
    + exact Hact.
    + apply findBy_app_fresh; [exact Hnone | reflexivity].
  - intros now'. unfold voting.getDashboardData.
    assert (Hlen : forall d1 d2 : Dashboard * Store,
               dash_totalVotes (fst d1) = length (votes db') ->
               dash_totalVotes (fst d2) = length (votes db) ->
               dash_totalVotes (fst d1) = S (dash_totalVotes (fst d2))).
    { intros d1 d2 -> ->. unfold db'. simpl. rewrite length_app. simpl. lia. }
    apply Hlen.
    + destruct (voting.getElectionStatus now' db'). reflexivity.
    + destruct (voting.getElectionStatus now' db). reflexivity.
  - exact Hres.
  - intros positionId candidateId. unfold tally. rewrite Hres. reflexivity.
Qed.

Lemma submitVote_empty_ballot_witness :
  voting.submitVote 1500 "x" "member_1" [] sample.db_running_long
  = (VoteSubmitted "vote_1500_x",
     set_votes [mkVote "vote_1500_x" "member_1" 1500 []] sample.db_running_long).
Proof.
  apply (submitVote_empty_ballot 1500 "x" "member_1" sample.db_running_long).
  - reflexivity.
  - intros v [].
Defined.

(** ** Objects as association lists *)

Section JsObjectFacts.
Context {V : Type}.
Implicit Types (o : list (string * V)) (k : string) (v : V).

Lemma obj_get_set k k' v o :
  obj_get k (obj_set k' v o) = if String.eqb k' k then Some v else obj_get k o.
Proof.
  induction o as [|[k0 v0] o IH]; simpl.
  - destruct (String.eqb k' k); reflexivity.
  - destruct (String.eqb_spec k0 k') as [->|Hne]; simpl.
    + destruct (String.eqb k' k); reflexivity.
    + destruct (String.eqb_spec k0 k) as [->|Hne'].
      * destruct (String.eqb_spec k' k) as [->|_]; [contradiction | reflexivity].
      * exact IH.
Qed.

Lemma obj_get_alter (f : V -> V) k k' o :
  obj_get k (obj_alter f k' o)
  = if String.eqb k' k then f <$> obj_get k o else obj_get k o.
Proof.
  induction o as [|[k0 v0] o IH]; simpl.
  - destruct (String.eqb k' k); reflexivity.
  - destruct (String.eqb_spec k0 k') as [->|Hne]; simpl.
    + destruct (String.eqb k' k); reflexivity.
    + destruct (String.eqb_spec k0 k) as [->|Hne'].
      * destruct (String.eqb_spec k' k) as [->|_]; [contradiction | reflexivity].
      * exact IH.
Qed.

Lemma obj_keys_alter (f : V -> V) k o : obj_keys (obj_alter f k o) = obj_keys o.
Proof.
  induction o as [|[k0 v0] o IH]; simpl; [reflexivity|].
  destruct (String.eqb k0 k); simpl; [reflexivity|]. f_equal. exact IH.
Qed.

Lemma obj_keys_set k v o :
  obj_keys (obj_set k v o) = obj_keys o
  \/ (~ In k (obj_keys o) /\ obj_keys (obj_set k v o) = obj_keys o ++ [k]).
Proof.
  induction o as [|[k0 v0] o IH]; simpl.
  - right. split; [intros [] | reflexivity].
  - destruct (String.eqb_spec k0 k) as [->|Hne]; simpl.
    + left. reflexivity.
    + destruct IH as [->|[Hnotin ->]].
      * left. reflexivity.
      * right. split; [|reflexivity]. intros [E|Hin]; auto.
Qed.

Lemma obj_set_NoDup k v o :
  List.NoDup (obj_keys o) -> List.NoDup (obj_keys (obj_set k v o)).
Proof.
  intros Hnd. destruct (obj_keys_set k v o) as [->|[Hnotin ->]]; [exact Hnd|].
  apply NoDup_ListNoDup. apply NoDup_app. repeat split.
  - apply NoDup_ListNoDup. exact Hnd.
  - intros x Hx Hx'. apply list_elem_of_In in Hx. apply list_elem_of_In in Hx'.
    destruct Hx' as [<-|[]]. contradiction.
  - apply NoDup_ListNoDup. repeat constructor. intros [].
Qed.

Lemma obj_get_In k v o : obj_get k o = Some v -> In (k, v) o.
Proof.
  induction o as [|[k0 v0] o IH]; simpl; [discriminate|].
  destruct (String.eqb_spec k0 k) as [->|Hne].
  - intros [= ->]. left. reflexivity.
  - intros H. right. apply IH. exact H.
Qed.

Lemma In_obj_get k v o :
  List.NoDup (obj_keys o) -> In (k, v) o -> obj_get k o = Some v.
Proof.
  induction o as [|[k0 v0] o IH]; simpl; [intros _ []|].
  intros Hnd Hin. inversion Hnd as [|? ? Hnotin Hnd']; subst.
  destruct Hin as [[= -> ->]|Hin].
  - rewrite String.eqb_refl. reflexivity.
  - destruct (String.eqb_spec k0 k) as [->|Hne]; [|apply IH; assumption].
    destruct Hnotin. change k with (fst (k, v)). apply in_map. exact Hin.
Qed.

Lemma obj_has_true k o : obj_has k o = true <-> In k (obj_keys o).
Proof.
  unfold obj_has. induction o as [|[k0 v0] o IH]; simpl.
  - split; [discriminate | intros []].
  - destruct (String.eqb_spec k0 k) as [->|Hne].
    + split; auto.
    + rewrite IH. split; [auto | intros [E|H]; [contradiction | exact H]].
Qed.
End JsObjectFacts.

Lemma fold_left_invariant {A B : Type} (P : A -> Prop) (f : A -> B -> A)
      (l : list B) (a : A) :
  P a -> (forall acc x, In x l -> P acc -> P (f acc x)) -> P (fold_left f l a).
Proof.
  revert a. induction l as [|x xs IH]; intros a Ha Hstep; simpl; [exact Ha|].
  apply IH.
  - apply Hstep; [left; reflexivity | exact Ha].
  - intros acc y Hy. apply Hstep. right. exact Hy.
Qed.

(** ** Winners *)

Lemma positionResult_candidates st cands vs position :
  pr_candidates (voting.positionResult st cands vs position)
  = voting.determineWinners st (countedTally cands vs position).
Proof. reflexivity. Qed.

Lemma initialTally_unmarked cands position :
  unmarked (voting.initialTally cands position).
Proof.
  unfold voting.initialTally. apply fold_left_invariant.
  - split; [constructor | discriminate].
  - intros acc cand _ [Hnd Hw]. split.
    + apply obj_set_NoDup. exact Hnd.
    + intros k c. rewrite obj_get_set.
      destruct (String.eqb (cand_id cand) k); [intros [= <-]; reflexivity | apply Hw].
Qed.

Lemma countVote_unmarked position pc vote :
  unmarked pc -> unmarked (voting.countVote position pc vote).
Proof.
  intros [Hnd Hw]. unfold voting.countVote.
  destruct (obj_get (pos_id position) (vote_votes vote)) as [c0|]; [|split; assumption].
  destruct (truthyStr c0 && obj_has c0 pc); [|split; assumption].
  split.
  - rewrite obj_keys_alter. exact Hnd.
  - intros k c. rewrite obj_get_alter.
    destruct (String.eqb c0 k); [|apply Hw].
    destruct (obj_get k pc) as [c1|] eqn:Hc1; simpl; [|discriminate].
    intros [= <-]. simpl. apply (Hw k c1 Hc1).
Qed.

Lemma countedTally_unmarked cands vs position :
  unmarked (countedTally cands vs position).
Proof.
  unfold countedTally. apply fold_left_invariant.
  - apply initialTally_unmarked.
  - intros acc v _. apply countVote_unmarked.
Qed.

Lemma winnerStep_inv seen acc k c :
  winnerInv seen acc -> winnerInv (seen ++ [(k, c)]) (voting.winnerStep acc (k, c)).
Proof.
  destruct acc as [m w]. unfold winnerInv. simpl. intros (Hle & Hmax & Hw).
  destruct (Nat.ltb_spec m (cr_votes c)) as [Hlt|Hge]; simpl.
  - split; [|split].
    + intros k' c' Hin. apply in_app_or in Hin as [Hin|[[= <- <-]|[]]]; [|lia].
      specialize (Hle k' c' Hin). lia.
    + right. exists k, c. split; [apply in_or_app; right; left|]; reflexivity.
    + intros k'. split.
      * intros [<-|[]]. exists c. split; [apply in_or_app; right; left; reflexivity|].
        split; [reflexivity | lia].
      * intros (c' & Hin & Hv & _).
        apply in_app_or in Hin as [Hin|[[= <- <-]|[]]]; [|left; reflexivity].
        specialize (Hle k' c' Hin). lia.
  - destruct (Nat.eqb_spec (cr_votes c) m) as [Heq|Hne];
      destruct (Nat.ltb_spec 0 m) as [Hpos|Hzero]; simpl.
    + split; [|split].
      * intros k' c' Hin. apply in_app_or in Hin as [Hin|[[= <- <-]|[]]]; [eauto | lia].
      * right. exists k, c. split; [apply in_or_app; right; left; reflexivity | exact Heq].
      * intros k'. rewrite in_app_iff, Hw. simpl. split.
        -- intros [(c' & Hin & Hv & Hp)|[<-|[]]].
           ++ exists c'. split; [apply in_or_app; left; exact Hin | auto].
           ++ exists c. split; [apply in_or_app; right; left; reflexivity | auto].
        -- intros (c' & Hin & Hv & Hp).
           apply in_app_or in Hin as [Hin|[[= <- <-]|[]]]; [left; eauto | right; left; reflexivity].
    + split; [|split].
      * intros k' c' Hin. apply in_app_or in Hin as [Hin|[[= <- <-]|[]]]; [eauto | lia].
      * left. lia.
      * intros k'. rewrite Hw. split; intros (c' & _ & _ & Hp); lia.
    + split; [|split].
      * intros k' c' Hin. apply in_app_or in Hin as [Hin|[[= <- <-]|[]]]; [eauto | lia].
      * destruct Hmax as [Hz|(k0 & c0 & Hin & Hv)]; [lia|].
        right. exists k0, c0. split; [apply in_or_app; left; exact Hin | exact Hv].
      * intros k'. rewrite Hw. split.
        -- intros (c' & Hin & Hv & Hp). exists c'.
           split; [apply in_or_app; left; exact Hin | auto].
        -- intros (c' & Hin & Hv & Hp).
           apply in_app_or in Hin as [Hin|[[= <- <-]|[]]]; [eauto | lia].
    + split; [|split].
      * intros k' c' Hin. apply in_app_or in Hin as [Hin|[[= <- <-]|[]]]; [eauto | lia].
      * left. lia.
      * intros k'. rewrite Hw. split; intros (c' & _ & _ & Hp); lia.
Qed.

Lemma winnerInv_fold pc :
  winnerInv pc (fold_left voting.winnerStep pc (O, [])).
Proof.
  induction pc as [|[k c] pc IH] using rev_ind.
  - simpl. unfold winnerInv. simpl. split; [intros k c []|split; [left; reflexivity|]].
    intros k. split; [intros [] | intros (c & [] & _)].
  - rewrite fold_left_app. simpl. apply winnerStep_inv. exact IH.
Qed.

Lemma setWinner_idempotent c : setWinner (setWinner c) = setWinner c.
Proof. reflexivity. Qed.

Lemma markWinners_get winnerIds pc k :
  obj_get k (voting.markWinners winnerIds pc)
  = match obj_get k pc with
    | Some c => Some (if existsb (String.eqb k) winnerIds then setWinner c else c)
    | None => None
    end.
Proof.
  unfold voting.markWinners. revert pc.
  induction winnerIds as [|x w IH]; intros pc; simpl.
  - destruct (obj_get k pc); reflexivity.
  - rewrite IH, obj_get_alter. rewrite (String.eqb_sym k x).
    destruct (String.eqb x k); simpl; [|reflexivity].
    destruct (obj_get k pc) as [c|]; simpl; [|reflexivity].
    destruct (existsb (String.eqb k) w); reflexivity.
Qed.

Lemma existsb_eqb_In k (l : list string) : existsb (String.eqb k) l = true <-> In k l.
Proof.
  rewrite existsb_exists. split.
  - intros (x & Hin & Heq). apply String.eqb_eq in Heq. subst. exact Hin.
  - intros Hin. exists k. split; [exact Hin | apply String.eqb_refl].
Qed.

Lemma determineWinners_not_ended st pc :
  ~ isEnded st -> voting.determineWinners st pc = pc.
Proof.
  intros Hne. unfold voting.determineWinners, isEnded in *.
  destruct (isActive st); simpl; [reflexivity|].
  destruct (truthy (endTime st)); [|reflexivity].
  destruct Hne. split; reflexivity.
Qed.

Lemma determineWinners_ended st pc :
  isEnded st ->
  voting.determineWinners st pc
  = voting.markWinners (snd (fold_left voting.winnerStep pc (O, []))) pc.
Proof.
  intros [Hact Hend]. unfold voting.determineWinners. rewrite Hact, Hend. simpl.
  destruct (fold_left voting.winnerStep pc (O, [])). reflexivity.
Qed.

(** Marking winners changes no tally and no key. *)
Lemma determineWinners_votes st pc k :
  cr_votes <$> obj_get k (voting.determineWinners st pc) = cr_votes <$> obj_get k pc.
Proof.
  unfold voting.determineWinners.
  destruct (negb (isActive st) && truthy (endTime st)); [|reflexivity].
  destruct (fold_left voting.winnerStep pc (O, [])) as [m w].
  rewrite markWinners_get. destruct (obj_get k pc) as [c|]; simpl; [|reflexivity].
  destruct (existsb (String.eqb k) w); reflexivity.
Qed.

Lemma determineWinners_spec st pc k c' :
  isEnded st ->
  unmarked pc ->
  obj_get k (voting.determineWinners st pc) = Some c' ->
  (cr_isWinner c' = true <->
   (0 < cr_votes c')%nat
   /\ forall k2 c2, obj_get k2 (voting.determineWinners st pc) = Some c2 ->
                    (cr_votes c2 <= cr_votes c')%nat).
Proof.
  intros Hended [Hnd Hunmarked] Hget.
  assert (Hvotes : forall k0 c0,
             obj_get k0 (voting.determineWinners st pc) = Some c0 ->
             exists c, obj_get k0 pc = Some c /\ cr_votes c = cr_votes c0).
  { intros k0 c0 H0. pose proof (determineWinners_votes st pc k0) as Hv.
    rewrite H0 in Hv. destruct (obj_get k0 pc) as [c|]; simpl in Hv; [|discriminate].
    exists c. split; [reflexivity | congruence]. }
  assert (Hback : forall k0 c, obj_get k0 pc = Some c ->
             exists c0, obj_get k0 (voting.determineWinners st pc) = Some c0
                        /\ cr_votes c0 = cr_votes c).
  { intros k0 c H0. pose proof (determineWinners_votes st pc k0) as Hv.
    rewrite H0 in Hv.
    destruct (obj_get k0 (voting.determineWinners st pc)) as [c0|];
      simpl in Hv; [|discriminate].
    exists c0. split; [reflexivity | congruence]. }
  rewrite (determineWinners_ended st pc Hended) in Hget.
  pose proof (winnerInv_fold pc) as (Hle & Hmax & Hw).
  destruct (fold_left voting.winnerStep pc (O, [])) as [m w]. simpl in *.
  rewrite markWinners_get in Hget.
  destruct (obj_get k pc) as [c|] eqn:Hc; [|discriminate].
  assert (Hwin : cr_isWinner c' = true <-> In k w).
  { rewrite <- existsb_eqb_In. injection Hget as <-.
    destruct (existsb (String.eqb k) w); simpl.
    - split; reflexivity.
    - rewrite (Hunmarked k c Hc). split; discriminate. }
  assert (Hcv : cr_votes c' = cr_votes c).
  { injection Hget as <-. destruct (existsb (String.eqb k) w); reflexivity. }
  rewrite Hwin, Hw, Hcv. split.
  - intros (c0 & Hin & Hv & Hpos).
    rewrite (In_obj_get k c0 pc Hnd Hin) in Hc. injection Hc as ->.
    split; [lia|]. intros k2 c2 H2.
    destruct (Hvotes k2 c2 H2) as (c3 & H3 & <-).
    specialize (Hle k2 c3 (obj_get_In _ _ _ H3)). lia.
  - intros [Hpos Hall]. exists c. split; [apply obj_get_In; exact Hc|].
    pose proof (Hle k c (obj_get_In _ _ _ Hc)) as Hcm.
    destruct Hmax as [Hz|(k0 & c0 & Hin0 & Hv0)]; [lia|].
    destruct (Hback k0 c0 (In_obj_get k0 c0 pc Hnd Hin0)) as (c1 & H1 & Hv1).
    specialize (Hall k0 c1 H1). lia.
Qed.

Lemma getResults_entry detailed db positionId pr :
  obj_get positionId (res_results (voting.getResults detailed db)) = Some pr ->
  exists position,
    In position (positions db)
    /\ pos_isActive position = true
    /\ pos_id position = positionId
    /\ pr = voting.positionResult (voting.loadElectionStatus db)
                                  (candidates db) (votes db) position.
Proof.
  unfold voting.getResults. cbn [res_results]. revert positionId pr.
  apply (fold_left_invariant
           (fun acc => forall positionId pr, obj_get positionId acc = Some pr ->
              exists position, In position (positions db)
                /\ pos_isActive position = true /\ pos_id position = positionId
                /\ pr = voting.positionResult (voting.loadElectionStatus db)
                                              (candidates db) (votes db) position)).
  - intros positionId pr. discriminate.
  - intros acc position Hin IH positionId pr.
    destruct (pos_isActive position) eqn:Hact; simpl; [|apply IH].
    rewrite obj_get_set. destruct (String.eqb_spec (pos_id position) positionId) as [E|_].
    + intros [= <-]. exists position. auto.
    + apply IH.
Qed.

(** C3: once the election has ended, a candidate of a position is marked
    winner exactly when the tally is positive and no candidate of that
    position has a greater one: every candidate tied at the maximum is a
    winner, one below it is not, and a position whose tallies are all zero
    has no winner.  Before the election has ended nobody is marked. *)
Theorem getResults_winners :
  forall detailed db positionId pr,
    obj_get positionId (res_results (voting.getResults detailed db)) = Some pr ->
    (isEnded (voting.loadElectionStatus db) ->
     forall candidateId cr,
       obj_get candidateId (pr_candidates pr) = Some cr ->
       (cr_isWinner cr = true <->
        (0 < cr_votes cr)%nat
        /\ forall other cr',
             obj_get other (pr_candidates pr) = Some cr' ->
             (cr_votes cr' <= cr_votes cr)%nat))
    /\ (~ isEnded (voting.loadElectionStatus db) ->
        forall candidateId cr,
          obj_get candidateId (pr_candidates pr) = Some cr ->
          cr_isWinner cr = false).
Proof.
  intros detailed db positionId pr Hpr.
  destruct (getResults_entry detailed db positionId pr Hpr)
    as (position & _ & _ & _ & ->).
  rewrite positionResult_candidates. split.
  - intros Hended candidateId cr Hcr.
    apply (determineWinners_spec _ _ candidateId cr Hended
             (countedTally_unmarked _ _ _) Hcr).
  - intros Hne candidateId cr. rewrite (determineWinners_not_ended _ _ Hne).
    apply (countedTally_unmarked (candidates db) (votes db) position).
Qed.

Lemma getResults_winners_witness :
  map (fun entry => (cr_name (snd entry), cr_votes (snd entry), cr_isWinner (snd entry)))
      (pr_candidates sample.tie_result)
  = [("Ann", 3%nat, true); ("Bob", 3%nat, true); ("Cyd", 2%nat, false)]
  /\ (cr_isWinner (mkCandidateResult "candidate_1_ann" "Ann" 3 true) = true <->
      (0 < 3)%nat
      /\ forall other cr',
           obj_get other (pr_candidates sample.tie_result) = Some cr' ->
           (cr_votes cr' <= 3)%nat).
Proof.
  split; [reflexivity|].
  destruct (getResults_winners true sample.db_tie "position_1_AAAAAA" sample.tie_result
              eq_refl) as [Hended _].
  apply (Hended (conj eq_refl eq_refl) "candidate_1_ann"
                (mkCandidateResult "candidate_1_ann" "Ann" 3 true) eq_refl).
Defined.

(** ** Submitting a vote and reading the results *)

Lemma results_related st cands vs1 vs2 positionId ps r1 r2 :
  relatedEntries st cands vs1 vs2 positionId r1 r2 ->
  relatedEntries st cands vs1 vs2 positionId
                 (buildResults st cands vs1 ps r1) (buildResults st cands vs2 ps r2).
Proof.
  revert r1 r2. induction ps as [|position ps IH]; intros r1 r2 Hrel; [exact Hrel|].
  simpl. apply IH.
  destruct (pos_isActive position) eqn:Hact; simpl; [|exact Hrel].
  unfold relatedEntries. rewrite !obj_get_set.
  destruct (String.eqb_spec (pos_id position) positionId) as [E|_]; [|exact Hrel].
  right. exists position. auto.
Qed.

Lemma results_related_nil st cands vs1 vs2 positionId ps :
  relatedEntries st cands vs1 vs2 positionId
                 (buildResults st cands vs1 ps []) (buildResults st cands vs2 ps []).
Proof. apply results_related. left. split; reflexivity. Qed.

Lemma countedTally_snoc cands vs v position :
  countedTally cands (vs ++ [v]) position
  = voting.countVote position (countedTally cands vs position) v.
Proof. unfold countedTally. rewrite fold_left_app. reflexivity. Qed.

Lemma countVote_tally position pc v candidateId :
  cr_votes <$> obj_get candidateId (voting.countVote position pc v)
  = (fun n => if raises v (pos_id position) candidateId then S n else n)
      <$> (cr_votes <$> obj_get candidateId pc).
Proof.
  unfold voting.countVote, raises.
  destruct (obj_get (pos_id position) (vote_votes v)) as [chosen|].
  - destruct (String.eqb_spec chosen candidateId) as [->|Hne]; simpl.
    + unfold obj_has.
      destruct (truthyStr candidateId); simpl.
      * destruct (obj_get candidateId pc) as [c|] eqn:Hc; simpl.
        -- rewrite obj_get_alter, String.eqb_refl, Hc. reflexivity.
        -- rewrite Hc. reflexivity.
      * destruct (obj_get candidateId pc); reflexivity.
    + destruct (truthyStr chosen && obj_has chosen pc).
      * rewrite obj_get_alter. destruct (String.eqb_spec chosen candidateId);
          [contradiction|]. destruct (obj_get candidateId pc); reflexivity.
      * destruct (obj_get candidateId pc); reflexivity.
  - destruct (obj_get candidateId pc); reflexivity.
Qed.

Lemma getResults_results detailed db :
  res_results (voting.getResults detailed db)
  = buildResults (voting.loadElectionStatus db) (candidates db) (votes db)
                 (positions db) [].
Proof. reflexivity. Qed.

(** The tallies after one more vote record, in terms of those before. *)
Lemma tally_after_vote db v positionId candidateId :
  tally (set_votes (votes db ++ [v]) db) positionId candidateId
  = (fun n => if raises v positionId candidateId then S n else n)
      <$> tally db positionId candidateId.
Proof.
  unfold tally. rewrite !getResults_results.
  rewrite loadElectionStatus_set_votes. cbn [positions candidates votes set_votes].
  destruct (results_related_nil (voting.loadElectionStatus db) (candidates db)
              (votes db) (votes db ++ [v]) positionId (positions db))
    as [[-> ->]|(position & _ & Hid & -> & ->)]; [reflexivity|].
  rewrite !positionResult_candidates, !determineWinners_votes.
  rewrite countedTally_snoc, countVote_tally, Hid. reflexivity.
Qed.

(** What a successful submission has checked about each ballot entry. *)
Lemma submitVote_validated now rnd memberId ballot db voteId db' :
  voting.submitVote now rnd memberId ballot db = (VoteSubmitted voteId, db') ->
  db' = set_votes (votes db ++ [mkVote voteId memberId now ballot]) db
  /\ isActive (voting.loadElectionStatus db) = true
  /\ (forall v, In v (votes db) -> vote_memberId v <> memberId)
  /\ forall positionId candidateId,
       In (positionId, candidateId) ballot ->
       (exists position,
           In position (positions db) /\ pos_isActive position = true
           /\ pos_id position = positionId)
       /\ (exists candidate,
              In candidate (candidates db) /\ cand_id candidate = candidateId
              /\ cand_positionId candidate = positionId
              /\ cand_isActive candidate = true).
Proof.
  unfold voting.submitVote.
  destruct (isActive (voting.loadElectionStatus db)); [|discriminate]. cbn [negb].
  destruct (fileDb.findBy vote_memberId memberId (votes db)) eqn:Hvoted; [discriminate|].
  destruct (find _ (obj_keys ballot)) eqn:Hkeys; [discriminate|].
  destruct (find _ ballot) as [[p c]|] eqn:Hentries; [discriminate|].
  intros [= <- <-]. split; [reflexivity|]. split; [reflexivity|].
  split; [apply findBy_None; exact Hvoted|].
  intros positionId candidateId Hin. split.
  - pose proof (find_none _ _ Hkeys positionId) as Hk.
    assert (Hkey : In positionId (obj_keys ballot)).
    { unfold obj_keys. change positionId with (fst (positionId, candidateId)).
      apply in_map. exact Hin. }
    specialize (Hk Hkey). apply negb_false_iff, bool_decide_eq_true in Hk.
    apply list_elem_of_In in Hk. unfold voting.activePositionIds in Hk.
    apply in_map_iff in Hk as (position & Hid & Hpos).
    apply filter_In in Hpos as [Hpos Hact]. exists position. auto.
  - pose proof (find_none _ _ Hentries (positionId, candidateId) Hin) as He.
    simpl in He.
    destruct (find (voting.validCandidate positionId candidateId) (candidates db))
      as [candidate|] eqn:Hfind; [|discriminate].
    apply find_some in Hfind as [Hcand Hvalid].
    unfold voting.validCandidate in Hvalid.
    apply andb_true_iff in Hvalid as [Hvalid Hact].
    apply andb_true_iff in Hvalid as [Hid Hpid].
    apply String.eqb_eq in Hid. apply String.eqb_eq in Hpid.
    exists candidate. auto.
Qed.

Lemma initialTally_has cands position candidate :
  In candidate cands ->
  cand_positionId candidate = pos_id position ->
  cand_isActive candidate = true ->
  In (cand_id candidate) (obj_keys (voting.initialTally cands position)).
Proof.
  intros Hin Hpid Hact. unfold voting.initialTally.
  assert (Hf : In candidate
                  (List.filter (fun c => String.eqb (cand_positionId c) (pos_id position)
                                         && cand_isActive c) cands)).
  { apply filter_In. split; [exact Hin|].
    rewrite Hpid, String.eqb_refl, Hact. reflexivity. }
  revert Hf. generalize (@nil (string * CandidateResult)) as acc.
  generalize (List.filter (fun c => String.eqb (cand_positionId c) (pos_id position)
                                     && cand_isActive c) cands) as l.
  assert (Hkeep : forall l acc k,
             In k (obj_keys acc) ->
             In k (obj_keys
                     (fold_left
                        (fun acc c =>
                           obj_set (cand_id c)
                                   (mkCandidateResult (cand_id c) (cand_name c) O false) acc)
                        l acc))).
  { induction l as [|c l IH]; intros acc k Hk; simpl; [exact Hk|].
    apply IH. destruct (obj_keys_set (cand_id c)
                          (mkCandidateResult (cand_id c) (cand_name c) O false) acc)
      as [->|[_ ->]]; [exact Hk | apply in_or_app; left; exact Hk]. }
  induction l as [|c l IH]; intros acc [].
  - subst c. simpl. apply Hkeep. apply obj_has_true. unfold obj_has.
    rewrite obj_get_set, String.eqb_refl. reflexivity.
  - simpl. apply IH. assumption.
Qed.

Lemma countVote_keys position pc v :
  obj_keys (voting.countVote position pc v) = obj_keys pc.
Proof.
  unfold voting.countVote.
  destruct (obj_get (pos_id position) (vote_votes v)) as [c|]; [|reflexivity].
  destruct (truthyStr c && obj_has c pc); [apply obj_keys_alter | reflexivity].
Qed.

Lemma countedTally_keys cands vs position :
  obj_keys (countedTally cands vs position)
  = obj_keys (voting.initialTally cands position).
Proof.
  unfold countedTally. generalize (voting.initialTally cands position) as pc.
  induction vs as [|v vs IH]; intros pc; simpl; [reflexivity|].
  rewrite IH. apply countVote_keys.
Qed.

(** An active candidate of an active position has a tally in the results. *)
Lemma tally_defined db position candidate :
  In position (positions db) -> pos_isActive position = true ->
  In candidate (candidates db) ->
  cand_positionId candidate = pos_id position ->
  cand_isActive candidate = true ->
  exists n, tally db (pos_id position) (cand_id candidate) = Some n.
Proof.
  intros Hpos Hact Hcand Hpid Hcact.
  assert (Hsome : exists pr,
             obj_get (pos_id position) (res_results (voting.getResults true db)) = Some pr).
  { unfold voting.getResults. cbn [res_results].
    generalize (@nil (string * PositionResult)) as acc.
    revert Hpos. generalize (positions db) as ps.
    assert (Hkeep : forall ps acc,
               (exists pr, obj_get (pos_id position) acc = Some pr) ->
               exists pr,
                 obj_get (pos_id position)
                   (fold_left
                      (fun results p =>
                         if negb (pos_isActive p) then results
                         else obj_set (pos_id p)
                                (voting.positionResult (voting.loadElectionStatus db)
                                   (candidates db) (votes db) p) results) ps acc)
                 = Some pr).
    { induction ps as [|p ps IH]; intros acc Hacc; simpl; [exact Hacc|].
      apply IH. destruct (negb (pos_isActive p)); [exact Hacc|].
      rewrite obj_get_set. destruct (String.eqb (pos_id p) (pos_id position)); eauto. }
    induction ps as [|p ps IH]; intros [] acc.
    - subst p. simpl. apply Hkeep. rewrite Hact. simpl.
      rewrite obj_get_set, String.eqb_refl. eauto.
    - simpl. apply IH. assumption. }
  destruct Hsome as [pr Hpr]. unfold tally. rewrite Hpr.
  destruct (getResults_entry true db _ pr Hpr) as (position' & _ & _ & Hid & ->).
  rewrite positionResult_candidates, determineWinners_votes.
  assert (Hkey : In (cand_id candidate)
                    (obj_keys (countedTally (candidates db) (votes db) position'))).
  { rewrite countedTally_keys. apply initialTally_has; congruence. }
  apply obj_has_true in Hkey. unfold obj_has in Hkey.
  destruct (obj_get (cand_id candidate) _) as [c|]; [|discriminate].
  exists (cr_votes c). reflexivity.
Qed.

(** C9: when [submitVote] succeeds (so the election is active and the
    member had no vote) in a store whose candidate ids are non-empty, the
    results read right after show, for each position of the ballot, the
    tally of the chosen candidate raised by exactly one, and every other
    tally of every position as it was. *)
Theorem submitVote_then_getResults :
  forall now rnd memberId ballot db voteId db',
    (forall candidate, In candidate (candidates db) -> cand_id candidate <> "") ->
    voting.submitVote now rnd memberId ballot db = (VoteSubmitted voteId, db') ->
    (forall positionId candidateId,
       obj_get positionId ballot = Some candidateId ->
       exists n, tally db positionId candidateId = Some n
                 /\ tally db' positionId candidateId = Some (S n))
    /\ (forall positionId candidateId,
          obj_get positionId ballot <> Some candidateId ->
          tally db' positionId candidateId = tally db positionId candidateId).
Proof.
  intros now rnd memberId ballot db voteId db' Hids Hsubmit.
  destruct (submitVote_validated _ _ _ _ _ _ _ Hsubmit) as (-> & _ & _ & Hvalid).
  split.
  - intros positionId candidateId Hchoice.
    destruct (Hvalid positionId candidateId (obj_get_In _ _ _ Hchoice))
      as [(position & Hpos & Hact & <-) (candidate & Hcand & <- & Hpid & Hcact)].
    destruct (tally_defined db position candidate Hpos Hact Hcand Hpid Hcact)
      as [n Hn].
    exists n. split; [exact Hn|].
    rewrite tally_after_vote, Hn. unfold raises. cbn [vote_votes]. rewrite Hchoice.
    rewrite String.eqb_refl. unfold truthyStr.
    destruct (String.eqb_spec (cand_id candidate) "") as [E|_];
      [destruct (Hids candidate Hcand E) | reflexivity].
  - intros positionId candidateId Hother.
    rewrite tally_after_vote. unfold raises. cbn [vote_votes].
    destruct (obj_get positionId ballot) as [chosen|] eqn:Hchoice.
    + destruct (String.eqb_spec chosen candidateId) as [->|_];
        [congruence|]. simpl. destruct (tally db positionId candidateId); reflexivity.
    + destruct (tally db positionId candidateId); reflexivity.
Qed.

Lemma submitVote_then_getResults_witness :
  tally (sample.db_with sample.running_long sample.tie_votes)
        "position_1_AAAAAA" "candidate_3_cyd" = Some 2%nat
  /\ exists n,
       tally (sample.db_with sample.running_long sample.tie_votes)
             "position_1_AAAAAA" "candidate_3_cyd" = Some n
       /\ tally (snd (voting.submitVote 1500 "x" "member_9" (sample.ballot_for sample.cyd)
                        (sample.db_with sample.running_long sample.tie_votes)))
                "position_1_AAAAAA" "candidate_3_cyd" = Some (S n).
Proof.
  split; [reflexivity|].
  apply (proj1 (submitVote_then_getResults
                  1500 "x" "member_9" (sample.ballot_for sample.cyd)
                  (sample.db_with sample.running_long sample.tie_votes)
                  (voting.voteIdOf 1500 "x")
                  (snd (voting.submitVote 1500 "x" "member_9" (sample.ballot_for sample.cyd)
                          (sample.db_with sample.running_long sample.tie_votes)))
                  ltac:(intros c [<-|[<-|[<-|[]]]]; discriminate)
                  eq_refl)).
  reflexivity.
Defined.

(** * Further properties of the service layer *)

(** ** fileDb: what each write does to what a later read finds *)

Section FileDbWrites.
Context {R K : Type} `{EqDecision K}.
Variable field : R -> K.

Lemma find_first (p : R -> bool) (records : list R) r :
  find p records = Some r ->
  exists before after,
    records = before ++ r :: after
    /\ (forall x, In x before -> p x = false)
    /\ p r = true.
Proof.
  induction records as [|x xs IH]; simpl; [discriminate|].
  destruct (p x) eqn:Hx.
  - intros [= ->]. exists [], xs. repeat split; auto. intros y [].
  - intros Hfind. destruct (IH Hfind) as (before & after & -> & Hbefore & Hr).
    exists (x :: before), after. repeat split; auto.
    intros y [<-|Hy]; auto.
Qed.

Lemma find_none_all (p : R -> bool) (records : list R) :
  (forall x, In x records -> p x = false) -> find p records = None.
Proof.
  induction records as [|x xs IH]; simpl; intros Hall; [reflexivity|].
  rewrite (Hall x (or_introl eq_refl)). apply IH. intros y Hy. apply Hall. right. exact Hy.
Qed.

Lemma findIndex_first (p : R -> bool) before r after :
  (forall x, In x before -> p x = false) -> p r = true ->
  fileDb.findIndex p (before ++ r :: after) = Some (length before).
Proof.
  intros Hbefore Hr. induction before as [|x xs IH]; simpl.
  - rewrite Hr. reflexivity.
  - rewrite (Hbefore x (or_introl eq_refl)), IH; [reflexivity|].
    intros y Hy. apply Hbefore. right. exact Hy.
Qed.

Lemma findIndex_none (p : R -> bool) records :
  (forall x, In x records -> p x = false) -> fileDb.findIndex p records = None.
Proof.
  induction records as [|x xs IH]; simpl; intros Hall; [reflexivity|].
  rewrite (Hall x (or_introl eq_refl)), IH; [reflexivity|].
  intros y Hy. apply Hall. right. exact Hy.
Qed.

Lemma update_at_first value (patch : R -> R) before r after :
  (forall x, In x before -> fileDb.matches field value x = false) ->
  fileDb.matches field value r = true ->
  fileDb.update field value patch (before ++ r :: after)
  = (Some (patch r), before ++ patch r :: after).
Proof.
  intros Hbefore Hr. unfold fileDb.update.
  rewrite (findIndex_first _ before r after Hbefore Hr).
  rewrite list_lookup_middle by reflexivity.
  replace (length before) with (length before + 0)%nat by lia.
  rewrite insert_app_r. reflexivity.
Qed.

Lemma update_nothing value (patch : R -> R) records :
  fileDb.findBy field value records = None ->
  fileDb.update field value patch records = (None, records).
Proof.
  intros Hnone. unfold fileDb.update.
  rewrite findIndex_none; [reflexivity|].
  intros x Hx. apply (find_none _ _ Hnone x Hx).
Qed.

Lemma remove_at_first value before r after :
  (forall x, In x before -> fileDb.matches field value x = false) ->
  fileDb.matches field value r = true ->
  fileDb.remove field value (before ++ r :: after) = (true, before ++ after).
Proof.
  intros Hbefore Hr. unfold fileDb.remove.
  rewrite (findIndex_first _ before r after Hbefore Hr), delete_middle. reflexivity.
Qed.

Lemma remove_nothing value records :
  fileDb.findBy field value records = None ->
  fileDb.remove field value records = (false, records).
Proof.
  intros Hnone. unfold fileDb.remove.
  rewrite findIndex_none; [reflexivity|].
  intros x Hx. apply (find_none _ _ Hnone x Hx).
Qed.

(** X1: a record appended by [create] never hides an older one: a lookup
    by any field still returns the first older match, and returns the new
    record only when no older record matches and the new one does. *)
Theorem create_then_findBy value record records :
  fileDb.findBy field value (fileDb.create record records)
  = match fileDb.findBy field value records with
    | Some found => Some found
    | None => if bool_decide (field record = value) then Some record else None
    end.
Proof.
  unfold fileDb.findBy, fileDb.create.
  induction records as [|x xs IH]; simpl.
  - unfold fileDb.matches. destruct (bool_decide (field record = value)); reflexivity.
  - destruct (fileDb.matches field value x); [reflexivity | exact IH].
Qed.

(** X2: [update] rewrites the first record whose field has the value and
    nothing else: it returns the patched record, the array keeps its length
    and every other record; when no record matches it returns null and
    writes nothing. *)
Theorem update_rewrites_first_match value (patch : R -> R) records :
  fst (fileDb.update field value patch records)
  = patch <$> fileDb.findBy field value records
  /\ length (snd (fileDb.update field value patch records)) = length records
  /\ (forall r,
        fileDb.findBy field value records = Some r ->
        exists before after,
          records = before ++ r :: after
          /\ (forall x, In x before -> field x <> value)
          /\ snd (fileDb.update field value patch records)
             = before ++ patch r :: after)
  /\ (fileDb.findBy field value records = None ->
      snd (fileDb.update field value patch records) = records).
Proof.
  destruct (fileDb.findBy field value records) as [r|] eqn:Hfind.
  - destruct (find_first _ _ _ Hfind) as (before & after & -> & Hbefore & Hr).
    rewrite (update_at_first value patch before r after Hbefore Hr). simpl.
    split; [reflexivity|]. split; [rewrite !length_app; reflexivity|].
    split; [|discriminate].
    intros r' [= <-]. exists before, after. repeat split; auto.
    intros x Hx. apply matches_false. apply Hbefore. exact Hx.
  - rewrite (update_nothing value patch records Hfind). simpl.
    repeat split; auto. discriminate.
Qed.

(** X3: [remove] takes out exactly one record, the first match, and says
    so: it returns [true] and the array is one shorter, with the records
    before and after the match in place; on no match it returns [false]
    and writes nothing.  Removing the key of a record just created over
    records that lack that key gives back the array as it was. *)
Theorem remove_takes_first_match value records :
  (forall r,
     fileDb.findBy field value records = Some r ->
     exists before after,
       records = before ++ r :: after
       /\ (forall x, In x before -> field x <> value)
       /\ fileDb.remove field value records = (true, before ++ after))
  /\ (fileDb.findBy field value records = None ->
      fileDb.remove field value records = (false, records))
  /\ (forall record,
        fileDb.findBy field (field record) records = None ->
        fileDb.remove field (field record) (fileDb.create record records)
        = (true, records)).
Proof.
  split; [|split].
  - intros r Hfind.
    destruct (find_first _ _ _ Hfind) as (before & after & -> & Hbefore & Hr).
    exists before, after. repeat split.
    + intros x Hx. apply matches_false. apply Hbefore. exact Hx.
    + apply remove_at_first; assumption.
  - apply remove_nothing.
  - intros record Hnone. unfold fileDb.create.
    rewrite (remove_at_first (field record) records record []).
    + rewrite app_nil_r. reflexivity.
    + intros x Hx. apply (find_none _ _ Hnone x Hx).
    + apply matches_true. reflexivity.
Qed.
End FileDbWrites.

Lemma update_rewrites_first_match_witness :
  (exists before after,
      [sample.session_of "tok_a"; sample.session_of "tok_b"]
      = before ++ sample.session_of "tok_b" :: after
      /\ (forall x, In x before -> sess_id x <> "tok_b")
      /\ snd (fileDb.update sess_id "tok_b" (setExpiresAt 99)
                            [sample.session_of "tok_a"; sample.session_of "tok_b"])
         = before ++ setExpiresAt 99 (sample.session_of "tok_b") :: after)
  /\ snd (fileDb.update sess_id "tok_c" (setExpiresAt 99)
                        [sample.session_of "tok_a"; sample.session_of "tok_b"])
     = [sample.session_of "tok_a"; sample.session_of "tok_b"].
Proof.
  destruct (update_rewrites_first_match sess_id "tok_b" (setExpiresAt 99)
              [sample.session_of "tok_a"; sample.session_of "tok_b"])
    as (_ & _ & Hfound & _).
  destruct (update_rewrites_first_match sess_id "tok_c" (setExpiresAt 99)
              [sample.session_of "tok_a"; sample.session_of "tok_b"])
    as (_ & _ & _ & Hnone).
  split.
  - apply (Hfound (sample.session_of "tok_b")). reflexivity.
  - apply Hnone. reflexivity.
Defined.

Lemma remove_takes_first_match_witness :
  fileDb.remove sess_id "tok_c" [sample.session_of "tok_a"; sample.session_of "tok_b"]
  = (false, [sample.session_of "tok_a"; sample.session_of "tok_b"])
  /\ fileDb.remove sess_id "tok_c"
       (fileDb.create (sample.session_of "tok_c")
                      [sample.session_of "tok_a"; sample.session_of "tok_b"])
     = (true, [sample.session_of "tok_a"; sample.session_of "tok_b"]).
Proof.
  destruct (remove_takes_first_match sess_id "tok_c"
              [sample.session_of "tok_a"; sample.session_of "tok_b"])
    as (_ & Hnone & Hround).
  split.
  - apply Hnone. reflexivity.
  - apply (Hround (sample.session_of "tok_c")). reflexivity.
Defined.

(** ** The election state machine, beyond start *)

Lemma orNull_wellFormed t : t <> Some 0 -> orNull t = t.
Proof.
  intros Ht. unfold orNull, truthy. destruct t as [n|]; [|reflexivity].
  destruct (Z.eqb_spec n 0) as [->|_]; [contradiction | reflexivity].
Qed.

Lemma loadElectionStatus_wellFormed db st rest :
  electionStatus db = st :: rest -> wellFormedStatus st ->
  voting.loadElectionStatus db = st.
Proof.
  intros Hes (Hs & He & Hd). unfold voting.loadElectionStatus. rewrite Hes.
  rewrite orb_false_r, (orNull_wellFormed _ Hs), (orNull_wellFormed _ He).
  destruct (Z.eqb_spec (duration st) 0); [contradiction|]. destruct st. reflexivity.
Qed.

Lemma saveElectionStatus_wellFormed db st rest newStatus :
  electionStatus db = st :: rest -> wellFormedStatus st ->
  voting.saveElectionStatus newStatus st db
  = (true, set_electionStatus (newStatus :: rest) db).
Proof.
  intros Hes Hwf.
  rewrite <- (loadElectionStatus_wellFormed db st rest Hes Hwf) at 1.
  apply (saveElectionStatus_head db st rest newStatus Hes). apply Hwf.
Qed.

Lemma set_electionStatus_same db : set_electionStatus (electionStatus db) db = db.
Proof. destruct db. reflexivity. Qed.

Lemma truthy_Some t : t <> 0 -> truthy (Some t) = true.
Proof. intros Ht. simpl. destruct (Z.eqb_spec t 0); [contradiction | reflexivity]. Qed.

(** The three calls on a status file whose first record is well formed. *)
Lemma endElection_wellFormed now db st rest :
  electionStatus db = st :: rest -> wellFormedStatus st -> isActive st = true ->
  voting.endElection now db
  = (ElectionEnded (mkStatus false (startTime st) (Some now) (duration st)),
     set_electionStatus
       (mkStatus false (startTime st) (Some now) (duration st) :: rest) db).
Proof.
  intros Hes Hwf Hact. unfold voting.endElection.
  rewrite (loadElectionStatus_wellFormed db st rest Hes Hwf), Hact. simpl.
  rewrite (saveElectionStatus_wellFormed db st rest _ Hes Hwf). reflexivity.
Qed.

Lemma getElectionStatus_wellFormed now db st rest :
  electionStatus db = st :: rest -> wellFormedStatus st ->
  voting.getElectionStatus now db
  = if isActive st && truthy (startTime st) then
      if toNumber (startTime st) + duration st - now <=? 0 then
        (mkView false (startTime st) (Some now) (Some "0h 0m"),
         set_electionStatus
           (mkStatus false (startTime st) (Some now) (duration st) :: rest) db)
      else
        (mkView (isActive st) (startTime st) (endTime st)
                (Some (formatRemaining
                         ((toNumber (startTime st) + duration st - now) / hour_ms)
                         (Z.rem (toNumber (startTime st) + duration st - now) hour_ms
                          / minute_ms))), db)
    else (mkView (isActive st) (startTime st) (endTime st) None, db).
Proof.
  intros Hes Hwf. unfold voting.getElectionStatus.
  rewrite (loadElectionStatus_wellFormed db st rest Hes Hwf).
  destruct (isActive st && truthy (startTime st)); [|reflexivity].
  destruct (_ <=? 0); [|reflexivity].
  rewrite (saveElectionStatus_wellFormed db st rest _ Hes Hwf). reflexivity.
Qed.

(** X4: [endElection] on an active election rewrites the status record to
    isActive = false and endTime = now and keeps its startTime and
    duration; the records behind it in the file are not touched. *)
Theorem endElection_closes_and_keeps_times :
  forall now db st rest,
    electionStatus db = st :: rest ->
    wellFormedStatus st ->
    isActive st = true ->
    voting.endElection now db
    = (ElectionEnded (mkStatus false (startTime st) (Some now) (duration st)),
       set_electionStatus
         (mkStatus false (startTime st) (Some now) (duration st) :: rest) db).
Proof.
  intros now db st rest Hes Hwf Hact. unfold voting.endElection.
  rewrite (loadElectionStatus_wellFormed db st rest Hes Hwf), Hact.
  cbn [negb].
  rewrite (saveElectionStatus_wellFormed db st rest _ Hes Hwf).
  reflexivity.
Qed.

Lemma sample_running_wellFormed : wellFormedStatus sample.running.
Proof. repeat split; discriminate. Defined.

Lemma endElection_closes_and_keeps_times_witness :
  voting.endElection 1500 sample.db_running
  = (ElectionEnded (mkStatus false (Some 1000) (Some 1500) 1000),
     set_electionStatus [mkStatus false (Some 1000) (Some 1500) 1000] sample.db_running).
Proof.
  apply (endElection_closes_and_keeps_times 1500 sample.db_running sample.running []).
  - reflexivity.
  - exact sample_running_wellFormed.
  - reflexivity.
Defined.

(** X5: one election from start to stop.  Started at [t0] on an idle
    record, the election reads as active with the remaining time at any
    [t1] before [t0 + duration], and that read writes nothing; stopped at
    [t2] the record holds startTime [t0], endTime [t2] and the duration it
    had; after that a second stop is refused and a vote is turned away. *)
Theorem election_start_status_stop :
  forall duration_arg t0 t1 t2 db st rest,
    electionStatus db = st :: rest ->
    isActive st = false ->
    duration st <> 0 ->
    t0 <> 0 -> t2 <> 0 ->
    t1 < t0 + duration st ->
    let started := mkStatus true (Some t0) None (duration st) in
    let stopped := mkStatus false (Some t0) (Some t2) (duration st) in
    let db1 := snd (voting.startElection duration_arg t0 db) in
    let db2 := snd (voting.endElection t2 db1) in
    db1 = set_electionStatus (started :: rest) db
    /\ voting.getElectionStatus t1 db1
       = (mkView true (Some t0) None
                 (Some (formatRemaining
                          ((t0 + duration st - t1) / hour_ms)
                          (Z.rem (t0 + duration st - t1) hour_ms / minute_ms))),
          db1)
    /\ db2 = set_electionStatus (stopped :: rest) db
    /\ (forall t3, voting.endElection t3 db2 = (NotActive, db2))
    /\ (forall now rnd memberId ballot,
          voting.submitVote now rnd memberId ballot db2 = (ElectionNotActive, db2)).
Proof.
  intros duration_arg t0 t1 t2 db st rest Hes Hact Hd Ht0 Ht2 Ht1 started stopped db1 db2.
  assert (Hdb1 : db1 = set_electionStatus (started :: rest) db).
  { unfold db1. apply startElection_store; assumption. }
  assert (Hwf1 : wellFormedStatus started).
  { repeat split; simpl; [congruence | discriminate | exact Hd]. }
  assert (Hes1 : electionStatus db1 = started :: rest) by (rewrite Hdb1; reflexivity).
  assert (Hdb2 : db2 = set_electionStatus (stopped :: rest) db).
  { unfold db2. rewrite (endElection_wellFormed t2 db1 started rest Hes1 Hwf1 eq_refl).
    rewrite Hdb1. reflexivity. }
  assert (Hwf2 : wellFormedStatus stopped).
  { repeat split; simpl; [congruence | congruence | exact Hd]. }
  assert (Hload2 : voting.loadElectionStatus db2 = stopped).
  { apply (loadElectionStatus_wellFormed db2 stopped rest); [rewrite Hdb2; reflexivity | exact Hwf2]. }
  split; [exact Hdb1|]. split; [|split; [exact Hdb2|split]].
  - rewrite (getElectionStatus_wellFormed t1 db1 started rest Hes1 Hwf1).
    cbn [isActive startTime endTime duration started].
    rewrite (truthy_Some t0 Ht0). cbn [andb toNumber default id].
    change (toNumber (Some t0)) with t0.
    destruct (Z.leb_spec (t0 + duration st - t1) 0); [lia | reflexivity].
  - intros t3. unfold voting.endElection. rewrite Hload2. reflexivity.
  - intros now rnd memberId ballot. unfold voting.submitVote. rewrite Hload2. reflexivity.
Qed.

Lemma election_start_status_stop_witness :
  snd (voting.startElection None 5000 sample.db_idle)
  = set_electionStatus [mkStatus true (Some 5000) None day_ms] sample.db_idle
  /\ snd (voting.endElection 7000 (snd (voting.startElection None 5000 sample.db_idle)))
     = set_electionStatus [mkStatus false (Some 5000) (Some 7000) day_ms] sample.db_idle.
Proof.
  destruct (election_start_status_stop None 5000 6000 7000 sample.db_idle sample.idle [])
    as (H1 & _ & H2 & _); try reflexivity; try discriminate.
  split; [exact H1 | exact H2].
Defined.

(** X6: the auto-close is permanent and stamped once.  After the status
    read that closed an elapsed election at [now], every later read, at
    whatever time, answers isActive = false with endTime still [now] and no
    time remaining, and writes nothing; an explicit stop is then refused
    and a vote is turned away by the service itself. *)
Theorem auto_close_is_permanent :
  forall now db st rest t,
    electionStatus db = st :: rest ->
    wellFormedStatus st ->
    isActive st = true ->
    startTime st = Some t ->
    t + duration st <= now ->
    now <> 0 ->
    let db' := snd (voting.getElectionStatus now db) in
    db' = set_electionStatus (mkStatus false (Some t) (Some now) (duration st) :: rest) db
    /\ (forall later,
          voting.getElectionStatus later db'
          = (mkView false (Some t) (Some now) None, db'))
    /\ (forall later, voting.endElection later db' = (NotActive, db'))
    /\ (forall later rnd memberId ballot,
          voting.submitVote later rnd memberId ballot db' = (ElectionNotActive, db')).
Proof.
  intros now db st rest t Hes Hwf Hact Hst Hle Hnow db'.
  assert (Ht : t <> 0) by (destruct Hwf as (Hs & _); congruence).
  set (closed := mkStatus false (Some t) (Some now) (duration st)).
  assert (Hdb' : db' = set_electionStatus (closed :: rest) db).
  { unfold db'. rewrite (getElectionStatus_wellFormed now db st rest Hes Hwf).
    rewrite Hact, Hst, (truthy_Some t Ht). change (toNumber (Some t)) with t. simpl.
    destruct (Z.leb_spec (t + duration st - now) 0); [reflexivity | lia]. }
  assert (Hwf' : wellFormedStatus closed).
  { destruct Hwf as (_ & _ & Hd). repeat split; simpl; congruence. }
  assert (Hload : voting.loadElectionStatus db' = closed).
  { apply (loadElectionStatus_wellFormed db' closed rest); [rewrite Hdb'; reflexivity | exact Hwf']. }
  split; [exact Hdb'|]. split; [|split].
  - intros later. unfold voting.getElectionStatus. rewrite Hload. reflexivity.
  - intros later. unfold voting.endElection. rewrite Hload. reflexivity.
  - intros later rnd memberId ballot. unfold voting.submitVote. rewrite Hload. reflexivity.
Qed.

Lemma auto_close_is_permanent_witness :
  snd (voting.getElectionStatus 2001 sample.db_running)
  = set_electionStatus [mkStatus false (Some 1000) (Some 2001) 1000] sample.db_running
  /\ (forall later,
        voting.getElectionStatus later (snd (voting.getElectionStatus 2001 sample.db_running))
        = (mkView false (Some 1000) (Some 2001) None,
           snd (voting.getElectionStatus 2001 sample.db_running))).
Proof.
  destruct (auto_close_is_permanent 2001 sample.db_running sample.running [] 1000)
    as (H1 & H2 & _); try reflexivity; try discriminate.
  - exact sample_running_wellFormed.
  - split; [exact H1 | exact H2].
Defined.

(** X7: on a status file that holds one well-formed record, the
    file-backed [getElectionStatus] and [endElection] do what the
    in-memory variant does to its variable: same answer, and the file
    afterwards holds exactly the variable's new value.  [startElection]
    called without a duration agrees too when the stored duration is the
    24 h default. *)
Theorem file_backed_agrees_with_in_memory :
  forall now db st,
    electionStatus db = [st] ->
    wellFormedStatus st ->
    voting.getElectionStatus now db
    = (fst (votingInMemory.getElectionStatus now st),
       set_electionStatus [snd (votingInMemory.getElectionStatus now st)] db)
    /\ voting.endElection now db
       = (fst (votingInMemory.endElection now st),
          set_electionStatus [snd (votingInMemory.endElection now st)] db)
    /\ (duration st = day_ms ->
        voting.startElection None now db
        = (fst (votingInMemory.startElection None now st),
           set_electionStatus [snd (votingInMemory.startElection None now st)] db)).
Proof.
  intros now db st Hes Hwf.
  assert (Hsame : set_electionStatus [st] db = db)
    by (rewrite <- Hes; apply set_electionStatus_same).
  split; [|split].
  - rewrite (getElectionStatus_wellFormed now db st [] Hes Hwf).
    unfold votingInMemory.getElectionStatus.
    destruct (isActive st && truthy (startTime st)); simpl; [|rewrite Hsame; reflexivity].
    destruct (_ <=? 0); simpl; [reflexivity | rewrite Hsame; reflexivity].
  - unfold votingInMemory.endElection.
    destruct (isActive st) eqn:Hact; simpl.
    + apply (endElection_wellFormed now db st [] Hes Hwf Hact).
    + rewrite Hsame. unfold voting.endElection.
      rewrite (loadElectionStatus_wellFormed db st [] Hes Hwf), Hact. reflexivity.
  - intros Hday. unfold votingInMemory.startElection.
    destruct (isActive st) eqn:Hact; simpl.
    + rewrite Hsame. unfold voting.startElection.
      rewrite (loadElectionStatus_wellFormed db st [] Hes Hwf), Hact. reflexivity.
    + rewrite (surjective_pairing (voting.startElection None now db)).
      rewrite startElection_result.
      rewrite (startElection_store None now db st [] Hes Hact (proj2 (proj2 Hwf))).
      rewrite (loadElectionStatus_wellFormed db st [] Hes Hwf), Hact, Hday. reflexivity.
Qed.

Lemma file_backed_agrees_with_in_memory_witness :
  voting.getElectionStatus 2001 sample.db_running
  = (fst (votingInMemory.getElectionStatus 2001 sample.running),
     set_electionStatus [snd (votingInMemory.getElectionStatus 2001 sample.running)]
                        sample.db_running).
Proof.
  apply (file_backed_agrees_with_in_memory 2001 sample.db_running sample.running).
  - reflexivity.
  - exact sample_running_wellFormed.
Defined.

(** X8: the dashboard of an election whose time has run out but which no
    read has closed yet is of two minds: its status line says Ended, since
    the status read inside [getDashboardData] closes the election, while
    the results it carries were computed before that read, so every
    position still says In Progress and no candidate is marked winner. *)
Theorem dashboard_of_elapsed_election :
  forall now db st rest t,
    electionStatus db = st :: rest ->
    wellFormedStatus st ->
    isActive st = true ->
    startTime st = Some t ->
    t + duration st <= now ->
    now <> 0 ->
    dash_electionStatus (fst (voting.getDashboardData now db)) = Ended
    /\ dash_timeRemaining (fst (voting.getDashboardData now db)) = Some "0h 0m"
    /\ forall positionId pr,
         obj_get positionId (dash_results (fst (voting.getDashboardData now db)))
         = Some pr ->
         pr_status pr = InProgress
         /\ forall candidateId cr,
              obj_get candidateId (pr_candidates pr) = Some cr ->
              cr_isWinner cr = false.
Proof.
  intros now db st rest t Hes Hwf Hact Hst Hle Hnow.
  assert (Ht : t <> 0) by (destruct Hwf as (Hs & _); congruence).
  assert (Hload : voting.loadElectionStatus db = st)
    by (apply (loadElectionStatus_wellFormed db st rest Hes Hwf)).
  unfold voting.getDashboardData.
  rewrite (getElectionStatus_wellFormed now db st rest Hes Hwf).
  rewrite Hact, Hst, (truthy_Some t Ht). change (toNumber (Some t)) with t.
  cbn [andb]. destruct (Z.leb_spec (t + duration st - now) 0); [|lia].
  cbn [fst dash_electionStatus dash_timeRemaining dash_results sv_isActive sv_endTime
       sv_timeRemaining].
  split; [|split; [reflexivity|]].
  - unfold statusLabel. rewrite (truthy_Some now Hnow). reflexivity.
  - intros positionId pr Hpr.
    destruct (getResults_entry true db positionId pr Hpr) as (position & _ & _ & _ & ->).
    rewrite Hload. split.
    + unfold voting.positionResult, statusLabel. cbn [pr_status]. rewrite Hact. reflexivity.
    + intros candidateId cr. rewrite positionResult_candidates.
      rewrite determineWinners_not_ended
        by (intros [Hna _]; rewrite Hact in Hna; discriminate).
      apply (countedTally_unmarked (candidates db) (votes db) position).
Qed.

Lemma dashboard_of_elapsed_election_witness :
  dash_electionStatus (fst (voting.getDashboardData 2001 sample.db_running)) = Ended
  /\ dash_timeRemaining (fst (voting.getDashboardData 2001 sample.db_running))
     = Some "0h 0m".
Proof.
  destruct (dashboard_of_elapsed_election 2001 sample.db_running sample.running [] 1000)
    as (H1 & H2 & _); try reflexivity; try discriminate.
  - exact sample_running_wellFormed.
  - split; [exact H1 | exact H2].
Defined.

(** ** What the tallies count *)

Lemma set_votes_same db : set_votes (votes db) db = db.
Proof. destruct db. reflexivity. Qed.

Lemma initialTally_zero cands position k c :
  obj_get k (voting.initialTally cands position) = Some c -> cr_votes c = O.
Proof.
  unfold voting.initialTally. revert k c.
  apply (fold_left_invariant
           (fun acc => forall k c, obj_get k acc = Some c -> cr_votes c = O)).
  - intros k c. discriminate.
  - intros acc cand _ IH k c. rewrite obj_get_set.
    destruct (String.eqb (cand_id cand) k); [intros [= <-]; reflexivity | apply IH].
Qed.

Lemma tally_without_votes db positionId candidateId n :
  tally (set_votes [] db) positionId candidateId = Some n -> n = O.
Proof.
  unfold tally. destruct (obj_get positionId _) as [pr|] eqn:Hpr; [|discriminate].
  destruct (getResults_entry true _ positionId pr Hpr) as (position & _ & _ & _ & ->).
  rewrite positionResult_candidates, determineWinners_votes.
  cbn [votes set_votes candidates]. unfold countedTally. simpl.
  destruct (obj_get candidateId _) as [c|] eqn:Hc; simpl; [|discriminate].
  intros [= <-]. apply (initialTally_zero _ _ _ _ Hc).
Qed.

Lemma tally_of_votes db positionId candidateId vs :
  tally (set_votes vs db) positionId candidateId
  = (fun _ => length (votesFor positionId candidateId vs))
      <$> tally (set_votes [] db) positionId candidateId.
Proof.
  induction vs as [|v vs IH] using rev_ind.
  - destruct (tally (set_votes [] db) positionId candidateId) as [n|] eqn:Hn;
      [|reflexivity].
    simpl. rewrite (tally_without_votes db positionId candidateId n Hn). reflexivity.
  - change (set_votes (vs ++ [v]) db)
      with (set_votes (votes (set_votes vs db) ++ [v]) (set_votes vs db)).
    rewrite tally_after_vote, IH.
    destruct (tally (set_votes [] db) positionId candidateId); simpl; [|reflexivity].
    unfold votesFor. rewrite List.filter_app, length_app. simpl.
    destruct (raises v positionId candidateId); simpl; f_equal; lia.
Qed.

Lemma raises_spec v positionId candidateId :
  candidateId <> "" ->
  raises v positionId candidateId = true <->
  obj_get positionId (vote_votes v) = Some candidateId.
Proof.
  intros Hne. unfold raises, truthyStr.
  destruct (obj_get positionId (vote_votes v)) as [chosen|].
  - destruct (String.eqb_spec chosen candidateId) as [->|Hc]; simpl.
    + destruct (String.eqb_spec candidateId ""); [contradiction|].
      split; reflexivity.
    + split; [discriminate | intros [= E]; contradiction].
  - split; discriminate.
Qed.

(** X9: a tally shown by [getResults] is the number of vote records that
    choose that candidate for that position, no more and no less; for a
    candidate with a non-empty id these are the records whose mapping
    sends the position to the candidate. *)
Theorem tally_counts_the_votes :
  forall db positionId candidateId n,
    tally db positionId candidateId = Some n ->
    n = length (votesFor positionId candidateId (votes db))
    /\ (candidateId <> "" ->
        forall v, In v (votesFor positionId candidateId (votes db)) <->
                  In v (votes db)
                  /\ obj_get positionId (vote_votes v) = Some candidateId).
Proof.
  intros db positionId candidateId n Hn. split.
  - rewrite <- (set_votes_same db) in Hn. rewrite tally_of_votes in Hn.
    destruct (tally (set_votes [] db) positionId candidateId); simpl in Hn;
      [congruence | discriminate].
  - intros Hne v. unfold votesFor. rewrite filter_In, (raises_spec v _ _ Hne).
    reflexivity.
Qed.

Lemma tally_counts_the_votes_witness :
  2%nat = length (votesFor "position_1_AAAAAA" "candidate_3_cyd" (votes sample.db_tie)).
Proof.
  apply (tally_counts_the_votes sample.db_tie "position_1_AAAAAA" "candidate_3_cyd" 2).
  reflexivity.
Defined.

Lemma initialTally_key cands position k :
  In k (obj_keys (voting.initialTally cands position)) ->
  exists candidate,
    In candidate cands /\ cand_id candidate = k
    /\ cand_positionId candidate = pos_id position
    /\ cand_isActive candidate = true.
Proof.
  unfold voting.initialTally.
  set (keep := fun candidate =>
                 String.eqb (cand_positionId candidate) (pos_id position)
                 && cand_isActive candidate).
  revert k.
  apply (fold_left_invariant
           (fun acc => forall k, In k (obj_keys acc) ->
              exists candidate, In candidate cands /\ cand_id candidate = k
                /\ cand_positionId candidate = pos_id position
                /\ cand_isActive candidate = true)).
  - intros k [].
  - intros acc cand Hin IH k Hk.
    apply filter_In in Hin as [Hin Hkeep]. unfold keep in Hkeep.
    apply andb_true_iff in Hkeep as [Hpid Hact]. apply String.eqb_eq in Hpid.
    destruct (obj_keys_set (cand_id cand)
                (mkCandidateResult (cand_id cand) (cand_name cand) O false) acc)
      as [E|[_ E]]; rewrite E in Hk.
    + apply IH. exact Hk.
    + apply in_app_or in Hk as [Hk|[<-|[]]]; [apply IH; exact Hk|].
      exists cand. auto.
Qed.

Lemma tally_defined_iff db positionId candidateId :
  is_Some (tally db positionId candidateId) <->
  (exists position,
      In position (positions db) /\ pos_isActive position = true
      /\ pos_id position = positionId)
  /\ (exists candidate,
         In candidate (candidates db) /\ cand_id candidate = candidateId
         /\ cand_positionId candidate = positionId
         /\ cand_isActive candidate = true).
Proof.
  split.
  - intros [n Hn]. unfold tally in Hn.
    destruct (obj_get positionId _) as [pr|] eqn:Hpr; [|discriminate].
    destruct (getResults_entry true db positionId pr Hpr)
      as (position & Hpos & Hact & Hid & ->).
    split; [exists position; auto|].
    rewrite positionResult_candidates, determineWinners_votes in Hn.
    assert (Hkey : In candidateId
                      (obj_keys (countedTally (candidates db) (votes db) position))).
    { apply obj_has_true. unfold obj_has.
      destruct (obj_get candidateId _); [reflexivity | discriminate]. }
    rewrite countedTally_keys in Hkey.
    destruct (initialTally_key _ _ _ Hkey) as (candidate & Hc & Hcid & Hpid & Hcact).
    exists candidate. repeat split; auto. congruence.
  - intros [(position & Hpos & Hact & <-) (candidate & Hc & <- & Hpid & Hcact)].
    destruct (tally_defined db position candidate Hpos Hact Hc Hpid Hcact) as [n Hn].
    exists n. exact Hn.
Qed.

(** X10: the results carry a tally for a candidate of a position exactly
    when the position is stored and active and the candidate is stored,
    active and assigned to it.  A choice for a candidate or position that
    was deactivated since is kept in the vote file but has no line in the
    results. *)
Theorem tally_shown_iff_active :
  forall db positionId candidateId,
    is_Some (tally db positionId candidateId) <->
    (exists position,
        In position (positions db) /\ pos_isActive position = true
        /\ pos_id position = positionId)
    /\ (exists candidate,
           In candidate (candidates db) /\ cand_id candidate = candidateId
           /\ cand_positionId candidate = positionId
           /\ cand_isActive candidate = true).
Proof.
  intros db positionId candidateId. split.
  - intros Hshown. apply tally_defined_iff in Hshown as [Hposition Hcandidate].
    split; assumption.
  - intros [Hposition Hcandidate]. apply tally_defined_iff.
    split; assumption.
Qed.

Lemma totalVotes_alter_same (f : CandidateResult -> CandidateResult) k pc :
  (forall c, cr_votes (f c) = cr_votes c) ->
  totalVotes (obj_alter f k pc) = totalVotes pc.
Proof.
  intros Hf. induction pc as [|[k0 c0] pc IH]; simpl; [reflexivity|].
  destruct (String.eqb k0 k); simpl; [rewrite Hf; reflexivity | rewrite IH; reflexivity].
Qed.

Lemma totalVotes_alter_inc k pc :
  obj_has k pc = true ->
  totalVotes (obj_alter incVotes k pc) = S (totalVotes pc).
Proof.
  unfold obj_has. induction pc as [|[k0 c0] pc IH]; simpl; [discriminate|].
  destruct (String.eqb k0 k); simpl; [reflexivity|].
  intros Hk. rewrite (IH Hk). lia.
Qed.

Lemma totalVotes_initialTally cands position :
  totalVotes (voting.initialTally cands position) = O.
Proof.
  pose proof (initialTally_zero cands position) as Hz.
  pose proof (initialTally_unmarked cands position) as [Hnd _].
  revert Hz Hnd. generalize (voting.initialTally cands position) as pc.
  induction pc as [|[k c] pc IH]; simpl; intros Hz Hnd; [reflexivity|].
  inversion Hnd as [|? ? Hnotin Hnd']; subst.
  rewrite (Hz k c) by (rewrite String.eqb_refl; reflexivity).
  apply IH; [|exact Hnd'].
  intros k' c' Hget. apply (Hz k' c').
  destruct (String.eqb_spec k k') as [<-|_]; [|exact Hget].
  destruct Hnotin. apply obj_has_true. unfold obj_has. rewrite Hget. reflexivity.
Qed.

(** The vote records counted for a position: those that choose, with a
    non-empty id, a candidate listed for it. *)
Lemma totalVotes_countedTally cands vs position :
  (totalVotes (countedTally cands vs position) <= length vs)%nat.
Proof.
  induction vs as [|v vs IH] using rev_ind.
  - unfold countedTally. simpl. rewrite totalVotes_initialTally. lia.
  - rewrite countedTally_snoc, length_app. simpl. unfold voting.countVote.
    destruct (obj_get (pos_id position) (vote_votes v)) as [c|]; [|lia].
    destruct (truthyStr c); simpl; [|lia].
    destruct (obj_has c (countedTally cands vs position)) eqn:Hhas; [|lia].
    rewrite (totalVotes_alter_inc _ _ Hhas). lia.
Qed.

Lemma totalVotes_markWinners winnerIds pc :
  totalVotes (voting.markWinners winnerIds pc) = totalVotes pc.
Proof.
  unfold voting.markWinners. revert pc.
  induction winnerIds as [|w ws IH]; intros pc; simpl; [reflexivity|].
  rewrite IH. apply totalVotes_alter_same. reflexivity.
Qed.

(** X11: no vote record is counted twice for one position: in every
    position of the results the tallies of its candidates add up to at
    most the number of vote records, with or without winners marked. *)
Theorem tallies_of_a_position_bounded :
  forall detailed db positionId pr,
    obj_get positionId (res_results (voting.getResults detailed db)) = Some pr ->
    (totalVotes (pr_candidates pr) <= length (votes db))%nat.
Proof.
  intros detailed db positionId pr Hpr.
  destruct (getResults_entry detailed db positionId pr Hpr) as (position & _ & _ & _ & ->).
  rewrite positionResult_candidates. unfold voting.determineWinners.
  destruct (negb _ && truthy _).
  - destruct (fold_left voting.winnerStep _ _) as [m w].
    rewrite totalVotes_markWinners. apply totalVotes_countedTally.
  - apply totalVotes_countedTally.
Qed.

Lemma tallies_of_a_position_bounded_witness :
  (totalVotes (pr_candidates sample.tie_result) <= length (votes sample.db_tie))%nat.
Proof.
  apply (tallies_of_a_position_bounded true sample.db_tie "position_1_AAAAAA"
                                       sample.tie_result).
  reflexivity.
Defined.

(** ** The ballot *)

Lemma getBallot_map db :
  ballot.getBallot db
  = map (fun position =>
           mkBallotPosition
             (pos_id position) (pos_name position) (pos_description position)
             (map (fun candidate =>
                     mkBallotCandidate (cand_id candidate) (cand_name candidate)
                                       (cand_info candidate))
                  (List.filter
                     (fun candidate =>
                        String.eqb (cand_positionId candidate) (pos_id position)
                        && cand_isActive candidate)
                     (candidates db))))
        (List.filter pos_isActive (positions db)).
Proof. unfold ballot.getBallot. destruct (positions db); reflexivity. Qed.

Lemma getBallot_offers db positionId candidateId :
  offers (ballot.getBallot db) positionId candidateId <->
  (exists position,
      In position (positions db) /\ pos_isActive position = true
      /\ pos_id position = positionId)
  /\ (exists candidate,
         In candidate (candidates db) /\ cand_id candidate = candidateId
         /\ cand_positionId candidate = positionId
         /\ cand_isActive candidate = true).
Proof.
  unfold offers. rewrite getBallot_map. split.
  - intros (bp & bc & Hbp & Hid & Hbc & Hcid).
    apply in_map_iff in Hbp as (position & <- & Hpos).
    apply filter_In in Hpos as [Hpos Hact]. simpl in *.
    apply in_map_iff in Hbc as (candidate & <- & Hcand).
    apply filter_In in Hcand as [Hcand Hkeep].
    apply andb_true_iff in Hkeep as [Hpid Hcact]. apply String.eqb_eq in Hpid.
    split; [exists position; auto|]. exists candidate. simpl in *.
    repeat split; auto. congruence.
  - intros [(position & Hpos & Hact & <-) (candidate & Hcand & <- & Hpid & Hcact)].
    set (toBallotCandidate := fun candidate =>
           mkBallotCandidate (cand_id candidate) (cand_name candidate)
                             (cand_info candidate)).
    set (toBallotPosition := fun position => mkBallotPosition _ _ _ _).
    exists (toBallotPosition position), (toBallotCandidate candidate).
    split; [|split; [reflexivity|split; [|reflexivity]]].
    + apply in_map_iff. exists position. split; [reflexivity|].
      apply filter_In. split; assumption.
    + apply in_map_iff. exists candidate. split; [reflexivity|].
      apply filter_In. split; [exact Hcand|].
      rewrite Hpid, String.eqb_refl, Hcact. reflexivity.
Qed.

(** X12: the ballot shows exactly what counts.  A position appears with a
    candidate on the ballot if and only if the position is active and the
    candidate is an active candidate assigned to it, and these are exactly
    the pairs for which the results carry a tally; what is deactivated is
    neither offered nor shown. *)
Theorem ballot_offers_what_results_show :
  forall db positionId candidateId,
    (offers (ballot.getBallot db) positionId candidateId <->
     (exists position,
         In position (positions db) /\ pos_isActive position = true
         /\ pos_id position = positionId)
     /\ (exists candidate,
            In candidate (candidates db) /\ cand_id candidate = candidateId
            /\ cand_positionId candidate = positionId
            /\ cand_isActive candidate = true))
    /\ (offers (ballot.getBallot db) positionId candidateId <->
        is_Some (tally db positionId candidateId)).
Proof.
  intros db positionId candidateId. split.
  - apply getBallot_offers.
  - rewrite getBallot_offers, tally_defined_iff. reflexivity.
Qed.

Lemma submitVote_succeeds now rnd memberId ballot db :
  isActive (voting.loadElectionStatus db) = true ->
  (forall v, In v (votes db) -> vote_memberId v <> memberId) ->
  (forall positionId candidateId,
     In (positionId, candidateId) ballot ->
     (exists position,
         In position (positions db) /\ pos_isActive position = true
         /\ pos_id position = positionId)
     /\ (exists candidate,
            In candidate (candidates db) /\ cand_id candidate = candidateId
            /\ cand_positionId candidate = positionId
            /\ cand_isActive candidate = true)) ->
  voting.submitVote now rnd memberId ballot db
  = (VoteSubmitted (voting.voteIdOf now rnd),
     set_votes (votes db ++ [mkVote (voting.voteIdOf now rnd) memberId now ballot]) db).
Proof.
  intros Hact Hfresh Hvalid. unfold voting.submitVote. rewrite Hact. cbn [negb].
  rewrite (proj2 (findBy_None vote_memberId memberId (votes db)) Hfresh).
  rewrite find_none_all.
  - rewrite find_none_all; [reflexivity|].
    intros [p c] Hin. destruct (Hvalid p c Hin) as [_ (candidate & Hc & Hid & Hpid & Hcact)].
    destruct (find (voting.validCandidate p c) (candidates db)) eqn:Hfind; [reflexivity|].
    pose proof (find_none _ _ Hfind candidate Hc) as Hno.
    unfold voting.validCandidate in Hno.
    rewrite Hid, Hpid, !String.eqb_refl, Hcact in Hno. discriminate.
  - intros p Hp. unfold obj_keys in Hp. apply in_map_iff in Hp as ([p' c] & <- & Hin).
    destruct (Hvalid p' c Hin) as [(position & Hpos & Hpact & Hid) _].
    apply negb_false_iff, bool_decide_eq_true. apply list_elem_of_In.
    unfold voting.activePositionIds. apply in_map_iff. exists position.
    split; [exact Hid|]. apply filter_In. split; assumption.
Qed.

(** X13: [submitVote] accepts exactly the choices the ballot offers.  With
    the election active and for a member without a vote, the call succeeds
    if and only if every entry of the choice map pairs a position of the
    ballot with one of the candidates the ballot lists under it. *)
Theorem submitVote_accepts_what_ballot_offers :
  forall now rnd memberId choices db,
    isActive (voting.loadElectionStatus db) = true ->
    (forall v, In v (votes db) -> vote_memberId v <> memberId) ->
    fst (voting.submitVote now rnd memberId choices db)
    = VoteSubmitted (voting.voteIdOf now rnd)
    <->
    forall positionId candidateId,
      In (positionId, candidateId) choices ->
      offers (ballot.getBallot db) positionId candidateId.
Proof.
  intros now rnd memberId choices db Hact Hfresh. split.
  - intros Hok positionId candidateId Hin.
    destruct (voting.submitVote now rnd memberId choices db) as [r db'] eqn:Hsubmit.
    simpl in Hok. subst r.
    destruct (submitVote_validated _ _ _ _ _ _ _ Hsubmit) as (_ & _ & _ & Hvalid).
    apply getBallot_offers. apply Hvalid. exact Hin.
  - intros Hoffered.
    rewrite (submitVote_succeeds now rnd memberId choices db Hact Hfresh); [reflexivity|].
    intros p c Hin. apply getBallot_offers. apply Hoffered. exact Hin.
Qed.

Lemma submitVote_accepts_what_ballot_offers_witness :
  fst (voting.submitVote 1500 "x" "member_9" (sample.ballot_for sample.bob)
                         sample.db_running_long)
  = VoteSubmitted (voting.voteIdOf 1500 "x")
  <->
  forall positionId candidateId,
    In (positionId, candidateId) (sample.ballot_for sample.bob) ->
    offers (ballot.getBallot sample.db_running_long) positionId candidateId.
Proof.
  apply (submitVote_accepts_what_ballot_offers
           1500 "x" "member_9" (sample.ballot_for sample.bob) sample.db_running_long).
  - reflexivity.
  - intros v [].
Defined.

(** X14: a rejection by [submitVote] is founded and has no effect.
    InvalidPosition names a key of the choice map that is no active
    position; InvalidCandidate is given only when every key is an active
    position, and names a position whose chosen candidate is not an active
    candidate of it; AlreadyVoted carries the id of a stored vote of that
    member; and whenever the answer is not a success the store is
    unchanged. *)
Theorem submitVote_rejections_are_founded :
  forall now rnd memberId choices db,
    (forall positionId,
       fst (voting.submitVote now rnd memberId choices db) = InvalidPosition positionId ->
       In positionId (obj_keys choices)
       /\ ~ exists position,
             In position (positions db) /\ pos_isActive position = true
             /\ pos_id position = positionId)
    /\ (forall positionId,
          fst (voting.submitVote now rnd memberId choices db)
          = InvalidCandidate positionId ->
          (forall key, In key (obj_keys choices) ->
             exists position,
               In position (positions db) /\ pos_isActive position = true
               /\ pos_id position = key)
          /\ exists candidateId,
               In (positionId, candidateId) choices
               /\ ~ exists candidate,
                     In candidate (candidates db) /\ cand_id candidate = candidateId
                     /\ cand_positionId candidate = positionId
                     /\ cand_isActive candidate = true)
    /\ (forall voteId,
          fst (voting.submitVote now rnd memberId choices db) = AlreadyVoted voteId ->
          exists v, In v (votes db) /\ vote_memberId v = memberId /\ vote_id v = voteId)
    /\ ((forall voteId,
           fst (voting.submitVote now rnd memberId choices db) <> VoteSubmitted voteId) ->
        snd (voting.submitVote now rnd memberId choices db) = db).
Proof.
  intros now rnd memberId choices db.
  assert (Hactive : forall key,
             negb (bool_decide (key ∈ voting.activePositionIds db)) = false ->
             exists position,
               In position (positions db) /\ pos_isActive position = true
               /\ pos_id position = key).
  { intros key Hk. apply negb_false_iff, bool_decide_eq_true in Hk.
    apply list_elem_of_In in Hk. unfold voting.activePositionIds in Hk.
    apply in_map_iff in Hk as (position & Hid & Hpos).
    apply filter_In in Hpos as [Hpos Hact]. exists position. auto. }
  unfold voting.submitVote.
  destruct (isActive (voting.loadElectionStatus db)); cbn [negb];
    [|repeat split; intros; simpl in *; try discriminate; reflexivity].
  destruct (fileDb.findBy vote_memberId memberId (votes db)) as [existing|] eqn:Hvoted.
  { repeat split; intros; simpl in *; try discriminate; try reflexivity.
    match goal with H : AlreadyVoted _ = AlreadyVoted _ |- _ => injection H as <- end.
    destruct (findBy_Some vote_memberId memberId (votes db) existing Hvoted).
    exists existing. auto. }
  destruct (find _ (obj_keys choices)) as [badKey|] eqn:Hkeys.
  { repeat split; intros; simpl in *; try discriminate; try reflexivity.
    - match goal with H : InvalidPosition _ = InvalidPosition _ |- _ =>
        injection H as <- end.
      apply find_some in Hkeys. apply Hkeys.
    - match goal with H : InvalidPosition _ = InvalidPosition _ |- _ =>
        injection H as <- end.
      apply find_some in Hkeys as [_ Hbad]. intros (position & Hpos & Hact & Hid).
      apply negb_true_iff, bool_decide_eq_false in Hbad. apply Hbad.
      apply list_elem_of_In. unfold voting.activePositionIds. apply in_map_iff.
      exists position. split; [exact Hid|]. apply filter_In. split; assumption. }
  destruct (find _ choices) as [[p c]|] eqn:Hentries.
  { repeat split; intros; simpl in *; try discriminate; try reflexivity.
    - apply Hactive. apply (find_none _ _ Hkeys). assumption.
    - match goal with H : InvalidCandidate _ = InvalidCandidate _ |- _ =>
        injection H as <- end.
      apply find_some in Hentries as [Hin Hbad]. exists c. split; [exact Hin|].
      intros (candidate & Hc & Hid & Hpid & Hcact). simpl in Hbad.
      destruct (find (voting.validCandidate p c) (candidates db)) eqn:Hfind;
        [discriminate|].
      pose proof (find_none _ _ Hfind candidate Hc) as Hno.
      unfold voting.validCandidate in Hno.
      rewrite Hid, Hpid, !String.eqb_refl, Hcact in Hno. discriminate. }
  repeat split; intros; simpl in *; try discriminate.
  exfalso. match goal with H : forall voteId, _ <> _ |- _ => apply (H _ eq_refl) end.
Qed.

Lemma submitVote_rejections_are_founded_witness :
  In "position_9" (obj_keys [("position_9", "candidate_1_ann")])
  /\ ~ exists position,
        In position (positions sample.db_running_long)
        /\ pos_isActive position = true /\ pos_id position = "position_9".
Proof.
  destruct (submitVote_rejections_are_founded
              1500 "x" "member_9" [("position_9", "candidate_1_ann")]
              sample.db_running_long) as (Hpos & _).
  apply Hpos. reflexivity.
Defined.

(** ** One-time codes: expiry, success, resend *)

Lemma verifyMember_known now code phoneNumber sys member :
  fileDb.findBy member_phoneNumber phoneNumber (members (store sys)) = Some member ->
  auth.verifyMember now code phoneNumber sys
  = (CodeSent,
     mkSystem (<[phoneNumber := mkOtp code (now + config.otp_expiry) (member_id member) O]>
                 (activeOTPs sys))
              (store sys)).
Proof. intros H. unfold auth.verifyMember. rewrite H. reflexivity. Qed.

Lemma verifyOTP_success now token phoneNumber code sys d member :
  activeOTPs sys !! phoneNumber = Some d ->
  now <= expiryTime d ->
  (attempts d < 4)%nat ->
  otp d = code ->
  fileDb.findBy member_id (otp_memberId d) (members (store sys)) = Some member ->
  auth.verifyOTP now token phoneNumber code sys
  = (Verified token (member_id member) (member_name member)
              (match fileDb.findBy vote_memberId (member_id member) (votes (store sys))
               with Some _ => true | None => false end)
              (vote_id <$> fileDb.findBy vote_memberId (member_id member)
                                         (votes (store sys))),
     mkSystem (delete phoneNumber (activeOTPs sys))
              (set_sessions
                 (sessions (store sys)
                  ++ [mkSession token (Some (member_id member)) false now
                                (now + config.session_duration)])
                 (store sys))).
Proof.
  intros Hd Hnow Hatt Hcode Hmember. unfold auth.verifyOTP. rewrite Hd.
  destruct (Z.ltb_spec (expiryTime d) now); [lia|]. cbn [attempts otp otp_memberId].
  destruct (Nat.leb_spec 5 (attempts d + 1)); [lia|].
  rewrite Hcode, String.eqb_refl. cbn [negb]. rewrite Hmember.
  rewrite delete_insert_eq. reflexivity.
Qed.

Lemma findBy_unique {R K : Type} `{EqDecision K} (field : R -> K) records r :
  List.NoDup (map field records) -> In r records ->
  fileDb.findBy field (field r) records = Some r.
Proof.
  intros Hnd Hin.
  destruct (findBy_In field (field r) records r Hin eq_refl) as [r' Hfind].
  destruct (findBy_Some field (field r) records r' Hfind) as [Hin' Hf].
  rewrite Hfind. f_equal. apply (NoDup_map_eq field records); auto.
Qed.

(** X15: a code presented after its expiry never verifies: whatever code
    is submitted, the pending one included, the answer is ChallengeExpired;
    the credential is dropped without counting an attempt, so the next call
    finds no challenge. *)
Theorem verifyOTP_after_expiry :
  forall sys phoneNumber d now token code,
    activeOTPs sys !! phoneNumber = Some d ->
    expiryTime d < now ->
    auth.verifyOTP now token phoneNumber code sys
    = (ChallengeExpired, mkSystem (delete phoneNumber (activeOTPs sys)) (store sys))
    /\ forall now' token' code',
         auth.verifyOTP now' token' phoneNumber code'
           (mkSystem (delete phoneNumber (activeOTPs sys)) (store sys))
         = (NoActiveChallenge,
            mkSystem (delete phoneNumber (activeOTPs sys)) (store sys)).
Proof.
  intros sys phoneNumber d now token code Hd Hexp. split.
  - unfold auth.verifyOTP. rewrite Hd.
    destruct (Z.ltb_spec (expiryTime d) now); [reflexivity | lia].
  - intros now' token' code'. apply verifyOTP_no_challenge. apply lookup_delete_eq.
Qed.

Lemma verifyOTP_after_expiry_witness :
  auth.verifyOTP 600001 "tok" "+15550000001" "123456" sample.sys_challenged
  = (ChallengeExpired,
     mkSystem (delete "+15550000001" (activeOTPs sample.sys_challenged))
              (store sample.sys_challenged)).
Proof.
  apply (verifyOTP_after_expiry sample.sys_challenged "+15550000001"
           (mkOtp "123456" config.otp_expiry "member_1" O) 600001 "tok" "123456").
  - reflexivity.
  - reflexivity.
Defined.

(** X16: logging in.  For a member found by phone number, with member ids
    unique, the code sent by [verifyMember] verifies at any time up to the
    expiry, whatever credential was pending before: the answer names that
    member and says whether a vote of theirs is stored, one member session
    valid for the session duration is appended, and the credential is
    consumed, so the same code presented again finds no challenge. *)
Theorem login_round_trip :
  forall sys phoneNumber code t0 t1 token member,
    fileDb.findBy member_phoneNumber phoneNumber (members (store sys)) = Some member ->
    List.NoDup (map member_id (members (store sys))) ->
    t1 <= t0 + config.otp_expiry ->
    let sys1 := snd (auth.verifyMember t0 code phoneNumber sys) in
    let vote := fileDb.findBy vote_memberId (member_id member) (votes (store sys)) in
    let sys2 :=
      mkSystem (delete phoneNumber (activeOTPs sys))
               (set_sessions
                  (sessions (store sys)
                   ++ [mkSession token (Some (member_id member)) false t1
                                 (t1 + config.session_duration)])
                  (store sys)) in
    auth.verifyOTP t1 token phoneNumber code sys1
    = (Verified token (member_id member) (member_name member)
                (match vote with Some _ => true | None => false end)
                (vote_id <$> vote),
       sys2)
    /\ forall t2 token2,
         auth.verifyOTP t2 token2 phoneNumber code sys2 = (NoActiveChallenge, sys2).
Proof.
  intros sys phoneNumber code t0 t1 token member Hphone Hnd Ht1 sys1 vote sys2.
  destruct (findBy_Some member_phoneNumber phoneNumber _ member Hphone) as [Hin _].
  pose proof (findBy_unique member_id _ member Hnd Hin) as Hid.
  split.
  - unfold sys1. rewrite (verifyMember_known t0 code phoneNumber sys member Hphone).
    cbn [snd].
    rewrite (verifyOTP_success t1 token phoneNumber code _
               (mkOtp code (t0 + config.otp_expiry) (member_id member) O) member).
    + cbn [activeOTPs store]. rewrite delete_insert_eq. reflexivity.
    + apply lookup_insert_eq.
    + exact Ht1.
    + simpl. lia.
    + reflexivity.
    + exact Hid.
  - intros t2 token2. apply verifyOTP_no_challenge. apply lookup_delete_eq.
Qed.

Lemma login_round_trip_witness :
  fst (auth.verifyOTP 5 "tok" "+15550000001" "123456" sample.sys_challenged)
  = Verified "tok" "member_1" "Alice" false None.
Proof.
  destruct (login_round_trip sample.sys0 "+15550000001" "123456" 0 5 "tok" sample.alice)
    as [H _].
  - reflexivity.
  - simpl. repeat constructor. intros [].
  - vm_compute. discriminate.
  - unfold sample.sys_challenged. rewrite H. reflexivity.
Defined.

(** X17: a resend starts over.  [resendOTP] leaves the state that
    [verifyMember] would leave: the pending credential, whatever its
    counter and expiry, is replaced by one with the new code, a full
    lifetime and no attempts; from then on the previous code is answered
    CodeMismatch although it had not expired. *)
Theorem resendOTP_replaces_the_challenge :
  forall sys phoneNumber newCode now member,
    fileDb.findBy member_phoneNumber phoneNumber (members (store sys)) = Some member ->
    authSessions.resendOTP now newCode phoneNumber sys
    = (CodeResent, snd (auth.verifyMember now newCode phoneNumber sys))
    /\ activeOTPs (snd (authSessions.resendOTP now newCode phoneNumber sys)) !! phoneNumber
       = Some (mkOtp newCode (now + config.otp_expiry) (member_id member) O)
    /\ forall t token oldCode,
         oldCode <> newCode ->
         t <= now + config.otp_expiry ->
         fst (auth.verifyOTP t token phoneNumber oldCode
                (snd (authSessions.resendOTP now newCode phoneNumber sys)))
         = CodeMismatch.
Proof.
  intros sys phoneNumber newCode now member Hphone.
  assert (Hre : authSessions.resendOTP now newCode phoneNumber sys
                = (CodeResent, snd (auth.verifyMember now newCode phoneNumber sys))).
  { unfold authSessions.resendOTP, auth.verifyMember. rewrite Hphone. reflexivity. }
  rewrite Hre, (verifyMember_known now newCode phoneNumber sys member Hphone).
  cbn [snd activeOTPs]. split; [reflexivity|]. split; [apply lookup_insert_eq|].
  intros t token oldCode Hne Ht.
  rewrite (verifyOTP_mismatch t token phoneNumber oldCode _
             (mkOtp newCode (now + config.otp_expiry) (member_id member) O)).
  - reflexivity.
  - apply lookup_insert_eq.
  - exact Ht.
  - simpl. lia.
  - simpl. congruence.
Qed.

Lemma resendOTP_replaces_the_challenge_witness :
  activeOTPs (snd (authSessions.resendOTP 100 "654321" "+15550000001"
                                          sample.sys_challenged)) !! "+15550000001"
  = Some (mkOtp "654321" (100 + config.otp_expiry) "member_1" O).
Proof.
  destruct (resendOTP_replaces_the_challenge sample.sys_challenged "+15550000001"
              "654321" 100 sample.alice) as (_ & H & _).
  - reflexivity.
  - exact H.
Defined.

(** ** Sessions *)

Lemma truthyStr_true s : s <> "" -> truthyStr s = true.
Proof. intros H. unfold truthyStr. destruct (String.eqb_spec s ""); [contradiction | reflexivity]. Qed.

Lemma findBy_at_first {R K : Type} `{EqDecision K} (field : R -> K) value before r after :
  (forall x, In x before -> fileDb.matches field value x = false) ->
  fileDb.matches field value r = true ->
  fileDb.findBy field value (before ++ r :: after) = Some r.
Proof.
  intros Hbefore Hr. unfold fileDb.findBy.
  induction before as [|x xs IH]; simpl.
  - rewrite Hr. reflexivity.
  - rewrite (Hbefore x (or_introl eq_refl)). apply IH.
    intros y Hy. apply Hbefore. right. exact Hy.
Qed.

Lemma validateSession_valid now token db s memberId member :
  token <> "" ->
  fileDb.findBy sess_id token (sessions db) = Some s ->
  now <= sess_expiresAt s ->
  sess_memberId s = Some memberId ->
  fileDb.findBy member_id memberId (members db) = Some member ->
  authSessions.validateSession now (Some token) db
  = (Some (mkSessionInfo token (member_id member) (member_name member)
             (match fileDb.findBy vote_memberId (member_id member) (votes db)
              with Some _ => true | None => false end)
             (vote_id <$> fileDb.findBy vote_memberId (member_id member) (votes db))),
     set_sessions
       (snd (fileDb.update sess_id token
                           (setExpiresAt (now + config.session_duration)) (sessions db)))
       db).
Proof.
  intros Htok Hfind Hnow Hmid Hmember. unfold authSessions.validateSession.
  rewrite (truthyStr_true token Htok). cbn [negb]. rewrite Hfind.
  destruct (Z.ltb_spec (sess_expiresAt s) now); [lia|].
  rewrite Hmid, Hmember.
  destruct (fileDb.update sess_id token _ (sessions db)). reflexivity.
Qed.

(** X18: sliding expiration.  Validating a session that has not expired,
    however little of it is left, returns its member with the voted state
    read from the vote file and moves the expiry of that session record to
    now + the session duration; every other session record stays as it
    was. *)
Theorem validateSession_slides_expiry :
  forall now token db s memberId member,
    token <> "" ->
    fileDb.findBy sess_id token (sessions db) = Some s ->
    now <= sess_expiresAt s ->
    sess_memberId s = Some memberId ->
    fileDb.findBy member_id memberId (members db) = Some member ->
    let vote := fileDb.findBy vote_memberId (member_id member) (votes db) in
    let db' := snd (authSessions.validateSession now (Some token) db) in
    fst (authSessions.validateSession now (Some token) db)
    = Some (mkSessionInfo token (member_id member) (member_name member)
                          (match vote with Some _ => true | None => false end)
                          (vote_id <$> vote))
    /\ fileDb.findBy sess_id token (sessions db')
       = Some (setExpiresAt (now + config.session_duration) s)
    /\ exists before after,
         sessions db = before ++ s :: after
         /\ sessions db'
            = before ++ setExpiresAt (now + config.session_duration) s :: after.
Proof.
  intros now token db s memberId member Htok Hfind Hnow Hmid Hmember vote db'.
  unfold db'.
  rewrite (validateSession_valid now token db s memberId member
             Htok Hfind Hnow Hmid Hmember).
  cbn [fst snd sessions set_sessions].
  destruct (find_first _ _ _ Hfind) as (before & after & Heq & Hbefore & Hs).
  rewrite Heq, (update_at_first sess_id token _ before s after Hbefore Hs). cbn [snd].
  split; [reflexivity|]. split.
  - apply findBy_at_first; [exact Hbefore|].
    apply matches_true. apply (matches_true sess_id) in Hs. exact Hs.
  - exists before, after. split; reflexivity.
Qed.

Lemma validateSession_slides_expiry_witness :
  fileDb.findBy sess_id "tok_b"
    (sessions (snd (authSessions.validateSession 1740000 (Some "tok_b")
                                                 sample.db_logged_in)))
  = Some (setExpiresAt (1740000 + config.session_duration) (sample.session_of "tok_b")).
Proof.
  destruct (validateSession_slides_expiry 1740000 "tok_b" sample.db_logged_in
              (sample.session_of "tok_b") "member_1" sample.alice
              ltac:(discriminate) eq_refl ltac:(vm_compute; discriminate)
              eq_refl eq_refl)
    as (_ & H & _).
  exact H.
Defined.

(** X19: an expired session is refused and removed.  Validating after the
    expiry instant answers "no session" and deletes the record (with
    unique tokens none is left under that token), so a second validation
    also answers "no session", this time without writing. *)
Theorem validateSession_evicts_expired :
  forall now token db s,
    token <> "" ->
    List.NoDup (map sess_id (sessions db)) ->
    fileDb.findBy sess_id token (sessions db) = Some s ->
    sess_expiresAt s < now ->
    let db' := snd (authSessions.validateSession now (Some token) db) in
    fst (authSessions.validateSession now (Some token) db) = None
    /\ fileDb.findBy sess_id token (sessions db') = None
    /\ (length (sessions db') + 1 = length (sessions db))%nat
    /\ forall later,
         authSessions.validateSession later (Some token) db' = (None, db').
Proof.
  intros now token db s Htok Hnd Hfind Hexp db'.
  assert (Hv : authSessions.validateSession now (Some token) db
               = (None, set_sessions (snd (fileDb.remove sess_id token (sessions db))) db)).
  { unfold authSessions.validateSession.
    rewrite (truthyStr_true token Htok). cbn [negb]. rewrite Hfind.
    destruct (Z.ltb_spec (sess_expiresAt s) now); [|lia].
    destruct (fileDb.remove sess_id token (sessions db)). reflexivity. }
  unfold db'. rewrite Hv. cbn [fst snd sessions set_sessions].
  assert (Hgone : fileDb.findBy sess_id token
                    (snd (fileDb.remove sess_id token (sessions db))) = None).
  { apply findBy_None. apply remove_gone. exact Hnd. }
  split; [reflexivity|]. split; [exact Hgone|]. split.
  - destruct (find_first _ _ _ Hfind) as (before & after & Heq & Hbefore & Hs).
    rewrite Heq, (remove_at_first sess_id token before s after Hbefore Hs).
    cbn [snd]. rewrite !length_app. simpl. lia.
  - intros later. unfold authSessions.validateSession.
    rewrite (truthyStr_true token Htok). cbn [negb sessions set_sessions].
    rewrite Hgone. reflexivity.
Qed.

Lemma validateSession_evicts_expired_witness :
  fst (authSessions.validateSession 1800001 (Some "tok_b") sample.db_logged_in) = None
  /\ fileDb.findBy sess_id "tok_b"
       (sessions (snd (authSessions.validateSession 1800001 (Some "tok_b")
                                                    sample.db_logged_in)))
     = None.
Proof.
  destruct (validateSession_evicts_expired 1800001 "tok_b" sample.db_logged_in
              (sample.session_of "tok_b")
              ltac:(discriminate) sample_sessions_NoDup eq_refl eq_refl)
    as (H1 & H2 & _).
  split; [exact H1 | exact H2].
Defined.

(** X20: logging out ends the session.  With unique tokens, once
    [endSession] has run for a token, [validateSession] answers "no
    session" for it at any time and the user middleware rejects the
    cookie, neither of them writing anything. *)
Theorem endSession_then_validateSession :
  forall token db,
    List.NoDup (map sess_id (sessions db)) ->
    let db' := snd (auth.endSession token db) in
    forall now,
      authSessions.validateSession now token db' = (None, db')
      /\ snd (middleware.authenticateUser now token db') = db'
      /\ forall session,
           fst (middleware.authenticateUser now token db') <> Authenticated session.
Proof.
  intros token db Hnd db' now.
  assert (Hv : authSessions.validateSession now token db' = (None, db')).
  { destruct token as [t|]; [|reflexivity].
    unfold authSessions.validateSession.
    destruct (String.eqb_spec t "") as [->|Ht]; [reflexivity|].
    rewrite (truthyStr_true t Ht). cbn [negb].
    assert (Hgone : fileDb.findBy sess_id t (sessions db') = None).
    { unfold db'. rewrite (endSession_token t db Ht). cbn [snd sessions set_sessions].
      apply findBy_None. apply remove_gone. exact Hnd. }
    rewrite Hgone. reflexivity. }
  split; [exact Hv|].
  unfold middleware.authenticateUser. destruct token as [t|]; [|split; [reflexivity | discriminate]].
  destruct (negb (truthyStr t)); [split; [reflexivity | discriminate]|].
  rewrite Hv. split; [reflexivity | discriminate].
Qed.

Lemma endSession_then_validateSession_witness :
  authSessions.validateSession 5 (Some "tok_a")
    (snd (auth.endSession (Some "tok_a") sample.db_logged_in))
  = (None, snd (auth.endSession (Some "tok_a") sample.db_logged_in)).
Proof.
  apply (endSession_then_validateSession (Some "tok_a") sample.db_logged_in
           sample_sessions_NoDup 5).
Defined.

(** ** Administrator sessions *)

Lemma authenticateAdmin_session now token db s :
  token <> "" ->
  fileDb.findBy sess_id token (sessions db) = Some s ->
  middleware.authenticateAdmin now (Some token) db
  = if negb (sess_isAdmin s) || (sess_expiresAt s <? now)
    then AdminSessionInvalid else AdminAuthenticated.
Proof.
  intros Htok Hfind. unfold middleware.authenticateAdmin.
  rewrite (truthyStr_true token Htok). cbn [negb]. rewrite Hfind. reflexivity.
Qed.

Section AdminLogin.
Variable bcrypt_compare : string -> string -> bool.

(** X21: an administrator's login.  With a matching password and a fresh
    token, [verifyAdmin] reports the default-password flag of the account
    and appends an admin session; the admin middleware accepts that token
    up to the session duration after the login and rejects it afterwards,
    and the member-side [validateSession] never accepts it.  An unknown
    user name and a wrong password get the same answer and write
    nothing. *)
Theorem verifyAdmin_round_trip :
  forall now token admins username password db,
    (forall admin,
       find (fun admin => String.eqb (admin_username admin) username) admins
       = Some admin ->
       bcrypt_compare password (admin_passwordHash admin) = true ->
       token <> "" ->
       fileDb.findBy sess_id token (sessions db) = None ->
       let db' := snd (authSessions.verifyAdmin bcrypt_compare now token admins
                                                username password db) in
       fst (authSessions.verifyAdmin bcrypt_compare now token admins
                                     username password db)
       = AdminLoggedIn token (admin_isDefaultPassword admin)
       /\ sessions db'
          = sessions db ++ [mkSession token None true now (now + config.session_duration)]
       /\ (forall t, t <= now + config.session_duration ->
                     middleware.authenticateAdmin t (Some token) db' = AdminAuthenticated)
       /\ (forall t, now + config.session_duration < t ->
                     middleware.authenticateAdmin t (Some token) db' = AdminSessionInvalid)
       /\ (forall t, fst (authSessions.validateSession t (Some token) db') = None))
    /\ ((find (fun admin => String.eqb (admin_username admin) username) admins = None
         \/ exists admin,
              find (fun admin => String.eqb (admin_username admin) username) admins
              = Some admin
              /\ bcrypt_compare password (admin_passwordHash admin) = false) ->
        authSessions.verifyAdmin bcrypt_compare now token admins username password db
        = (InvalidCredentials, db)).
Proof.
  intros now token admins username password db. split.
  - intros admin Hfind Hpw Htok Hfresh db'.
    set (record := mkSession token None true now (now + config.session_duration)).
    assert (Hv : authSessions.verifyAdmin bcrypt_compare now token admins
                                          username password db
                 = (AdminLoggedIn token (admin_isDefaultPassword admin),
                    set_sessions (sessions db ++ [record]) db)).
    { unfold authSessions.verifyAdmin. rewrite Hfind, Hpw. reflexivity. }
    unfold db'. rewrite Hv. cbn [fst snd sessions set_sessions].
    assert (Hlookup : fileDb.findBy sess_id token (sessions db ++ [record]) = Some record)
      by (apply findBy_app_fresh; [exact Hfresh | reflexivity]).
    split; [reflexivity|]. split; [reflexivity|]. split; [|split].
    + intros t Ht.
      rewrite (authenticateAdmin_session
                 t token (set_sessions (sessions db ++ [record]) db) record Htok Hlookup).
      simpl.
      destruct (Z.ltb_spec (now + config.session_duration) t); [lia | reflexivity].
    + intros t Ht.
      rewrite (authenticateAdmin_session
                 t token (set_sessions (sessions db ++ [record]) db) record Htok Hlookup).
      simpl.
      destruct (Z.ltb_spec (now + config.session_duration) t); [reflexivity | lia].
    + intros t. unfold authSessions.validateSession.
      rewrite (truthyStr_true token Htok). cbn [negb sessions set_sessions].
      rewrite Hlookup. cbn [sess_expiresAt sess_memberId record].
      destruct (_ <? t); [|reflexivity].
      destruct (fileDb.remove sess_id token _). reflexivity.
  - intros [Hnone|(admin & Hfind & Hpw)]; unfold authSessions.verifyAdmin.
    + rewrite Hnone. reflexivity.
    + rewrite Hfind, Hpw. reflexivity.
Qed.
End AdminLogin.

Lemma verifyAdmin_round_trip_witness :
  fst (authSessions.verifyAdmin String.eqb 10 "tok_admin"
         [mkAdmin "admin_1" "root" "secret" true] "root" "secret" sample.db_logged_in)
  = AdminLoggedIn "tok_admin" true
  /\ authSessions.verifyAdmin String.eqb 10 "tok_admin"
       [mkAdmin "admin_1" "root" "secret" true] "root" "guess" sample.db_logged_in
     = (InvalidCredentials, sample.db_logged_in).
Proof.
  destruct (verifyAdmin_round_trip String.eqb 10 "tok_admin"
              [mkAdmin "admin_1" "root" "secret" true] "root" "secret"
              sample.db_logged_in) as [Hok _].
  destruct (verifyAdmin_round_trip String.eqb 10 "tok_admin"
              [mkAdmin "admin_1" "root" "secret" true] "root" "guess"
              sample.db_logged_in) as [_ Hbad].
  split.
  - apply (Hok (mkAdmin "admin_1" "root" "secret" true) eq_refl eq_refl
               ltac:(discriminate) eq_refl).
  - apply Hbad. right. exists (mkAdmin "admin_1" "root" "secret" true).
    split; reflexivity.
Defined.

Lemma verifyOTP_verified now token phoneNumber code sys memberId memberName hasVoted voteId sys' :
  auth.verifyOTP now token phoneNumber code sys
  = (Verified token memberId memberName hasVoted voteId, sys') ->
  store sys'
  = set_sessions
      (sessions (store sys)
       ++ [mkSession token (Some memberId) false now (now + config.session_duration)])
      (store sys)
  /\ exists member,
       In member (members (store sys)) /\ member_id member = memberId
       /\ member_name member = memberName.
Proof.
  unfold auth.verifyOTP.
  destruct (activeOTPs sys !! phoneNumber) as [d|]; [|discriminate].
  destruct (_ <? now); [discriminate|].
  destruct (5 <=? _)%nat; [discriminate|].
  destruct (negb _); [discriminate|].
  destruct (fileDb.findBy member_id _ _) as [member|] eqn:Hmember; [|discriminate].
  intros [= <- <- <- <- <-]. split; [reflexivity|].
  destruct (findBy_Some member_id _ _ member Hmember) as [Hin _].
  exists member. auto.
Qed.

(** X22: a member's session carries no administrator rights.  The session
    minted by a successful [verifyOTP] under a fresh token is refused by
    the admin middleware and by [validateAdminSession] at every time, and
    that refusal does not touch the store, so the member session stays
    usable. *)
Theorem member_session_is_not_admin :
  forall now token phoneNumber code sys memberId memberName hasVoted voteId sys',
    auth.verifyOTP now token phoneNumber code sys
    = (Verified token memberId memberName hasVoted voteId, sys') ->
    token <> "" ->
    fileDb.findBy sess_id token (sessions (store sys)) = None ->
    forall t,
      middleware.authenticateAdmin t (Some token) (store sys') = AdminSessionInvalid
      /\ authSessions.validateAdminSession t (Some token) (store sys')
         = (false, store sys').
Proof.
  intros now token phoneNumber code sys memberId memberName hasVoted voteId sys'
         Hverify Htok Hfresh t.
  destruct (verifyOTP_verified _ _ _ _ _ _ _ _ _ _ Hverify) as [Hstore _].
  set (record := mkSession token (Some memberId) false now (now + config.session_duration))
    in Hstore.
  assert (Hlookup : fileDb.findBy sess_id token (sessions (store sys')) = Some record).
  { rewrite Hstore. cbn [sessions set_sessions].
    apply findBy_app_fresh; [exact Hfresh | reflexivity]. }
  split.
  - rewrite (authenticateAdmin_session t token _ record Htok Hlookup). reflexivity.
  - unfold authSessions.validateAdminSession.
    rewrite (truthyStr_true token Htok). cbn [negb]. rewrite Hlookup. reflexivity.
Qed.

Lemma member_session_is_not_admin_witness :
  middleware.authenticateAdmin 6 (Some "tok")
    (store (snd (auth.verifyOTP 5 "tok" "+15550000001" "123456" sample.sys_challenged)))
  = AdminSessionInvalid.
Proof.
  apply (member_session_is_not_admin 5 "tok" "+15550000001" "123456"
           sample.sys_challenged "member_1" "Alice" false None
           (snd (auth.verifyOTP 5 "tok" "+15550000001" "123456" sample.sys_challenged))
           eq_refl ltac:(discriminate) eq_refl 6).
Defined.

(** X23: the admin middleware in force admits exactly the tokens that
    [validateAdminSession] would admit at that instant, but unlike it the
    middleware writes nothing: an admitted admin session keeps the expiry
    it had. *)
Theorem authenticateAdmin_admits_like_validateAdminSession :
  forall now cookie db,
    middleware.authenticateAdmin now cookie db = AdminAuthenticated <->
    fst (authSessions.validateAdminSession now cookie db) = true.
Proof.
  intros now cookie db.
  unfold middleware.authenticateAdmin, authSessions.validateAdminSession.
  destruct cookie as [token|]; [|split; discriminate].
  destruct (negb (truthyStr token)); [split; discriminate|].
  destruct (fileDb.findBy sess_id token (sessions db)) as [s|]; [|split; discriminate].
  destruct (sess_isAdmin s); simpl; [|split; discriminate].
  destruct (sess_expiresAt s <? now).
  - destruct (fileDb.remove sess_id token (sessions db)). split; discriminate.
  - destruct (fileDb.update sess_id token _ (sessions db)). split; reflexivity.
Qed.

(** ** The submit route behind its middlewares *)

Lemma validateSession_votes now token db :
  votes (snd (authSessions.validateSession now token db)) = votes db.
Proof.
  unfold authSessions.validateSession.
  destruct token as [t|]; [|reflexivity].
  destruct (negb _); [reflexivity|].
  destruct (fileDb.findBy sess_id t (sessions db)) as [s|]; [|reflexivity].
  destruct (_ <? now); [destruct (fileDb.remove _ _ _); reflexivity|].
  destruct (sess_memberId s); [|reflexivity].
  destruct (fileDb.findBy member_id _ _); [|reflexivity].
  destruct (fileDb.update _ _ _ _). reflexivity.
Qed.

Lemma validateSession_owner now token db info :
  fst (authSessions.validateSession now token db) = Some info ->
  exists t s,
    token = Some t /\ fileDb.findBy sess_id t (sessions db) = Some s
    /\ sess_memberId s = Some (si_memberId info).
Proof.
  unfold authSessions.validateSession.
  destruct token as [t|]; [|discriminate].
  destruct (negb _); [discriminate|].
  destruct (fileDb.findBy sess_id t (sessions db)) as [s|] eqn:Hs; [|discriminate].
  destruct (_ <? now); [destruct (fileDb.remove _ _ _); discriminate|].
  destruct (sess_memberId s) as [mid|] eqn:Hmid; [|discriminate].
  destruct (fileDb.findBy member_id mid (members db)) as [m|] eqn:Hm; [|discriminate].
  destruct (fileDb.update _ _ _ _). simpl. intros [= <-]. simpl.
  destruct (findBy_Some member_id mid _ m Hm) as [_ ->].
  exists t, s. auto.
Qed.

Lemma submit_route_votes now rnd memberId body db :
  votes (snd (routes.submit now rnd memberId body db)) = votes db
  \/ exists choices,
       body = Some choices
       /\ votes (snd (routes.submit now rnd memberId body db))
          = votes db ++ [mkVote (voting.voteIdOf now rnd) memberId now choices].
Proof.
  unfold routes.submit.
  pose proof (getElectionStatus_votes now db) as Hvotes.
  destruct (voting.getElectionStatus now db) as [status db1]. simpl in Hvotes.
  destruct (negb (sv_isActive status)); [left; exact Hvotes|].
  destruct body as [choices|]; [|left; exact Hvotes].
  destruct (_ =? 0)%nat; [left; exact Hvotes|].
  destruct (submitVote_cases now rnd memberId choices db1)
    as [[Hsame _]|(_ & _ & Hok)].
  - left. destruct (voting.submitVote now rnd memberId choices db1) as [r db2].
    simpl in Hsame. subst db2. destruct r; exact Hvotes.
  - right. exists choices. split; [reflexivity|].
    rewrite Hok. simpl. rewrite Hvotes. reflexivity.
Qed.

(** X24: through the submit route a client can only vote as the member of
    its own session.  Whatever cookie and body are sent, the vote file
    either stays as it was or gains exactly one record, and that record
    carries the member identifier stored in the session the cookie names
    and the choices of the body. *)
Theorem submitPipeline_votes_as_session_member :
  forall now_auth now rnd cookie body db,
    votes (snd (votingRoutes.submitPipeline now_auth now rnd cookie body db)) = votes db
    \/ exists token session memberId choices,
         cookie = Some token
         /\ fileDb.findBy sess_id token (sessions db) = Some session
         /\ sess_memberId session = Some memberId
         /\ body = Some choices
         /\ votes (snd (votingRoutes.submitPipeline now_auth now rnd cookie body db))
            = votes db ++ [mkVote (voting.voteIdOf now rnd) memberId now choices].
Proof.
  intros now_auth now rnd cookie body db.
  unfold votingRoutes.submitPipeline, middleware.authenticateUser.
  destruct cookie as [token|]; [|left; reflexivity].
  destruct (negb (truthyStr token)); [left; reflexivity|].
  pose proof (validateSession_votes now_auth (Some token) db) as Hvotes.
  pose proof (validateSession_owner now_auth (Some token) db) as Howner.
  destruct (authSessions.validateSession now_auth (Some token) db) as [[info|] db1];
    simpl in Hvotes, Howner; [|left; exact Hvotes].
  destruct (middleware.checkVotingEligibility info); [left; exact Hvotes|].
  destruct (Howner info eq_refl) as (t & s & [= <-] & Hs & Hmid).
  destruct (submit_route_votes now rnd (si_memberId info) body db1)
    as [Hsame|(choices & -> & Happ)];
    destruct (routes.submit now rnd (si_memberId info) _ db1) as [r db2];
    simpl in *.
  - left. congruence.
  - right. exists token, s, (si_memberId info), choices.
    repeat split; auto. congruence.
Qed.

(** X25: a member whose vote is stored is turned away before the handler
    runs.  With a valid session of that member, the route answers with the
    eligibility middleware's 403 carrying the id of the stored vote,
    whatever the body and the election state, and the vote file is left
    as it was. *)
Theorem submitPipeline_turns_away_voted_member :
  forall now_auth now rnd token body db s memberId member vote,
    token <> "" ->
    fileDb.findBy sess_id token (sessions db) = Some s ->
    now_auth <= sess_expiresAt s ->
    sess_memberId s = Some memberId ->
    fileDb.findBy member_id memberId (members db) = Some member ->
    fileDb.findBy vote_memberId (member_id member) (votes db) = Some vote ->
    fst (votingRoutes.submitPipeline now_auth now rnd (Some token) body db)
    = NotEligible (Some (vote_id vote))
    /\ votes (snd (votingRoutes.submitPipeline now_auth now rnd (Some token) body db))
       = votes db.
Proof.
  intros now_auth now rnd token body db s memberId member vote
         Htok Hs Hnow Hmid Hmember Hvote.
  unfold votingRoutes.submitPipeline, middleware.authenticateUser.
  rewrite (truthyStr_true token Htok). cbn [negb].
  rewrite (validateSession_valid now_auth token db s memberId member
             Htok Hs Hnow Hmid Hmember).
  rewrite Hvote. cbn [middleware.checkVotingEligibility si_hasVoted si_voteId].
  unfold middleware.checkVotingEligibility. simpl. split; reflexivity.
Qed.

Lemma submitPipeline_turns_away_voted_member_witness :
  fst (votingRoutes.submitPipeline 10 20 "x" (Some "tok_a")
         (Some (sample.ballot_for sample.bob))
         (set_votes [mkVote "vote_1_x" "member_1" 1 (sample.ballot_for sample.ann)]
                    (set_electionStatus [sample.running_long] sample.db_logged_in)))
  = NotEligible (Some "vote_1_x").
Proof.
  apply (submitPipeline_turns_away_voted_member
           10 20 "x" "tok_a" (Some (sample.ballot_for sample.bob))
           (set_votes [mkVote "vote_1_x" "member_1" 1 (sample.ballot_for sample.ann)]
                      (set_electionStatus [sample.running_long] sample.db_logged_in))
           (sample.session_of "tok_a") "member_1" sample.alice
           (mkVote "vote_1_x" "member_1" 1 (sample.ballot_for sample.ann))
           ltac:(discriminate) eq_refl ltac:(vm_compute; discriminate)
           eq_refl eq_refl eq_refl).
Defined.

(** ** The read routes of the voting router *)

(** X26: the public results open when the election ends, and a request
    can be what ends it.  While the status record has no endTime and the
    election is idle or still within its duration, GET /results is
    forbidden and writes nothing.  Once the duration has elapsed, the
    status read of the very request closes the election and the route
    serves results computed on the closed record: the election counts as
    ended there, so winners are determined. *)
Theorem results_route_opens_at_the_end :
  forall now db st rest,
    electionStatus db = st :: rest ->
    wellFormedStatus st ->
    endTime st = None ->
    (isActive st = false ->
     votingRoutes.results now db = (ResultsForbidden, db))
    /\ (forall t,
          isActive st = true -> startTime st = Some t -> now < t + duration st ->
          votingRoutes.results now db = (ResultsForbidden, db))
    /\ (forall t,
          isActive st = true -> startTime st = Some t -> t + duration st <= now ->
          now <> 0 ->
          let db' :=
            set_electionStatus
              (mkStatus false (Some t) (Some now) (duration st) :: rest) db in
          votingRoutes.results now db = (ResultsOk (voting.getResults false db'), db')
          /\ isEnded (voting.loadElectionStatus db')).
Proof.
  intros now db st rest Hes Hwf Hend.
  unfold votingRoutes.results.
  rewrite (getElectionStatus_wellFormed now db st rest Hes Hwf).
  split; [|split].
  - intros Hact. rewrite Hact, Hend. reflexivity.
  - intros t Hact Hst Hlt.
    assert (Ht : t <> 0) by (destruct Hwf as (Hs & _); congruence).
    rewrite Hact, Hst, (truthy_Some t Ht), Hend. change (toNumber (Some t)) with t.
    cbn [andb]. destruct (Z.leb_spec (t + duration st - now) 0); [lia | reflexivity].
  - intros t Hact Hst Hle Hnow.
    assert (Ht : t <> 0) by (destruct Hwf as (Hs & _); congruence).
    rewrite Hact, Hst, (truthy_Some t Ht). change (toNumber (Some t)) with t.
    cbn [andb]. destruct (Z.leb_spec (t + duration st - now) 0); [|lia].
    cbn [sv_endTime]. rewrite (truthy_Some now Hnow). cbn [negb].
    split; [reflexivity|].
    rewrite (loadElectionStatus_wellFormed
               (set_electionStatus
                  (mkStatus false (Some t) (Some now) (duration st) :: rest) db)
               (mkStatus false (Some t) (Some now) (duration st)) rest eq_refl).
    + split; [reflexivity | apply (truthy_Some now Hnow)].
    + destruct Hwf as (_ & _ & Hd). repeat split; simpl; congruence.
Qed.

Lemma results_route_opens_at_the_end_witness :
  votingRoutes.results 1500 sample.db_running = (ResultsForbidden, sample.db_running)
  /\ fst (votingRoutes.results 2001 sample.db_running)
     = ResultsOk (voting.getResults false
                    (set_electionStatus [mkStatus false (Some 1000) (Some 2001) 1000]
                                        sample.db_running)).
Proof.
  destruct (results_route_opens_at_the_end 1500 sample.db_running sample.running []
              eq_refl sample_running_wellFormed eq_refl) as (_ & Hbefore & _).
  destruct (results_route_opens_at_the_end 2001 sample.db_running sample.running []
              eq_refl sample_running_wellFormed eq_refl) as (_ & _ & Hafter).
  split.
  - apply (Hbefore 1000 eq_refl eq_refl). reflexivity.
  - destruct (Hafter 1000 eq_refl eq_refl ltac:(vm_compute; discriminate)
                     ltac:(discriminate)) as [H _].
    rewrite H. reflexivity.
Defined.

(** X27: GET /ballot serves the ballot only while the election runs.  It
    is forbidden, with the store untouched, when the election is not
    active; within the duration it returns [getBallot] and writes nothing;
    and once the duration has elapsed the request itself closes the
    election and is forbidden. *)
Theorem ballot_route_gate :
  forall now db st rest,
    electionStatus db = st :: rest ->
    wellFormedStatus st ->
    (isActive st = false ->
     votingRoutes.ballot now db = (BallotForbidden, db))
    /\ (forall t,
          isActive st = true -> startTime st = Some t -> now < t + duration st ->
          votingRoutes.ballot now db = (BallotOk (ballot.getBallot db), db))
    /\ (forall t,
          isActive st = true -> startTime st = Some t -> t + duration st <= now ->
          votingRoutes.ballot now db
          = (BallotForbidden,
             set_electionStatus
               (mkStatus false (Some t) (Some now) (duration st) :: rest) db)).
Proof.
  intros now db st rest Hes Hwf.
  unfold votingRoutes.ballot.
  rewrite (getElectionStatus_wellFormed now db st rest Hes Hwf).
  split; [|split].
  - intros Hact. rewrite Hact. reflexivity.
  - intros t Hact Hst Hlt.
    assert (Ht : t <> 0) by (destruct Hwf as (Hs & _); congruence).
    rewrite Hact, Hst, (truthy_Some t Ht). change (toNumber (Some t)) with t.
    cbn [andb]. destruct (Z.leb_spec (t + duration st - now) 0); [lia | reflexivity].
  - intros t Hact Hst Hle.
    assert (Ht : t <> 0) by (destruct Hwf as (Hs & _); congruence).
    rewrite Hact, Hst, (truthy_Some t Ht). change (toNumber (Some t)) with t.
    cbn [andb]. destruct (Z.leb_spec (t + duration st - now) 0); [reflexivity | lia].
Qed.

Lemma ballot_route_gate_witness :
  votingRoutes.ballot 1500 sample.db_running
  = (BallotOk (ballot.getBallot sample.db_running), sample.db_running)
  /\ fst (votingRoutes.ballot 2001 sample.db_running) = BallotForbidden.
Proof.
  destruct (ballot_route_gate 1500 sample.db_running sample.running []
              eq_refl sample_running_wellFormed) as (_ & Hin & _).
  destruct (ballot_route_gate 2001 sample.db_running sample.running []
              eq_refl sample_running_wellFormed) as (_ & _ & Hout).
  split.
  - apply (Hin 1000 eq_refl eq_refl). reflexivity.
  - rewrite (Hout 1000 eq_refl eq_refl); [reflexivity|]. vm_compute. discriminate.
Defined.

(** ** Deleting records through the admin routes *)

Lemma remove_subset {R K : Type} `{EqDecision K} (field : R -> K) value records r :
  In r (snd (fileDb.remove field value records)) -> In r records.
Proof.
  unfold fileDb.remove.
  pose proof (findIndex_split (fileDb.matches field value) records) as Hsplit.
  destruct (fileDb.findIndex _ records) as [i|]; simpl; [|auto].
  destruct Hsplit as (before & r0 & after & -> & _ & _ & _ & ->).
  intros Hin. apply in_app_or in Hin as [Hin|Hin]; apply in_or_app; [left|right; right];
    exact Hin.
Qed.

(** X28: a member who has voted cannot be deleted, so votes never lose
    their member.  DELETE /members/:id answers 400 and writes nothing when
    a vote of that member is stored; and if every vote record named a
    stored member before the request, every vote record still does
    after it, whatever its outcome. *)
Theorem deleteMember_keeps_voters :
  forall id db,
    (forall member vote,
       fileDb.findBy member_id id (members db) = Some member ->
       fileDb.findBy vote_memberId id (votes db) = Some vote ->
       adminRoutes.deleteMember id db = (DeleteRefused, db))
    /\ (votesHaveMembers db -> votesHaveMembers (snd (adminRoutes.deleteMember id db))).
Proof.
  intros id db. split.
  - intros member vote Hm Hv. unfold adminRoutes.deleteMember. rewrite Hm, Hv. reflexivity.
  - intros Hinv. unfold adminRoutes.deleteMember.
    destruct (fileDb.findBy member_id id (members db)); [|exact Hinv].
    destruct (fileDb.findBy vote_memberId id (votes db)) eqn:Hvote; [exact Hinv|].
    intros vote Hin. cbn [snd votes set_members members] in *.
    destruct (Hinv vote Hin) as (member & Hmem & Hid).
    exists member. split; [|exact Hid].
    apply remove_keeps_others; [exact Hmem|].
    rewrite Hid. intros E.
    apply (proj1 (findBy_None vote_memberId id (votes db)) Hvote vote Hin E).
Qed.

Lemma deleteMember_keeps_voters_witness :
  adminRoutes.deleteMember "member_1"
    (set_votes [mkVote "vote_1_x" "member_1" 1 (sample.ballot_for sample.ann)]
               sample.db_idle)
  = (DeleteRefused,
     set_votes [mkVote "vote_1_x" "member_1" 1 (sample.ballot_for sample.ann)]
               sample.db_idle).
Proof.
  destruct (deleteMember_keeps_voters "member_1"
              (set_votes [mkVote "vote_1_x" "member_1" 1 (sample.ballot_for sample.ann)]
                         sample.db_idle)) as [Hrefused _].
  apply (Hrefused sample.alice
                  (mkVote "vote_1_x" "member_1" 1 (sample.ballot_for sample.ann)));
    reflexivity.
Defined.

(** X29: deleting positions and candidates leaves no candidate without a
    position.  DELETE /positions/:id answers 400 and writes nothing while
    any candidate, active or not, is assigned to the position; and if
    every candidate named a stored position before, every candidate still
    does after a position deletion or a candidate deletion, whatever the
    outcome. *)
Theorem deletions_keep_candidates_attached :
  forall id db,
    (forall position candidate,
       fileDb.findBy pos_id id (positions db) = Some position ->
       In candidate (candidates db) -> cand_positionId candidate = id ->
       adminRoutes.deletePosition id db = (DeleteRefused, db))
    /\ (candidatesHavePositions db ->
        candidatesHavePositions (snd (adminRoutes.deletePosition id db))
        /\ candidatesHavePositions (snd (adminRoutes.deleteCandidate id db))).
Proof.
  intros id db. split.
  - intros position candidate Hpos Hin Hpid. unfold adminRoutes.deletePosition.
    rewrite Hpos.
    assert (Hex : existsb (fun c => String.eqb (cand_positionId c) id) (candidates db) = true).
    { apply existsb_exists. exists candidate. split; [exact Hin|].
      rewrite Hpid. apply String.eqb_refl. }
    rewrite Hex. reflexivity.
  - intros Hinv. split.
    + unfold adminRoutes.deletePosition.
      destruct (fileDb.findBy pos_id id (positions db)); [|exact Hinv].
      destruct (existsb _ (candidates db)) eqn:Hex; [exact Hinv|].
      intros candidate Hin. cbn [snd candidates positions set_positions] in *.
      destruct (Hinv candidate Hin) as (position & Hpos & Hid).
      exists position. split; [|exact Hid].
      apply remove_keeps_others; [exact Hpos|].
      rewrite Hid. intros E.
      assert (Hex' : existsb (fun c => String.eqb (cand_positionId c) id) (candidates db)
                     = true).
      { apply existsb_exists. exists candidate. split; [exact Hin|].
        rewrite E. apply String.eqb_refl. }
      congruence.
    + unfold adminRoutes.deleteCandidate.
      destruct (fileDb.findBy cand_id id (candidates db)); [|exact Hinv].
      intros candidate Hin. cbn [snd candidates positions set_candidates] in *.
      apply remove_subset in Hin. apply Hinv. exact Hin.
Qed.

Lemma deletions_keep_candidates_attached_witness :
  adminRoutes.deletePosition "position_1_AAAAAA" sample.db_idle
  = (DeleteRefused, sample.db_idle).
Proof.
  destruct (deletions_keep_candidates_attached "position_1_AAAAAA" sample.db_idle)
    as [Hrefused _].
  apply (Hrefused sample.president sample.ann).
  - reflexivity.
  - left. reflexivity.
  - reflexivity.
Defined.

(** ** Votes and members through the submit route *)

Lemma validateSession_members now token db :
  members (snd (authSessions.validateSession now token db)) = members db.
Proof.
  unfold authSessions.validateSession.
  destruct token as [t|]; [|reflexivity].
  destruct (negb _); [reflexivity|].
  destruct (fileDb.findBy sess_id t (sessions db)) as [s|]; [|reflexivity].
  destruct (_ <? now); [destruct (fileDb.remove _ _ _); reflexivity|].
  destruct (sess_memberId s); [|reflexivity].
  destruct (fileDb.findBy member_id _ _); [|reflexivity].
  destruct (fileDb.update _ _ _ _). reflexivity.
Qed.

Lemma validateSession_member now token db info :
  fst (authSessions.validateSession now token db) = Some info ->
  exists member, In member (members db) /\ member_id member = si_memberId info.
Proof.
  unfold authSessions.validateSession.
  destruct token as [t|]; [|discriminate].
  destruct (negb _); [discriminate|].
  destruct (fileDb.findBy sess_id t (sessions db)) as [s|]; [|discriminate].
  destruct (_ <? now); [destruct (fileDb.remove _ _ _); discriminate|].
  destruct (sess_memberId s) as [mid|]; [|discriminate].
  destruct (fileDb.findBy member_id mid (members db)) as [m|] eqn:Hm; [|discriminate].
  destruct (fileDb.update _ _ _ _). simpl. intros [= <-]. simpl.
  destruct (findBy_Some member_id mid _ m Hm) as [Hin _].
  exists m. auto.
Qed.

Lemma saveElectionStatus_members newStatus oldStatus db :
  members (snd (voting.saveElectionStatus newStatus oldStatus db)) = members db.
Proof.
  unfold voting.saveElectionStatus.
  destruct (fileDb.update _ _ _ _) as [r records]. reflexivity.
Qed.

Lemma getElectionStatus_members now db :
  members (snd (voting.getElectionStatus now db)) = members db.
Proof.
  unfold voting.getElectionStatus.
  destruct (isActive _ && truthy _); [|reflexivity].
  destruct (_ <=? 0); [|reflexivity].
  match goal with
  | |- context [voting.saveElectionStatus ?n ?o ?d] =>
      pose proof (saveElectionStatus_members n o d) as H;
      destruct (voting.saveElectionStatus n o d)
  end. exact H.
Qed.

Lemma submit_route_members now rnd memberId body db :
  members (snd (routes.submit now rnd memberId body db)) = members db.
Proof.
  unfold routes.submit.
  pose proof (getElectionStatus_members now db) as Hm.
  destruct (voting.getElectionStatus now db) as [status db1]. simpl in Hm.
  destruct (negb (sv_isActive status)); [exact Hm|].
  destruct body as [choices|]; [|exact Hm].
  destruct (_ =? 0)%nat; [exact Hm|].
  destruct (submitVote_cases now rnd memberId choices db1)
    as [[Hsame _]|(_ & _ & Hok)].
  - destruct (voting.submitVote now rnd memberId choices db1) as [r db2].
    simpl in Hsame. subst db2. destruct r; exact Hm.
  - rewrite Hok. simpl. exact Hm.
Qed.

(** X30: every vote cast through the submit route belongs to a stored
    member.  The route leaves the member file alone, and if every vote
    record named a stored member before a request, every vote record,
    the one the request may have added included, names one after it. *)
Theorem submitPipeline_keeps_votes_attached :
  forall now_auth now rnd cookie body db,
    members (snd (votingRoutes.submitPipeline now_auth now rnd cookie body db))
    = members db
    /\ (votesHaveMembers db ->
        votesHaveMembers
          (snd (votingRoutes.submitPipeline now_auth now rnd cookie body db))).
Proof.
  intros now_auth now rnd cookie body db.
  unfold votingRoutes.submitPipeline, middleware.authenticateUser.
  destruct cookie as [token|]; [|split; [reflexivity | auto]].
  destruct (negb (truthyStr token)); [split; [reflexivity | auto]|].
  pose proof (validateSession_votes now_auth (Some token) db) as Hvotes.
  pose proof (validateSession_members now_auth (Some token) db) as Hmembers.
  pose proof (validateSession_member now_auth (Some token) db) as Hmember.
  destruct (authSessions.validateSession now_auth (Some token) db) as [[info|] db1];
    simpl in Hvotes, Hmembers, Hmember.
  - destruct (middleware.checkVotingEligibility info).
    + simpl. split; [exact Hmembers|].
      unfold votesHaveMembers. rewrite Hvotes, Hmembers. auto.
    + pose proof (submit_route_members now rnd (si_memberId info) body db1) as Hm2.
      pose proof (submit_route_votes now rnd (si_memberId info) body db1) as Hv2.
      destruct (routes.submit now rnd (si_memberId info) body db1) as [r db2].
      simpl in *. split; [congruence|].
      intros Hinv vote Hin. rewrite Hm2, Hmembers.
      destruct Hv2 as [Hsame|(choices & _ & Happ)].
      * apply Hinv. rewrite <- Hvotes, <- Hsame. exact Hin.
      * rewrite Happ, Hvotes in Hin. apply in_app_or in Hin as [Hin|[<-|[]]].
        -- apply Hinv. exact Hin.
        -- destruct (Hmember info eq_refl) as (member & Hmem & Hid).
           exists member. split; [exact Hmem | exact Hid].
  - simpl. split; [exact Hmembers|].
    unfold votesHaveMembers. rewrite Hvotes, Hmembers. auto.
Qed.

Lemma submitPipeline_keeps_votes_attached_witness :
  votesHaveMembers
    (snd (votingRoutes.submitPipeline 10 1500 "x" (Some "tok_a")
            (Some (sample.ballot_for sample.bob))
            (set_electionStatus [sample.running_long] sample.db_logged_in))).
Proof.
  apply (submitPipeline_keeps_votes_attached
           10 1500 "x" (Some "tok_a") (Some (sample.ballot_for sample.bob))
           (set_electionStatus [sample.running_long] sample.db_logged_in)).
  intros vote [].
Defined.
